(** * The DEX offer store (src/dex/db/dexdb.cpp)

    A shallow embedding of [dex::DexDB], the SQLite-backed store of the
    offer book: the offer tables and the statements run on them, the
    observers notified by [finishTableOperation], the expiration sweeps,
    the sync manifests and the schema migration run by the constructor.

    Conventions.
    - A table is the list of its rows in insertion (rowid) order;
      [None] stands for a table that does not exist.
    - An SQL statement the code assembles as text is represented by a
      small syntax tree, built under the same tests as the text.
    - Integer columns hold signed 64-bit values; the casts the code
      performs around them are written out with their wrap-around.  A
      text column yields the text that was bound to it.
    - A statement fails when it does not prepare (a missing table or
      column) or breaks a key; the engine is otherwise taken to succeed
      (no lock timeout, no input/output error).  What the code does with
      a failure status, whatever its cause, is in [finishTableOperation].
    - A member function is a computation in the monad [M]: it reads and
      updates the [DexDB] object and either returns or throws.
    - [time(NULL)] is an argument, [now], of the functions that read the
      clock. *)

From Stdlib Require Import ZArith List String Ascii Bool Lia Permutation.
From stdpp Require Import gmap sorting strings.

Open Scope Z_scope.

(** ** Machine integers *)

Module Int.

Definition to_uint8 (z : Z) : Z := z mod 2 ^ 8.
Definition to_uint32 (z : Z) : Z := z mod 2 ^ 32.
Definition to_uint64 (z : Z) : Z := z mod 2 ^ 64.
Definition to_int32 (z : Z) : Z := (z + 2 ^ 31) mod 2 ^ 32 - 2 ^ 31.
Definition to_int64 (z : Z) : Z := (z + 2 ^ 63) mod 2 ^ 64 - 2 ^ 63.

Definition is_uint8 (z : Z) : Prop := 0 <= z < 2 ^ 8.
Definition is_uint32 (z : Z) : Prop := 0 <= z < 2 ^ 32.
Definition is_uint64 (z : Z) : Prop := 0 <= z < 2 ^ 64.
Definition is_int64 (z : Z) : Prop := - 2 ^ 63 <= z < 2 ^ 63.

End Int.

(** ** 256-bit identifiers and their text form *)

Module Uint256.

(** Modelled from the spec: [uint256] (uint256.h is not under src/).  The
    spec calls [hash] and [idTransaction] 256-bit values; the store keeps
    them as text, written by [GetHex] and read back by [SetHex].  A value
    is a [Z] in [0, 2^256); [GetHex] writes its 64 hexadecimal digits, most
    significant first; [SetHex] reads the leading hexadecimal digits of a
    text and keeps the low 256 bits.  The properties below use one fact
    about the pair: [SetHex] reads back what [GetHex] wrote. *)
Definition valid (h : Z) : Prop := 0 <= h < 2 ^ 256.

Definition hex_char (d : Z) : ascii :=
  match d with
  | 0 => "0" | 1 => "1" | 2 => "2" | 3 => "3" | 4 => "4" | 5 => "5"
  | 6 => "6" | 7 => "7" | 8 => "8" | 9 => "9" | 10 => "a" | 11 => "b"
  | 12 => "c" | 13 => "d" | 14 => "e" | _ => "f"
  end%char.

Definition hex_val (c : ascii) : option Z :=
  let n := Z.of_N (N_of_ascii c) in
  if (48 <=? n) && (n <=? 57) then Some (n - 48)
  else if (97 <=? n) && (n <=? 102) then Some (n - 87)
  else if (65 <=? n) && (n <=? 70) then Some (n - 55)
  else None.

Fixpoint to_hex (digits : nat) (h : Z) (tail : string) : string :=
  match digits with
  | O => tail
  | S k => to_hex k (h / 16) (String (hex_char (h mod 16)) tail)
  end.

Fixpoint of_hex (s : string) (acc : Z) : Z :=
  match s with
  | EmptyString => acc
  | String c s' =>
      match hex_val c with
      | Some d => of_hex s' (16 * acc + d)
      | None => acc
      end
  end.

(** Modelled from the spec: [uint256::GetHex] (uint256.h is not under
    src/), the text of a 256-bit value: its 64 hexadecimal digits. *)
Definition GetHex (h : Z) : string := to_hex 64 h EmptyString.

(** Modelled from the spec: [uint256::SetHex] (uint256.h is not under
    src/), the 256-bit value of a text of hexadecimal digits. *)
Definition SetHex (s : string) : Z := of_hex s 0 mod 2 ^ 256.

End Uint256.

(** ** Enumerations and records of the interface *)

(** The three offer tables.  The source passes their names as strings
    ("offersSell", "offersBuy", "myOffers"); no other name is ever passed. *)
Inductive TableName := offersSell | offersBuy | myOffers.

Definition TableName_eqb (a b : TableName) : bool :=
  match a, b with
  | offersSell, offersSell | offersBuy, offersBuy | myOffers, myOffers => true
  | _, _ => false
  end.

Inductive TypeTable :=
  Countries | Currencies | PaymentMethods | OffersSell | OffersBuy | MyOffers | FiltersList.

Inductive TypeTableOperation := Add | Edit | Delete | Read.

Inductive StatusTableOperation := Ok | Error.

Inductive OffersPeriod := Before | After | All.

Record OfferInfo := {
  idTransaction : Z;      (* uint256 *)
  hash : Z;               (* uint256 *)
  pubKey : string;
  countryIso : string;
  currencyIso : string;
  paymentMethod : Z;      (* uint8_t *)
  price : Z;              (* uint64_t *)
  minAmount : Z;          (* uint64_t *)
  timeCreate : Z;         (* uint64_t *)
  timeToExpiration : Z;   (* uint64_t *)
  timeModification : Z;   (* uint64_t *)
  shortInfo : string;
  details : string;
  editingVersion : Z;     (* uint32_t *)
  editsign : string
}.

(** [TypeOffer] and [StatusOffer] are enumerations the store handles as
    integers ([static_cast] on the way in and out). *)
Record MyOfferInfo := {
  getOfferInfo : OfferInfo;
  type : Z;
  status : Z
}.

Record CountryInfo := { country_iso : string; country_name : string; country_enabled : bool }.

Record CurrencyInfo := {
  currency_iso : string; currency_name : string; currency_symbol : string;
  currency_enabled : bool
}.

Record PaymentMethodInfo := { payment_type : Z; payment_name : string; payment_description : string }.

(** A record whose fields fit the C++ types that hold them. *)
Definition valid_offer (o : OfferInfo) : Prop :=
  Uint256.valid (idTransaction o) /\ Uint256.valid (hash o) /\
  Int.is_uint8 (paymentMethod o) /\
  Int.is_uint64 (price o) /\ Int.is_uint64 (minAmount o) /\
  Int.is_uint64 (timeCreate o) /\ Int.is_uint64 (timeToExpiration o) /\
  Int.is_uint64 (timeModification o) /\
  Int.is_uint32 (editingVersion o).

(** ** The database file *)

(** A row of an offer table, column by column.  [col_type] and
    [col_status] exist in myOffers only: they are [None] where the column
    is absent or NULL. *)
Record Row := {
  col_idTransaction : string;
  col_hash : string;
  col_pubKey : string;
  col_countryIso : string;
  col_currencyIso : string;
  col_paymentMethod : Z;
  col_price : Z;
  col_minAmount : Z;
  col_timeCreate : Z;
  col_timeToExpiration : Z;
  col_timeModification : Z;
  col_shortInfo : string;
  col_details : string;
  col_type : option Z;
  col_status : option Z;
  col_editingVersion : Z;
  col_editsign : string
}.

Record CountryRow := {
  countries_iso : string; countries_name : string; countries_enabled : bool;
  countries_currencyId : Z; countries_sortOrder : Z
}.

Record CurrencyRow := {
  currencies_id : Z; currencies_iso : string; currencies_name : string;
  currencies_symbol : string; currencies_enabled : bool; currencies_sortOrder : Z
}.

Record PaymentRow := {
  paymentMethods_type : Z; paymentMethods_name : string;
  paymentMethods_description : string; paymentMethods_sortOrder : Z
}.

(** CREATE [UNIQUE] INDEX idx_name ON idx_table(idx_columns) *)
Record Index := {
  idx_name : string;
  idx_table : string;
  idx_unique : bool;
  idx_columns : string
}.

Record Database := {
  t_dbversion : option (list Z);
  t_countries : option (list CountryRow);
  t_currencies : option (list CurrencyRow);
  t_paymentMethods : option (list PaymentRow);
  t_myOffers : option (list Row);
  t_offersSell : option (list Row);
  t_offersBuy : option (list Row);
  t_filterList : option (list string);
  t_countries_old : option (list CountryRow);
  t_currencies_old : option (list CurrencyRow);
  t_paymentMethods_old : option (list PaymentRow);
  t_myOffers_old : option (list Row);
  t_offersSell_old : option (list Row);
  t_offersBuy_old : option (list Row);
  indexes : list Index;
  (* what PRAGMA integrity_check reports on this file, rows concatenated *)
  integrity_check : string
}.

Definition get_table (t : TableName) (d : Database) : option (list Row) :=
  match t with
  | offersSell => t_offersSell d
  | offersBuy => t_offersBuy d
  | myOffers => t_myOffers d
  end.

Definition set_table (t : TableName) (rows : option (list Row)) (d : Database) : Database :=
  {| t_dbversion := t_dbversion d; t_countries := t_countries d;
     t_currencies := t_currencies d; t_paymentMethods := t_paymentMethods d;
     t_myOffers := match t with myOffers => rows | _ => t_myOffers d end;
     t_offersSell := match t with offersSell => rows | _ => t_offersSell d end;
     t_offersBuy := match t with offersBuy => rows | _ => t_offersBuy d end;
     t_filterList := t_filterList d;
     t_countries_old := t_countries_old d; t_currencies_old := t_currencies_old d;
     t_paymentMethods_old := t_paymentMethods_old d;
     t_myOffers_old := t_myOffers_old d; t_offersSell_old := t_offersSell_old d;
     t_offersBuy_old := t_offersBuy_old d;
     indexes := indexes d; integrity_check := integrity_check d |}.

Definition get_table_old (t : TableName) (d : Database) : option (list Row) :=
  match t with
  | offersSell => t_offersSell_old d
  | offersBuy => t_offersBuy_old d
  | myOffers => t_myOffers_old d
  end.

Definition set_table_old (t : TableName) (rows : option (list Row)) (d : Database) : Database :=
  {| t_dbversion := t_dbversion d; t_countries := t_countries d;
     t_currencies := t_currencies d; t_paymentMethods := t_paymentMethods d;
     t_myOffers := t_myOffers d; t_offersSell := t_offersSell d;
     t_offersBuy := t_offersBuy d; t_filterList := t_filterList d;
     t_countries_old := t_countries_old d; t_currencies_old := t_currencies_old d;
     t_paymentMethods_old := t_paymentMethods_old d;
     t_myOffers_old := match t with myOffers => rows | _ => t_myOffers_old d end;
     t_offersSell_old := match t with offersSell => rows | _ => t_offersSell_old d end;
     t_offersBuy_old := match t with offersBuy => rows | _ => t_offersBuy_old d end;
     indexes := indexes d; integrity_check := integrity_check d |}.

Definition set_dbversion (v : option (list Z)) (d : Database) : Database :=
  {| t_dbversion := v; t_countries := t_countries d;
     t_currencies := t_currencies d; t_paymentMethods := t_paymentMethods d;
     t_myOffers := t_myOffers d; t_offersSell := t_offersSell d;
     t_offersBuy := t_offersBuy d; t_filterList := t_filterList d;
     t_countries_old := t_countries_old d; t_currencies_old := t_currencies_old d;
     t_paymentMethods_old := t_paymentMethods_old d;
     t_myOffers_old := t_myOffers_old d; t_offersSell_old := t_offersSell_old d;
     t_offersBuy_old := t_offersBuy_old d;
     indexes := indexes d; integrity_check := integrity_check d |}.

Definition set_countries (v : option (list CountryRow)) (d : Database) : Database :=
  {| t_dbversion := t_dbversion d; t_countries := v;
     t_currencies := t_currencies d; t_paymentMethods := t_paymentMethods d;
     t_myOffers := t_myOffers d; t_offersSell := t_offersSell d;
     t_offersBuy := t_offersBuy d; t_filterList := t_filterList d;
     t_countries_old := t_countries_old d; t_currencies_old := t_currencies_old d;
     t_paymentMethods_old := t_paymentMethods_old d;
     t_myOffers_old := t_myOffers_old d; t_offersSell_old := t_offersSell_old d;
     t_offersBuy_old := t_offersBuy_old d;
     indexes := indexes d; integrity_check := integrity_check d |}.

Definition set_currencies (v : option (list CurrencyRow)) (d : Database) : Database :=
  {| t_dbversion := t_dbversion d; t_countries := t_countries d;
     t_currencies := v; t_paymentMethods := t_paymentMethods d;
     t_myOffers := t_myOffers d; t_offersSell := t_offersSell d;
     t_offersBuy := t_offersBuy d; t_filterList := t_filterList d;
     t_countries_old := t_countries_old d; t_currencies_old := t_currencies_old d;
     t_paymentMethods_old := t_paymentMethods_old d;
     t_myOffers_old := t_myOffers_old d; t_offersSell_old := t_offersSell_old d;
     t_offersBuy_old := t_offersBuy_old d;
     indexes := indexes d; integrity_check := integrity_check d |}.

Definition set_paymentMethods (v : option (list PaymentRow)) (d : Database) : Database :=
  {| t_dbversion := t_dbversion d; t_countries := t_countries d;
     t_currencies := t_currencies d; t_paymentMethods := v;
     t_myOffers := t_myOffers d; t_offersSell := t_offersSell d;
     t_offersBuy := t_offersBuy d; t_filterList := t_filterList d;
     t_countries_old := t_countries_old d; t_currencies_old := t_currencies_old d;
     t_paymentMethods_old := t_paymentMethods_old d;
     t_myOffers_old := t_myOffers_old d; t_offersSell_old := t_offersSell_old d;
     t_offersBuy_old := t_offersBuy_old d;
     indexes := indexes d; integrity_check := integrity_check d |}.

Definition set_filterList (v : option (list string)) (d : Database) : Database :=
  {| t_dbversion := t_dbversion d; t_countries := t_countries d;
     t_currencies := t_currencies d; t_paymentMethods := t_paymentMethods d;
     t_myOffers := t_myOffers d; t_offersSell := t_offersSell d;
     t_offersBuy := t_offersBuy d; t_filterList := v;
     t_countries_old := t_countries_old d; t_currencies_old := t_currencies_old d;
     t_paymentMethods_old := t_paymentMethods_old d;
     t_myOffers_old := t_myOffers_old d; t_offersSell_old := t_offersSell_old d;
     t_offersBuy_old := t_offersBuy_old d;
     indexes := indexes d; integrity_check := integrity_check d |}.

Definition set_countries_old (v : option (list CountryRow)) (d : Database) : Database :=
  {| t_dbversion := t_dbversion d; t_countries := t_countries d;
     t_currencies := t_currencies d; t_paymentMethods := t_paymentMethods d;
     t_myOffers := t_myOffers d; t_offersSell := t_offersSell d;
     t_offersBuy := t_offersBuy d; t_filterList := t_filterList d;
     t_countries_old := v; t_currencies_old := t_currencies_old d;
     t_paymentMethods_old := t_paymentMethods_old d;
     t_myOffers_old := t_myOffers_old d; t_offersSell_old := t_offersSell_old d;
     t_offersBuy_old := t_offersBuy_old d;
     indexes := indexes d; integrity_check := integrity_check d |}.

Definition set_currencies_old (v : option (list CurrencyRow)) (d : Database) : Database :=
  {| t_dbversion := t_dbversion d; t_countries := t_countries d;
     t_currencies := t_currencies d; t_paymentMethods := t_paymentMethods d;
     t_myOffers := t_myOffers d; t_offersSell := t_offersSell d;
     t_offersBuy := t_offersBuy d; t_filterList := t_filterList d;
     t_countries_old := t_countries_old d; t_currencies_old := v;
     t_paymentMethods_old := t_paymentMethods_old d;
     t_myOffers_old := t_myOffers_old d; t_offersSell_old := t_offersSell_old d;
     t_offersBuy_old := t_offersBuy_old d;
     indexes := indexes d; integrity_check := integrity_check d |}.

Definition set_paymentMethods_old (v : option (list PaymentRow)) (d : Database) : Database :=
  {| t_dbversion := t_dbversion d; t_countries := t_countries d;
     t_currencies := t_currencies d; t_paymentMethods := t_paymentMethods d;
     t_myOffers := t_myOffers d; t_offersSell := t_offersSell d;
     t_offersBuy := t_offersBuy d; t_filterList := t_filterList d;
     t_countries_old := t_countries_old d; t_currencies_old := t_currencies_old d;
     t_paymentMethods_old := v;
     t_myOffers_old := t_myOffers_old d; t_offersSell_old := t_offersSell_old d;
     t_offersBuy_old := t_offersBuy_old d;
     indexes := indexes d; integrity_check := integrity_check d |}.

Definition set_indexes (v : list Index) (d : Database) : Database :=
  {| t_dbversion := t_dbversion d; t_countries := t_countries d;
     t_currencies := t_currencies d; t_paymentMethods := t_paymentMethods d;
     t_myOffers := t_myOffers d; t_offersSell := t_offersSell d;
     t_offersBuy := t_offersBuy d; t_filterList := t_filterList d;
     t_countries_old := t_countries_old d; t_currencies_old := t_currencies_old d;
     t_paymentMethods_old := t_paymentMethods_old d;
     t_myOffers_old := t_myOffers_old d; t_offersSell_old := t_offersSell_old d;
     t_offersBuy_old := t_offersBuy_old d;
     indexes := v; integrity_check := integrity_check d |}.

(** ** The object and its member functions *)

(** An observer is a [CallBackDB*]: the address, [0] for [nullptr]. *)
Definition nullptr : N := 0%N.

(** One call of [CallBackDB::finishTableOperation] on an observer. *)
Record Event := {
  ev_observer : N;
  ev_table : TypeTable;
  ev_operation : TypeTableOperation;
  ev_status : StatusTableOperation
}.

Record DexDB := {
  db : Database;
  countries : list CountryInfo;
  currencies : list CurrencyInfo;
  payments : list PaymentMethodInfo;
  isGetCountriesDataFromDB : bool;
  isGetCurrenciesDataFromDB : bool;
  isGetPaymentsDataFromDB : bool;
  callBack : gmap N Z;            (* static std::map<CallBackDB*, int> *)
  bOffersRescan : bool;           (* static *)
  (* the calls made on the observers so far, oldest first *)
  delivered : list Event
}.

Inductive Exception :=
| DexDBException (status : Z)
| database_error (msg : string).

Inductive Result (A : Type) :=
| Return (a : A)
| Throw (e : Exception).
Arguments Return {A} a.
Arguments Throw {A} e.

Definition M (A : Type) : Type := DexDB -> Result A * DexDB.

Definition ret {A} (a : A) : M A := fun s => (Return a, s).

Definition bind {A B} (m : M A) (k : A -> M B) : M B :=
  fun s =>
    match m s with
    | (Return a, s') => k a s'
    | (Throw e, s') => (Throw e, s')
    end.

Definition throw {A} (e : Exception) : M A := fun s => (Throw e, s).

Definition gets {A} (f : DexDB -> A) : M A := fun s => (Return (f s), s).

Definition modify (f : DexDB -> DexDB) : M unit := fun s => (Return tt, f s).

Notation "x <- m ;; k" := (bind m (fun x => k))
  (at level 90, m at level 89, right associativity).
Notation "m ;;; k" := (bind m (fun _ => k))
  (at level 90, right associativity).

Fixpoint for_each {A} (l : list A) (body : A -> M unit) : M unit :=
  match l with
  | nil => ret tt
  | x :: l' => body x ;;; for_each l' body
  end.

Definition with_db (f : Database -> Database) (s : DexDB) : DexDB :=
  {| db := f (db s); countries := countries s; currencies := currencies s;
     payments := payments s;
     isGetCountriesDataFromDB := isGetCountriesDataFromDB s;
     isGetCurrenciesDataFromDB := isGetCurrenciesDataFromDB s;
     isGetPaymentsDataFromDB := isGetPaymentsDataFromDB s;
     callBack := callBack s; bOffersRescan := bOffersRescan s;
     delivered := delivered s |}.

Definition with_delivered (f : list Event -> list Event) (s : DexDB) : DexDB :=
  {| db := db s; countries := countries s; currencies := currencies s;
     payments := payments s;
     isGetCountriesDataFromDB := isGetCountriesDataFromDB s;
     isGetCurrenciesDataFromDB := isGetCurrenciesDataFromDB s;
     isGetPaymentsDataFromDB := isGetPaymentsDataFromDB s;
     callBack := callBack s; bOffersRescan := bOffersRescan s;
     delivered := f (delivered s) |}.

Definition with_callBack (f : gmap N Z -> gmap N Z) (s : DexDB) : DexDB :=
  {| db := db s; countries := countries s; currencies := currencies s;
     payments := payments s;
     isGetCountriesDataFromDB := isGetCountriesDataFromDB s;
     isGetCurrenciesDataFromDB := isGetCurrenciesDataFromDB s;
     isGetPaymentsDataFromDB := isGetPaymentsDataFromDB s;
     callBack := f (callBack s); bOffersRescan := bOffersRescan s;
     delivered := delivered s |}.

(** ** Statements and their execution *)

Definition SQLITE_OK : Z := 0.
Definition SQLITE_CONSTRAINT : Z := 19.

(** The comparisons that occur in the WHERE clauses of the code.  A text
    comparison stands for the clause the code writes by concatenation
    ([" countryIso = '" + countryIso + "'"]), for a text without a quote. *)
Inductive Cond :=
| idTransaction_eq (s : string)
| hash_eq (s : string)
| countryIso_eq (s : string)
| currencyIso_eq (s : string)
| paymentMethod_eq (n : Z)
| type_eq (n : Z)
| status_eq (n : Z)
| timeToExpiration_le (t : Z)
| timeToExpiration_lt (t : Z)
| timeModification_lt (t : Z)
| timeModification_ge (t : Z).

Definition has_column (t : TableName) (c : Cond) : bool :=
  match c with
  | type_eq _ | status_eq _ => TableName_eqb t myOffers
  | _ => true
  end.

Definition Cond_holds (c : Cond) (r : Row) : bool :=
  match c with
  | idTransaction_eq s => String.eqb (col_idTransaction r) s
  | hash_eq s => String.eqb (col_hash r) s
  | countryIso_eq s => String.eqb (col_countryIso r) s
  | currencyIso_eq s => String.eqb (col_currencyIso r) s
  | paymentMethod_eq n => col_paymentMethod r =? n
  | type_eq n => match col_type r with Some v => v =? n | None => false end
  | status_eq n => match col_status r with Some v => v =? n | None => false end
  | timeToExpiration_le t => col_timeToExpiration r <=? t
  | timeToExpiration_lt t => col_timeToExpiration r <? t
  | timeModification_lt t => col_timeModification r <? t
  | timeModification_ge t => t <=? col_timeModification r
  end.

Definition where_holds (w : list Cond) (r : Row) : bool :=
  forallb (fun c => Cond_holds c r) w.

(** SELECT ... FROM q_from [WHERE c1 AND c2 ...] [LIMIT n [OFFSET m]] *)
Record Query := {
  q_from : TableName;
  q_where : list Cond;
  q_limit : option (Z * option Z)
}.

Definition select (q : Query) (rows : list Row) : list Row :=
  let matched := List.filter (where_holds (q_where q)) rows in
  match q_limit q with
  | None => matched
  | Some (n, None) => firstn (Z.to_nat n) matched
  | Some (n, Some m) => firstn (Z.to_nat n) (skipn (Z.to_nat m) matched)
  end.

(** The column lists of the three UPDATE statements. *)
Inductive SetList :=
| set_offer      (* editOffer: all columns but idTransaction *)
| set_myOffer    (* editMyOffer: all columns but hash and pubKey *)
| set_status.    (* status alone *)

Inductive Command :=
| INSERT (t : TableName)
| UPDATE (t : TableName) (cols : SetList) (w : Cond)
| DELETE (t : TableName) (w : Cond).

Definition cmd_table (c : Command) : TableName :=
  match c with INSERT t | UPDATE t _ _ | DELETE t _ => t end.

Definition set_col_status (v : option Z) (x : Row) : Row :=
  {| col_idTransaction := col_idTransaction x; col_hash := col_hash x;
     col_pubKey := col_pubKey x; col_countryIso := col_countryIso x;
     col_currencyIso := col_currencyIso x;
     col_paymentMethod := col_paymentMethod x; col_price := col_price x;
     col_minAmount := col_minAmount x; col_timeCreate := col_timeCreate x;
     col_timeToExpiration := col_timeToExpiration x;
     col_timeModification := col_timeModification x;
     col_shortInfo := col_shortInfo x; col_details := col_details x;
     col_type := col_type x; col_status := v;
     col_editingVersion := col_editingVersion x;
     col_editsign := col_editsign x |}.

(** [assign cols p x]: row [x] after SET, the values taken from the bound
    parameters [p]. *)
Definition assign (cols : SetList) (p x : Row) : Row :=
  match cols with
  | set_offer =>
      {| col_idTransaction := col_idTransaction x; col_hash := col_hash p;
         col_pubKey := col_pubKey p; col_countryIso := col_countryIso p;
         col_currencyIso := col_currencyIso p;
         col_paymentMethod := col_paymentMethod p; col_price := col_price p;
         col_minAmount := col_minAmount p; col_timeCreate := col_timeCreate p;
         col_timeToExpiration := col_timeToExpiration p;
         col_timeModification := col_timeModification p;
         col_shortInfo := col_shortInfo p; col_details := col_details p;
         col_type := col_type x; col_status := col_status x;
         col_editingVersion := col_editingVersion p;
         col_editsign := col_editsign p |}
  | set_myOffer =>
      {| col_idTransaction := col_idTransaction p; col_hash := col_hash x;
         col_pubKey := col_pubKey x; col_countryIso := col_countryIso p;
         col_currencyIso := col_currencyIso p;
         col_paymentMethod := col_paymentMethod p; col_price := col_price p;
         col_minAmount := col_minAmount p; col_timeCreate := col_timeCreate p;
         col_timeToExpiration := col_timeToExpiration p;
         col_timeModification := col_timeModification p;
         col_shortInfo := col_shortInfo p; col_details := col_details p;
         col_type := col_type p; col_status := col_status p;
         col_editingVersion := col_editingVersion p;
         col_editsign := col_editsign p |}
  | set_status => set_col_status (col_status p) x
  end.

(** One step of a prepared command on the rows of its table: the status
    and the rows afterwards.  [hash] is the primary key of each offer
    table, so an INSERT of a present hash is refused and changes nothing;
    the unique index on (hash, editingVersion) is implied by the key. *)
Definition step (c : Command) (p : Row) (rows : list Row) : Z * list Row :=
  match c with
  | INSERT _ =>
      if existsb (fun x => String.eqb (col_hash x) (col_hash p)) rows
      then (SQLITE_CONSTRAINT, rows)
      else (SQLITE_OK, rows ++ [p])
  | UPDATE _ cols w =>
      (SQLITE_OK, map (fun x => if Cond_holds w x then assign cols p x else x) rows)
  | DELETE _ w =>
      (SQLITE_OK, List.filter (fun x => negb (Cond_holds w x)) rows)
  end.

(** The row read when the cursor is past the last row: every column NULL,
    which the getters turn into the empty text and zero. *)
Definition null_row : Row :=
  {| col_idTransaction := ""; col_hash := ""; col_pubKey := "";
     col_countryIso := ""; col_currencyIso := ""; col_paymentMethod := 0;
     col_price := 0; col_minAmount := 0; col_timeCreate := 0;
     col_timeToExpiration := 0; col_timeModification := 0;
     col_shortInfo := ""; col_details := ""; col_type := None;
     col_status := None; col_editingVersion := 0; col_editsign := "" |}.

(** [sqlite3pp::command cmd(db, text); bind...; cmd.execute()]: the
    constructor throws when the statement does not prepare. *)
Definition prepares (c : Command) (p : Row) : bool :=
  match c with
  | INSERT t =>
      match col_type p, col_status p with
      | None, None => true
      | _, _ => TableName_eqb t myOffers
      end
  | UPDATE t cols w =>
      has_column t w &&
      match cols with set_offer => true | _ => TableName_eqb t myOffers end
  | DELETE t w => has_column t w
  end.

Definition execute (c : Command) (p : Row) : M Z :=
  fun s =>
    match get_table (cmd_table c) (db s) with
    | None => (Throw (database_error "no such table"), s)
    | Some rows =>
        if prepares c p then
          let '(rc, rows') := step c p rows in
          (Return rc, with_db (set_table (cmd_table c) (Some rows')) s)
        else (Throw (database_error "no such column"), s)
    end.

(** [sqlite3pp::query qry(db, text)] and the rows its iteration yields. *)
Definition query (q : Query) : M (list Row) :=
  fun s =>
    match get_table (q_from q) (db s) with
    | None => (Throw (database_error "no such table"), s)
    | Some rows =>
        if forallb (has_column (q_from q)) (q_where q)
        then (Return (select q rows), s)
        else (Throw (database_error "no such column"), s)
    end.

(** [qry.finish()] *)
Definition finish : Z := SQLITE_OK.

(** ** Member functions of [DexDB] *)

(** The observers in the order [for (auto &item : callBack)] visits them:
    a [std::map] iterates by increasing key. *)
Definition observers (cb : gmap N Z) : list N :=
  merge_sort N.le (map_to_list cb).*1.

(** [item.first->finishTableOperation(tables, operation, s)] *)
Definition notify (item : N) (tables : TypeTable) (operation : TypeTableOperation)
    (s : StatusTableOperation) : M unit :=
  modify (with_delivered (fun d =>
    d ++ [{| ev_observer := item; ev_table := tables;
             ev_operation := operation; ev_status := s |}])).

Definition finishTableOperation (tables : TypeTable) (operation : TypeTableOperation)
    (status : Z) : M unit :=
  if negb (status =? 0) then throw (DexDBException status)
  else
    cb <- gets callBack ;;
    if (0 <? Z.of_nat (size cb)) then
      let s := if status =? 1 then Error else Ok in
      for_each (observers cb) (fun item =>
        if negb (N.eqb item nullptr)
        then notify item tables operation s
        else ret tt)
    else ret tt.

Definition addCallBack (cb : N) : M unit :=
  modify (with_callBack (fun m => <[cb := default 0 (m !! cb) + 1]> m)).


Definition bindOfferData (offer : OfferInfo) : Row :=
  {| col_idTransaction := Uint256.GetHex (idTransaction offer);
     col_hash := Uint256.GetHex (hash offer);
     col_pubKey := pubKey offer;
     col_countryIso := countryIso offer;
     col_currencyIso := currencyIso offer;
     col_paymentMethod := paymentMethod offer;
     col_price := Int.to_int64 (price offer);
     col_minAmount := Int.to_int64 (minAmount offer);
     col_timeCreate := Int.to_int64 (timeCreate offer);
     col_timeToExpiration := Int.to_int64 (timeToExpiration offer);
     col_timeModification := Int.to_int64 (timeModification offer);
     col_shortInfo := shortInfo offer;
     col_details := details offer;
     col_type := None;
     col_status := None;
     col_editingVersion := Int.to_int32 (editingVersion offer);
     col_editsign := editsign offer |}.

(** [cmd.bind(":type", offer.type); cmd.bind(":status", offer.status)] *)
Definition bind_type_status (p : Row) (t st : Z) : Row :=
  {| col_idTransaction := col_idTransaction p; col_hash := col_hash p;
     col_pubKey := col_pubKey p; col_countryIso := col_countryIso p;
     col_currencyIso := col_currencyIso p;
     col_paymentMethod := col_paymentMethod p; col_price := col_price p;
     col_minAmount := col_minAmount p; col_timeCreate := col_timeCreate p;
     col_timeToExpiration := col_timeToExpiration p;
     col_timeModification := col_timeModification p;
     col_shortInfo := col_shortInfo p; col_details := col_details p;
     col_type := Some t; col_status := Some st;
     col_editingVersion := col_editingVersion p;
     col_editsign := col_editsign p |}.

Definition addOrEditOffer (query : Command) (offer : OfferInfo) : M Z :=
  execute query (bindOfferData offer).

Definition addOrEditMyOffer (query : Command) (offer : MyOfferInfo) : M Z :=
  execute query
    (bind_type_status (bindOfferData (getOfferInfo offer)) (type offer) (status offer)).

Definition addOffer (tableName : TableName) (offer : OfferInfo) : M unit :=
  let query := INSERT tableName in
  status <- addOrEditOffer query offer ;;
  let tTable := if TableName_eqb tableName offersBuy then OffersBuy else OffersSell in
  finishTableOperation tTable Add status.

Definition editOffer (tableName : TableName) (offer : OfferInfo) : M unit :=
  let query :=
    UPDATE tableName set_offer (hash_eq (Uint256.GetHex (hash offer))) in
  status <- addOrEditOffer query offer ;;
  let tTable := if TableName_eqb tableName offersBuy then OffersBuy else OffersSell in
  finishTableOperation tTable Edit status.

Definition addMyOffer (offer : MyOfferInfo) : M unit :=
  let query := INSERT myOffers in
  status <- addOrEditMyOffer query offer ;;
  finishTableOperation MyOffers Add status.

Definition editMyOffer (offer : MyOfferInfo) : M unit :=
  let query :=
    UPDATE myOffers set_myOffer
      (hash_eq (Uint256.GetHex (hash (getOfferInfo offer)))) in
  status <- addOrEditMyOffer query offer ;;
  finishTableOperation MyOffers Edit status.

Definition tTable_of_delete (tableName : TableName) : TypeTable :=
  if TableName_eqb tableName offersBuy then OffersBuy
  else if TableName_eqb tableName myOffers then MyOffers
  else OffersSell.

Definition deleteOffer (tableName : TableName) (idTransaction : Z) : M unit :=
  status <- execute
    (DELETE tableName (idTransaction_eq (Uint256.GetHex idTransaction))) null_row ;;
  finishTableOperation (tTable_of_delete tableName) Delete status.

Definition deleteOfferByHash (tableName : TableName) (hash : Z) : M unit :=
  status <- execute (DELETE tableName (hash_eq (Uint256.GetHex hash))) null_row ;;
  finishTableOperation (tTable_of_delete tableName) Delete status.

(** [now] is the value of [time(NULL)] at the call. *)
Definition deleteOldOffers (tableName : TableName) (now : Z) : M unit :=
  let currentTime := Int.to_int64 now in
  status <- execute (DELETE tableName (timeToExpiration_le currentTime)) null_row ;;
  finishTableOperation (tTable_of_delete tableName) Delete status.

Definition getOffer (it : Row) : OfferInfo :=
  {| idTransaction := Uint256.SetHex (col_idTransaction it);
     hash := Uint256.SetHex (col_hash it);
     pubKey := col_pubKey it;
     countryIso := col_countryIso it;
     currencyIso := col_currencyIso it;
     paymentMethod := Int.to_uint8 (col_paymentMethod it);
     price := Int.to_uint64 (col_price it);
     minAmount := Int.to_uint64 (col_minAmount it);
     timeCreate := Int.to_uint64 (col_timeCreate it);
     timeToExpiration := Int.to_uint64 (col_timeToExpiration it);
     timeModification := Int.to_uint64 (col_timeModification it);
     shortInfo := col_shortInfo it;
     details := col_details it;
     editingVersion := Int.to_uint32 (Int.to_int32 (col_editingVersion it));
     editsign := col_editsign it |}.

Definition getMyOffer (it : Row) : MyOfferInfo :=
  {| getOfferInfo := getOffer it;
     type := Int.to_int32 (default 0 (col_type it));
     status := Int.to_int32 (default 0 (col_status it)) |}.

Definition tTable_of_read (tableName : TableName) : TypeTable :=
  if TableName_eqb tableName offersSell then OffersSell else OffersBuy.

(** [getOffers(tableName)] *)
Definition getOffers_all (tableName : TableName) : M (list OfferInfo) :=
  rows <- query {| q_from := tableName; q_where := []; q_limit := None |} ;;
  let offers := map getOffer rows in
  let status := finish in
  finishTableOperation (tTable_of_read tableName) Read status ;;;
  ret offers.

(** The WHERE clause common to the filtered reads, built as the code
    appends to [where].  [payment] is an [unsigned char]. *)
Definition where_iso_payment (countryIso currencyIso : string) (payment : Z) : list Cond :=
  let where_ := [] in
  let where_ :=
    if negb (String.eqb countryIso "") then where_ ++ [countryIso_eq countryIso]
    else where_ in
  let where_ :=
    if negb (String.eqb currencyIso "") then where_ ++ [currencyIso_eq currencyIso]
    else where_ in
  let where_ :=
    if 0 <? payment then where_ ++ [paymentMethod_eq payment] else where_ in
  where_.

Definition where_type_status (where_ : list Cond) (type statusOffer : Z) : list Cond :=
  let where_ := if 0 <=? type then where_ ++ [type_eq type] else where_ in
  let where_ :=
    if 0 <? statusOffer then where_ ++ [status_eq statusOffer] else where_ in
  where_.

Definition limit_offset (limit offset : Z) : option (Z * option Z) :=
  if 0 <? limit then
    Some (limit, if 0 <? offset then Some offset else None)
  else None.

(** [getOffers(tableName, countryIso, currencyIso, payment, limit, offset)] *)
Definition getOffers (tableName : TableName) (countryIso currencyIso : string)
    (payment limit offset : Z) : M (list OfferInfo) :=
  let where_ := where_iso_payment countryIso currencyIso payment in
  rows <- query {| q_from := tableName; q_where := where_;
                   q_limit := limit_offset limit offset |} ;;
  let offers := map getOffer rows in
  let status := finish in
  finishTableOperation (tTable_of_read tableName) Read status ;;;
  ret offers.

(** [getOffer(guery, status)]: the first row of the query. *)
Definition getOffer_query (guery : Query) : M (OfferInfo * Z) :=
  rows <- query guery ;;
  let info := getOffer (hd null_row rows) in
  ret (info, finish).

(** [getOffer(tableName, idTransaction)] *)
Definition getOffer_byId (tableName : TableName) (idTransaction : Z) : M OfferInfo :=
  r <- getOffer_query
    {| q_from := tableName;
       q_where := [idTransaction_eq (Uint256.GetHex idTransaction)];
       q_limit := None |} ;;
  let info := fst r in
  let status := snd r in
  finishTableOperation (tTable_of_read tableName) Read status ;;;
  ret info.

Definition getOfferByHash (tableName : TableName) (hash : Z) : M OfferInfo :=
  r <- getOffer_query
    {| q_from := tableName;
       q_where := [hash_eq (Uint256.GetHex hash)];
       q_limit := None |} ;;
  let info := fst r in
  let status := snd r in
  finishTableOperation (tTable_of_read tableName) Read status ;;;
  ret info.

Definition isExistOffer (tableName : TableName) (idTransaction : Z) : M bool :=
  rows <- query {| q_from := tableName;
                   q_where := [idTransaction_eq (Uint256.GetHex idTransaction)];
                   q_limit := None |} ;;
  let count := Int.to_int32 (Z.of_nat (length rows)) in
  let status := finish in
  finishTableOperation (tTable_of_read tableName) Read status ;;;
  ret (0 <? count).

Definition isExistOfferByHash (tableName : TableName) (hash : Z) : M bool :=
  rows <- query {| q_from := tableName;
                   q_where := [hash_eq (Uint256.GetHex hash)];
                   q_limit := None |} ;;
  let count := Int.to_int32 (Z.of_nat (length rows)) in
  let status := finish in
  finishTableOperation (tTable_of_read tableName) Read status ;;;
  ret (0 <? count).

Definition where_period (from : OffersPeriod) (timeMod : Z) : list Cond :=
  match from with
  | Before => [timeModification_lt timeMod]
  | After => [timeModification_ge timeMod]
  | All => []
  end.

(** SELECT DISTINCT hash, editingVersion FROM ...: the distinct pairs,
    listed in the order of the rows.  The engine is free to list them in
    the order of an index instead; the statements about the manifests
    speak of the pairs a manifest holds and not of their order. *)
Definition distinct_hash_version (rows : list Row) : list (string * Z) :=
  remove_dups (map (fun r => (col_hash r, col_editingVersion r)) rows).

Definition getHashsAndEditingVersions (tableName : TableName) (from : OffersPeriod)
    (timeMod : Z) : M (list (Z * Z)) :=
  rows <- query {| q_from := tableName; q_where := where_period from timeMod;
                   q_limit := None |} ;;
  let vHashesAndEditingVersions :=
    map (fun i : string * Z =>
           (Uint256.SetHex (fst i), Int.to_uint32 (Int.to_int32 (snd i))))
        (distinct_hash_version rows) in
  let status := finish in
  finishTableOperation (tTable_of_read tableName) Read status ;;;
  ret vHashesAndEditingVersions.

Definition getHashs (tableName : TableName) : M (list Z) :=
  rows <- query {| q_from := tableName; q_where := []; q_limit := None |} ;;
  let ids := map (fun r => Uint256.SetHex (col_hash r)) rows in
  let status := finish in
  finishTableOperation (tTable_of_read tableName) Read status ;;;
  ret ids.

(** [countOffers(tableName, status)]: the count and the status. *)
Definition countOffers_all (tableName : TableName) : M (Z * Z) :=
  rows <- query {| q_from := tableName; q_where := []; q_limit := None |} ;;
  ret (Int.to_uint64 (Z.of_nat (length rows)), finish).

(** [countOffers(tableName, from, timeMod, status)] *)
Definition countOffers_period (tableName : TableName) (from : OffersPeriod)
    (timeMod : Z) : M (Z * Z) :=
  rows <- query {| q_from := tableName; q_where := where_period from timeMod;
                   q_limit := None |} ;;
  ret (Int.to_uint64 (Z.of_nat (length rows)), finish).

(** [countOffers(tableName, countryIso, currencyIso, payment, type,
    statusOffer, status)] *)
Definition countOffers (tableName : TableName) (countryIso currencyIso : string)
    (payment type statusOffer : Z) : M (Z * Z) :=
  let where_ :=
    where_type_status (where_iso_payment countryIso currencyIso payment)
      type statusOffer in
  rows <- query {| q_from := tableName; q_where := where_; q_limit := None |} ;;
  ret (Int.to_uint64 (Z.of_nat (length rows)), finish).

(** SELECT MAX(timeModification): NULL, read as 0, on an empty table. *)
Definition max_timeModification (rows : list Row) : Z :=
  match rows with
  | [] => 0
  | r :: rows' => fold_left Z.max (map col_timeModification rows') (col_timeModification r)
  end.

Definition lastModificationOffers (tableName : TableName) : M (Z * Z) :=
  rows <- query {| q_from := tableName; q_where := []; q_limit := None |} ;;
  ret (Int.to_uint64 (max_timeModification rows), finish).

(** [getMyOffers()] *)
Definition getMyOffers_all : M (list MyOfferInfo) :=
  rows <- query {| q_from := myOffers; q_where := []; q_limit := None |} ;;
  let offers := map getMyOffer rows in
  let status := finish in
  finishTableOperation MyOffers Read status ;;;
  ret offers.

(** [getMyOffers(countryIso, currencyIso, payment, type, statusOffer,
    limit, offset)] *)
Definition getMyOffers (countryIso currencyIso : string)
    (payment type statusOffer limit offset : Z) : M (list MyOfferInfo) :=
  let where_ :=
    where_type_status (where_iso_payment countryIso currencyIso payment)
      type statusOffer in
  rows <- query {| q_from := myOffers; q_where := where_;
                   q_limit := limit_offset limit offset |} ;;
  let offers := map getMyOffer rows in
  let status := finish in
  finishTableOperation MyOffers Read status ;;;
  ret offers.


Section Sweep.

(** [StatusOffer::Expired], declared outside src/. *)
Variable Expired : Z.

(** [now] is the value of [time(NULL)] at the call. *)
Definition setStatusExpiredForMyOffers (now : Z) : M unit :=
  let currentTime := Int.to_uint64 now in
  status <- execute
    (UPDATE myOffers set_status (timeToExpiration_lt (Int.to_int64 currentTime)))
    (bind_type_status null_row 0 Expired) ;;
  finishTableOperation MyOffers Edit status.

End Sweep.

(** *** The public wrappers *)

Definition addOfferSell (offer : OfferInfo) : M unit := addOffer offersSell offer.
Definition editOfferSell (offer : OfferInfo) : M unit := editOffer offersSell offer.
Definition deleteOfferSell (idTransaction : Z) : M unit := deleteOffer offersSell idTransaction.
Definition deleteOfferSellByHash (hash : Z) : M unit := deleteOfferByHash offersSell hash.
Definition deleteOldOffersSell (now : Z) : M unit := deleteOldOffers offersSell now.
Definition getOfferSellByHash (hash : Z) : M OfferInfo := getOfferByHash offersSell hash.
Definition isExistOfferSellByHash (hash : Z) : M bool := isExistOfferByHash offersSell hash.

Definition addOfferBuy (offer : OfferInfo) : M unit := addOffer offersBuy offer.
Definition editOfferBuy (offer : OfferInfo) : M unit := editOffer offersBuy offer.
Definition deleteOfferBuy (idTransaction : Z) : M unit := deleteOffer offersBuy idTransaction.
Definition deleteOfferBuyByHash (hash : Z) : M unit := deleteOfferByHash offersBuy hash.
Definition deleteOldOffersBuy (now : Z) : M unit := deleteOldOffers offersBuy now.
Definition getOfferBuyByHash (hash : Z) : M OfferInfo := getOfferByHash offersBuy hash.
Definition isExistOfferBuyByHash (hash : Z) : M bool := isExistOfferByHash offersBuy hash.

Definition deleteMyOffer (idTransaction : Z) : M unit := deleteOffer myOffers idTransaction.
Definition deleteMyOfferByHash (hash : Z) : M unit := deleteOfferByHash myOffers hash.
Definition deleteOldMyOffers (now : Z) : M unit := deleteOldOffers myOffers now.

Definition countOffersSell : M Z :=
  r <- countOffers_all offersSell ;;
  finishTableOperation OffersSell Read (snd r) ;;;
  ret (fst r).

Definition countOffersSell_filter (countryIso currencyIso : string) (payment : Z) : M Z :=
  r <- countOffers offersSell countryIso currencyIso payment (-1) 0 ;;
  finishTableOperation OffersSell Read (snd r) ;;;
  ret (fst r).

Definition countOffersBuy : M Z :=
  r <- countOffers_all offersBuy ;;
  finishTableOperation OffersBuy Read (snd r) ;;;
  ret (fst r).

Definition countOffersBuy_filter (countryIso currencyIso : string) (payment : Z) : M Z :=
  r <- countOffers offersBuy countryIso currencyIso payment (-1) 0 ;;
  finishTableOperation OffersBuy Read (snd r) ;;;
  ret (fst r).

Definition countMyOffers_filter (countryIso currencyIso : string)
    (payment type statusOffer : Z) : M Z :=
  r <- countOffers myOffers countryIso currencyIso payment type statusOffer ;;
  finishTableOperation MyOffers Read (snd r) ;;;
  ret (fst r).

Definition lastModificationOffersSell : M Z :=
  r <- lastModificationOffers offersSell ;;
  let time := fst r in
  finishTableOperation OffersBuy Read (snd r) ;;;
  ret time.

Definition lastModificationOffersBuy : M Z :=
  r <- lastModificationOffers offersBuy ;;
  let time := fst r in
  finishTableOperation OffersBuy Read (snd r) ;;;
  ret time.

Definition getHashsAndEditingVersionsSell (from : OffersPeriod) (timeMod : Z) :=
  getHashsAndEditingVersions offersSell from timeMod.

Definition getHashsAndEditingVersionsBuy (from : OffersPeriod) (timeMod : Z) :=
  getHashsAndEditingVersions offersBuy from timeMod.

(** ** Reference tables *)

Definition with_countries (v : list CountryInfo) (s : DexDB) : DexDB :=
  {| db := db s; countries := v; currencies := currencies s;
     payments := payments s;
     isGetCountriesDataFromDB := isGetCountriesDataFromDB s;
     isGetCurrenciesDataFromDB := isGetCurrenciesDataFromDB s;
     isGetPaymentsDataFromDB := isGetPaymentsDataFromDB s;
     callBack := callBack s; bOffersRescan := bOffersRescan s;
     delivered := delivered s |}.

Definition with_currencies (v : list CurrencyInfo) (s : DexDB) : DexDB :=
  {| db := db s; countries := countries s; currencies := v;
     payments := payments s;
     isGetCountriesDataFromDB := isGetCountriesDataFromDB s;
     isGetCurrenciesDataFromDB := isGetCurrenciesDataFromDB s;
     isGetPaymentsDataFromDB := isGetPaymentsDataFromDB s;
     callBack := callBack s; bOffersRescan := bOffersRescan s;
     delivered := delivered s |}.

Definition with_payments (v : list PaymentMethodInfo) (s : DexDB) : DexDB :=
  {| db := db s; countries := countries s; currencies := currencies s;
     payments := v;
     isGetCountriesDataFromDB := isGetCountriesDataFromDB s;
     isGetCurrenciesDataFromDB := isGetCurrenciesDataFromDB s;
     isGetPaymentsDataFromDB := isGetPaymentsDataFromDB s;
     callBack := callBack s; bOffersRescan := bOffersRescan s;
     delivered := delivered s |}.

Definition with_isGetCountriesDataFromDB (v : bool) (s : DexDB) : DexDB :=
  {| db := db s; countries := countries s; currencies := currencies s;
     payments := payments s;
     isGetCountriesDataFromDB := v;
     isGetCurrenciesDataFromDB := isGetCurrenciesDataFromDB s;
     isGetPaymentsDataFromDB := isGetPaymentsDataFromDB s;
     callBack := callBack s; bOffersRescan := bOffersRescan s;
     delivered := delivered s |}.

Definition with_isGetCurrenciesDataFromDB (v : bool) (s : DexDB) : DexDB :=
  {| db := db s; countries := countries s; currencies := currencies s;
     payments := payments s;
     isGetCountriesDataFromDB := isGetCountriesDataFromDB s;
     isGetCurrenciesDataFromDB := v;
     isGetPaymentsDataFromDB := isGetPaymentsDataFromDB s;
     callBack := callBack s; bOffersRescan := bOffersRescan s;
     delivered := delivered s |}.

Definition with_isGetPaymentsDataFromDB (v : bool) (s : DexDB) : DexDB :=
  {| db := db s; countries := countries s; currencies := currencies s;
     payments := payments s;
     isGetCountriesDataFromDB := isGetCountriesDataFromDB s;
     isGetCurrenciesDataFromDB := isGetCurrenciesDataFromDB s;
     isGetPaymentsDataFromDB := v;
     callBack := callBack s; bOffersRescan := bOffersRescan s;
     delivered := delivered s |}.

Definition with_bOffersRescan (v : bool) (s : DexDB) : DexDB :=
  {| db := db s; countries := countries s; currencies := currencies s;
     payments := payments s;
     isGetCountriesDataFromDB := isGetCountriesDataFromDB s;
     isGetCurrenciesDataFromDB := isGetCurrenciesDataFromDB s;
     isGetPaymentsDataFromDB := isGetPaymentsDataFromDB s;
     callBack := callBack s; bOffersRescan := v;
     delivered := delivered s |}.

(** The rows of one multi-row INSERT go in one after the other; a row
    that collides with a key already present fails the statement, which
    then leaves the table as it was ([None]). *)
Fixpoint insert_rows {A} (conflict : A -> A -> bool) (rows new : list A)
    : option (list A) :=
  match new with
  | [] => Some rows
  | r :: new' =>
      if existsb (conflict r) rows then None
      else insert_rows conflict (rows ++ [r]) new'
  end.

Definition conflict_Row (r x : Row) : bool := String.eqb (col_hash x) (col_hash r).

Definition conflict_CountryRow (r x : CountryRow) : bool :=
  String.eqb (countries_iso x) (countries_iso r).

(** id is the INTEGER PRIMARY KEY of currencies, iso is UNIQUE. *)
Definition conflict_CurrencyRow (r x : CurrencyRow) : bool :=
  (currencies_id x =? currencies_id r) ||
  String.eqb (currencies_iso x) (currencies_iso r).

Definition conflict_PaymentRow (r x : PaymentRow) : bool :=
  paymentMethods_type x =? paymentMethods_type r.

(** The rowid a new row of currencies receives: one above the largest. *)
Definition next_id (rows : list CurrencyRow) : Z :=
  fold_left Z.max (map currencies_id rows) 0 + 1.

Definition addCountry (iso name currency : string) (enabled : bool) (sortOrder : Z)
    : M unit :=
  modify (fun s => with_countries
    (countries s ++ [{| country_iso := iso; country_name := name;
                        country_enabled := enabled |}]) s) ;;;
  d <- gets db ;;
  match t_countries d, t_currencies d with
  | Some rows, Some curr =>
      let selected :=
        map (fun c => {| countries_iso := iso; countries_name := name;
                         countries_enabled := enabled;
                         countries_currencyId := currencies_id c;
                         countries_sortOrder := sortOrder |})
            (List.filter (fun c => String.eqb (currencies_iso c) currency) curr) in
      status <-
        match insert_rows conflict_CountryRow rows selected with
        | Some rows' =>
            modify (with_db (set_countries (Some rows'))) ;;; ret SQLITE_OK
        | None => ret SQLITE_CONSTRAINT
        end ;;
      finishTableOperation Countries Add status
  | _, _ => throw (database_error "no such table")
  end.

Definition addCurrency (iso name symbol : string) (enabled : bool) (sortOrder : Z)
    : M unit :=
  modify (fun s => with_currencies
    (currencies s ++ [{| currency_iso := iso; currency_name := name;
                         currency_symbol := symbol;
                         currency_enabled := enabled |}]) s) ;;;
  d <- gets db ;;
  match t_currencies d with
  | Some rows =>
      let row := {| currencies_id := next_id rows; currencies_iso := iso;
                    currencies_name := name; currencies_symbol := symbol;
                    currencies_enabled := enabled;
                    currencies_sortOrder := sortOrder |} in
      status <-
        match insert_rows conflict_CurrencyRow rows [row] with
        | Some rows' =>
            modify (with_db (set_currencies (Some rows'))) ;;; ret SQLITE_OK
        | None => ret SQLITE_CONSTRAINT
        end ;;
      finishTableOperation Countries Add status
  | None => throw (database_error "no such table")
  end.

Definition deleteCurrency (iso : string) : M unit :=
  modify (fun s => with_currencies
    (List.filter (fun c => negb (String.eqb (currency_iso c) iso)) (currencies s)) s) ;;;
  d <- gets db ;;
  match t_currencies d with
  | Some rows =>
      modify (with_db (set_currencies
        (Some (List.filter (fun c => negb (String.eqb (currencies_iso c) iso)) rows)))) ;;;
      let status := SQLITE_OK in
      finishTableOperation Currencies Delete status
  | None => throw (database_error "no such table")
  end.

(** [type] is an [unsigned char]. *)
Definition addPaymentMethod (type : Z) (name description : string) (sortOrder : Z)
    : M unit :=
  modify (fun s => with_payments
    (payments s ++ [{| payment_type := type; payment_name := name;
                       payment_description := description |}]) s) ;;;
  d <- gets db ;;
  match t_paymentMethods d with
  | Some rows =>
      let row := {| paymentMethods_type := type; paymentMethods_name := name;
                    paymentMethods_description := description;
                    paymentMethods_sortOrder := sortOrder |} in
      status <-
        match insert_rows conflict_PaymentRow rows [row] with
        | Some rows' =>
            modify (with_db (set_paymentMethods (Some rows'))) ;;; ret SQLITE_OK
        | None => ret SQLITE_CONSTRAINT
        end ;;
      finishTableOperation PaymentMethods Add status
  | None => throw (database_error "no such table")
  end.

(** ** Schema statements *)

(** Every table a database file of this program can hold. *)
Inductive Table :=
| T_dbversion | T_countries | T_currencies | T_paymentMethods
| T_myOffers | T_offersSell | T_offersBuy | T_filterList
| T_countries_old | T_currencies_old | T_paymentMethods_old
| T_myOffers_old | T_offersSell_old | T_offersBuy_old.

Definition table_name (t : Table) : string :=
  match t with
  | T_dbversion => "dbversion" | T_countries => "countries"
  | T_currencies => "currencies" | T_paymentMethods => "paymentMethods"
  | T_myOffers => "myOffers" | T_offersSell => "offersSell"
  | T_offersBuy => "offersBuy" | T_filterList => "filterList"
  | T_countries_old => "countries_old" | T_currencies_old => "currencies_old"
  | T_paymentMethods_old => "paymentMethods_old"
  | T_myOffers_old => "myOffers_old" | T_offersSell_old => "offersSell_old"
  | T_offersBuy_old => "offersBuy_old"
  end.

Definition is_some {A} (o : option A) : bool :=
  match o with Some _ => true | None => false end.

Definition table_exists (t : Table) (d : Database) : bool :=
  match t with
  | T_dbversion => is_some (t_dbversion d)
  | T_countries => is_some (t_countries d)
  | T_currencies => is_some (t_currencies d)
  | T_paymentMethods => is_some (t_paymentMethods d)
  | T_myOffers => is_some (t_myOffers d)
  | T_offersSell => is_some (t_offersSell d)
  | T_offersBuy => is_some (t_offersBuy d)
  | T_filterList => is_some (t_filterList d)
  | T_countries_old => is_some (t_countries_old d)
  | T_currencies_old => is_some (t_currencies_old d)
  | T_paymentMethods_old => is_some (t_paymentMethods_old d)
  | T_myOffers_old => is_some (t_myOffers_old d)
  | T_offersSell_old => is_some (t_offersSell_old d)
  | T_offersBuy_old => is_some (t_offersBuy_old d)
  end.

Definition table_count (t : Table) (d : Database) : option nat :=
  match t with
  | T_dbversion => option_map (@length _) (t_dbversion d)
  | T_countries => option_map (@length _) (t_countries d)
  | T_currencies => option_map (@length _) (t_currencies d)
  | T_paymentMethods => option_map (@length _) (t_paymentMethods d)
  | T_myOffers => option_map (@length _) (t_myOffers d)
  | T_offersSell => option_map (@length _) (t_offersSell d)
  | T_offersBuy => option_map (@length _) (t_offersBuy d)
  | T_filterList => option_map (@length _) (t_filterList d)
  | T_countries_old => option_map (@length _) (t_countries_old d)
  | T_currencies_old => option_map (@length _) (t_currencies_old d)
  | T_paymentMethods_old => option_map (@length _) (t_paymentMethods_old d)
  | T_myOffers_old => option_map (@length _) (t_myOffers_old d)
  | T_offersSell_old => option_map (@length _) (t_offersSell_old d)
  | T_offersBuy_old => option_map (@length _) (t_offersBuy_old d)
  end.

(** DROP TABLE IF EXISTS: the table goes, and its indexes with it. *)
Definition DROP_TABLE (t : Table) (d : Database) : Database :=
  let d :=
    set_indexes
      (List.filter (fun i => negb (String.eqb (idx_table i) (table_name t)))
                   (indexes d)) d in
  match t with
  | T_dbversion => set_dbversion None d
  | T_countries => set_countries None d
  | T_currencies => set_currencies None d
  | T_paymentMethods => set_paymentMethods None d
  | T_myOffers => set_table myOffers None d
  | T_offersSell => set_table offersSell None d
  | T_offersBuy => set_table offersBuy None d
  | T_filterList => set_filterList None d
  | T_countries_old => set_countries_old None d
  | T_currencies_old => set_currencies_old None d
  | T_paymentMethods_old => set_paymentMethods_old None d
  | T_myOffers_old => set_table_old myOffers None d
  | T_offersSell_old => set_table_old offersSell None d
  | T_offersBuy_old => set_table_old offersBuy None d
  end.

(** CREATE TABLE IF NOT EXISTS, for the tables [createTables] declares. *)
Definition CREATE_TABLE (t : Table) (d : Database) : Database :=
  if table_exists t d then d
  else
    match t with
    | T_dbversion => set_dbversion (Some []) d
    | T_countries => set_countries (Some []) d
    | T_currencies => set_currencies (Some []) d
    | T_paymentMethods => set_paymentMethods (Some []) d
    | T_myOffers => set_table myOffers (Some []) d
    | T_offersSell => set_table offersSell (Some []) d
    | T_offersBuy => set_table offersBuy (Some []) d
    | T_filterList => set_filterList (Some []) d
    | _ => d
    end.

Definition move_indexes (from to : string) (d : Database) : Database :=
  set_indexes
    (map (fun i =>
            if String.eqb (idx_table i) from
            then {| idx_name := idx_name i; idx_table := to;
                    idx_unique := idx_unique i; idx_columns := idx_columns i |}
            else i)
         (indexes d)) d.

(** ALTER TABLE t RENAME TO t_old, for the tables [renameTables] names.
    The statement fails, and changes nothing, when [t] does not exist or
    [t_old] already does. *)
Definition RENAME_TO_old (t : Table) (d : Database) : Database :=
  match t with
  | T_countries =>
      match t_countries d, t_countries_old d with
      | Some rows, None =>
          move_indexes "countries" "countries_old"
            (set_countries_old (Some rows) (set_countries None d))
      | _, _ => d
      end
  | T_currencies =>
      match t_currencies d, t_currencies_old d with
      | Some rows, None =>
          move_indexes "currencies" "currencies_old"
            (set_currencies_old (Some rows) (set_currencies None d))
      | _, _ => d
      end
  | T_paymentMethods =>
      match t_paymentMethods d, t_paymentMethods_old d with
      | Some rows, None =>
          move_indexes "paymentMethods" "paymentMethods_old"
            (set_paymentMethods_old (Some rows) (set_paymentMethods None d))
      | _, _ => d
      end
  | T_myOffers =>
      match t_myOffers d, t_myOffers_old d with
      | Some rows, None =>
          move_indexes "myOffers" "myOffers_old"
            (set_table_old myOffers (Some rows) (set_table myOffers None d))
      | _, _ => d
      end
  | T_offersSell =>
      match t_offersSell d, t_offersSell_old d with
      | Some rows, None =>
          move_indexes "offersSell" "offersSell_old"
            (set_table_old offersSell (Some rows) (set_table offersSell None d))
      | _, _ => d
      end
  | T_offersBuy =>
      match t_offersBuy d, t_offersBuy_old d with
      | Some rows, None =>
          move_indexes "offersBuy" "offersBuy_old"
            (set_table_old offersBuy (Some rows) (set_table offersBuy None d))
      | _, _ => d
      end
  | _ => d
  end.

Definition DROP_INDEX (name : string) (d : Database) : Database :=
  set_indexes
    (List.filter (fun i => negb (String.eqb (idx_name i) name)) (indexes d)) d.

(** CREATE [UNIQUE] INDEX IF NOT EXISTS name ON t(columns).  The statement
    fails when the table is missing, and a unique index on
    (hash, editingVersion) when two rows share the pair. *)
Definition CREATE_INDEX (unique : bool) (name : string) (t : TableName)
    (columns : string) (d : Database) : Database :=
  if existsb (fun i => String.eqb (idx_name i) name) (indexes d) then d
  else
    match get_table t d with
    | None => d
    | Some rows =>
        if unique &&
           negb (bool_decide
                   (NoDup (map (fun r => (col_hash r, col_editingVersion r)) rows)))
        then d
        else
          set_indexes
            (indexes d ++
             [{| idx_name := name;
                 idx_table := table_name
                   match t with
                   | offersSell => T_offersSell
                   | offersBuy => T_offersBuy
                   | myOffers => T_myOffers
                   end;
                 idx_unique := unique; idx_columns := columns |}]) d
    end.

(** ** Opening the store: schema check and migration *)

Definition run (f : Database -> Database) : M unit := modify (with_db f).

Definition dropTables : M unit :=
  run (DROP_TABLE T_dbversion) ;;;
  run (DROP_TABLE T_countries) ;;;
  run (DROP_TABLE T_currencies) ;;;
  run (DROP_TABLE T_paymentMethods) ;;;
  run (DROP_TABLE T_myOffers) ;;;
  run (DROP_TABLE T_offersSell) ;;;
  run (DROP_TABLE T_offersBuy).

Definition dropOldTables : M unit :=
  run (DROP_TABLE T_countries_old) ;;;
  run (DROP_TABLE T_currencies_old) ;;;
  run (DROP_TABLE T_paymentMethods_old) ;;;
  run (DROP_TABLE T_myOffers_old) ;;;
  run (DROP_TABLE T_offersSell_old) ;;;
  run (DROP_TABLE T_offersBuy_old).

(** The row an offer table receives for a row of its renamed predecessor:
    the columns are listed one by one and [timeCreate] is selected a second
    time where timeModification is expected; type and status are selected
    for myOffers only. *)
Definition moved_row (with_type_status : bool) (r : Row) : Row :=
  {| col_idTransaction := col_idTransaction r; col_hash := col_hash r;
     col_pubKey := col_pubKey r; col_countryIso := col_countryIso r;
     col_currencyIso := col_currencyIso r;
     col_paymentMethod := col_paymentMethod r; col_price := col_price r;
     col_minAmount := col_minAmount r; col_timeCreate := col_timeCreate r;
     col_timeToExpiration := col_timeToExpiration r;
     col_timeModification := col_timeCreate r;
     col_shortInfo := col_shortInfo r; col_details := col_details r;
     col_type := if with_type_status then col_type r else None;
     col_status := if with_type_status then col_status r else None;
     col_editingVersion := col_editingVersion r;
     col_editsign := col_editsign r |}.

(** INSERT INTO t SELECT ... FROM t_old *)
Definition INSERT_SELECT_offers (t : TableName) (d : Database) : Database :=
  match get_table t d, get_table_old t d with
  | Some rows, Some old =>
      match insert_rows conflict_Row rows
              (map (moved_row (TableName_eqb t myOffers)) old) with
      | Some rows' => set_table t (Some rows') d
      | None => d
      end
  | _, _ => d
  end.

Definition INSERT_SELECT_countries (d : Database) : Database :=
  match t_countries d, t_countries_old d with
  | Some rows, Some old =>
      match insert_rows conflict_CountryRow rows old with
      | Some rows' => set_countries (Some rows') d
      | None => d
      end
  | _, _ => d
  end.

Definition INSERT_SELECT_currencies (d : Database) : Database :=
  match t_currencies d, t_currencies_old d with
  | Some rows, Some old =>
      match insert_rows conflict_CurrencyRow rows old with
      | Some rows' => set_currencies (Some rows') d
      | None => d
      end
  | _, _ => d
  end.

Definition INSERT_SELECT_paymentMethods (d : Database) : Database :=
  match t_paymentMethods d, t_paymentMethods_old d with
  | Some rows, Some old =>
      match insert_rows conflict_PaymentRow rows old with
      | Some rows' => set_paymentMethods (Some rows') d
      | None => d
      end
  | _, _ => d
  end.

Definition moveTablesData : M unit :=
  run INSERT_SELECT_countries ;;;
  run INSERT_SELECT_currencies ;;;
  run INSERT_SELECT_paymentMethods ;;;
  run (INSERT_SELECT_offers myOffers) ;;;
  run (INSERT_SELECT_offers offersSell) ;;;
  run (INSERT_SELECT_offers offersBuy).

Definition dropIndexes : M unit :=
  run (DROP_INDEX "idx_offersSell_timeexp") ;;;
  run (DROP_INDEX "idx_offersBuy_timeexp") ;;;
  run (DROP_INDEX "idx_offersMy_timeexp") ;;;
  run (DROP_INDEX "hash_editing_version_buy") ;;;
  run (DROP_INDEX "hash_editing_version_sell") ;;;
  run (DROP_INDEX "idx_offersSell_timemod") ;;;
  run (DROP_INDEX "idx_offersBuy_timemod").

Definition renameTables : M unit :=
  run (RENAME_TO_old T_countries) ;;;
  run (RENAME_TO_old T_currencies) ;;;
  run (RENAME_TO_old T_paymentMethods) ;;;
  run (RENAME_TO_old T_myOffers) ;;;
  run (RENAME_TO_old T_offersSell) ;;;
  run (RENAME_TO_old T_offersBuy).

(** [createTables(db)] and [createIndexes(db)] work on the database they
    are handed: the file, or the in-memory one of [checkDexDbSchema]. *)
Definition createTables (target : Database) : M Database :=
  let target := CREATE_TABLE T_dbversion target in
  let target := CREATE_TABLE T_countries target in
  let target := CREATE_TABLE T_currencies target in
  let target := CREATE_TABLE T_paymentMethods target in
  let target := CREATE_TABLE T_offersSell target in
  let target := CREATE_TABLE T_offersBuy target in
  let target := CREATE_TABLE T_myOffers target in
  let target := CREATE_TABLE T_filterList target in
  modify (with_bOffersRescan true) ;;;
  ret target.

Definition createIndexes (target : Database) : Database :=
  let target := CREATE_INDEX false "idx_offersSell_timeexp" offersSell "timeToExpiration" target in
  let target := CREATE_INDEX false "idx_offersBuy_timeexp" offersBuy "timeToExpiration" target in
  let target := CREATE_INDEX false "idx_offersMy_timeexp" myOffers "timeToExpiration" target in
  let target := CREATE_INDEX true "hash_editing_version_buy" offersBuy "hash, editingVersion" target in
  let target := CREATE_INDEX true "hash_editing_version_sell" offersSell "hash, editingVersion" target in
  let target := CREATE_INDEX false "idx_offersSell_timemod" offersSell "timeModification" target in
  let target := CREATE_INDEX false "idx_offersBuy_timemod" offersBuy "timeModification" target in
  target.

(** The database [sqlite3pp::database(":memory:")] opens. *)
Definition memory_db : Database :=
  {| t_dbversion := None; t_countries := None; t_currencies := None;
     t_paymentMethods := None; t_myOffers := None; t_offersSell := None;
     t_offersBuy := None; t_filterList := None; t_countries_old := None;
     t_currencies_old := None; t_paymentMethods_old := None;
     t_myOffers_old := None; t_offersSell_old := None; t_offersBuy_old := None;
     indexes := []; integrity_check := "ok" |}.

Definition all_tables : list Table :=
  [T_dbversion; T_countries; T_currencies; T_paymentMethods; T_myOffers;
   T_offersSell; T_offersBuy; T_filterList; T_countries_old; T_currencies_old;
   T_paymentMethods_old; T_myOffers_old; T_offersSell_old; T_offersBuy_old].

(** The columns of a table as its CREATE TABLE statement lists them. *)
Definition table_columns (t : Table) : string :=
  match t with
  | T_dbversion => "version BIG INT"
  | T_countries | T_countries_old =>
      "iso VARCHAR(2) NOT NULL PRIMARY KEY, name VARCHAR(100), enabled BOOLEAN, currencyId INT, sortOrder INT"
  | T_currencies | T_currencies_old =>
      "id INTEGER PRIMARY KEY, iso VARCHAR(3) UNIQUE, name VARCHAR(100), symbol VARCHAR(10), enabled BOOLEAN, sortOrder INT"
  | T_paymentMethods | T_paymentMethods_old =>
      "type TINYINT NOT NULL PRIMARY KEY, name VARCHAR(100), description BLOB, sortOrder INT"
  | T_offersSell | T_offersBuy | T_offersSell_old | T_offersBuy_old =>
      "idTransaction TEXT NOT NULL, hash TEXT NOT NULL PRIMARY KEY, pubKey TEXT, countryIso VARCHAR(2), currencyIso VARCHAR(3), paymentMethod TINYINT, price UNSIGNED BIG INT, minAmount UNSIGNED BIG INT, timeCreate UNSIGNED BIG INT, timeToExpiration UNSIGNED BIG INT, timeModification UNSIGNED BIG INT, shortInfo VARCHAR(140), details TEXT, editingVersion UNSIGNED INT, editsign VARCHAR(150)"
  | T_myOffers | T_myOffers_old =>
      "hash TEXT NOT NULL PRIMARY KEY, idTransaction TEXT, pubKey TEXT, countryIso VARCHAR(2), currencyIso VARCHAR(3), paymentMethod TINYINT, price UNSIGNED BIG INT, minAmount UNSIGNED BIG INT, timeCreate UNSIGNED BIG INT, timeToExpiration UNSIGNED BIG INT, timeModification UNSIGNED BIG INT,shortInfo VARCHAR(140), details TEXT, type INT, status INT, editingVersion INT, editsign VARCHAR(150)"
  | T_filterList => "filter VARCHAR(100) NOT NULL PRIMARY KEY"
  end.

Definition table_sql (t : Table) : string :=
  ("CREATE TABLE " ++ table_name t ++ " (" ++ table_columns t ++ ")")%string.

Definition index_sql (i : Index) : string :=
  ((if idx_unique i then "CREATE UNIQUE INDEX " else "CREATE INDEX ")
   ++ idx_name i ++ " ON " ++ idx_table i ++ "(" ++ idx_columns i ++ ")")%string.

(** SELECT name, sql FROM sqlite_master WHERE sql NOT NULL *)
Definition getDbSchema (d : Database) : gmap string string :=
  let result : gmap string string := ∅ in
  let result :=
    fold_left (fun (m : gmap string string) t => <[table_name t := table_sql t]> m)
      (List.filter (fun t => table_exists t d) all_tables) result in
  fold_left (fun (m : gmap string string) i => <[idx_name i := index_sql i]> m)
    (indexes d) result.

Definition checkDexDbSchema : M unit :=
  let dbm := memory_db in
  dbm <- createTables dbm ;;
  let dbm := createIndexes dbm in
  d <- gets db ;;
  let schema1 := getDbSchema d in
  let schema2 := getDbSchema dbm in
  if negb (Nat.eqb (size schema1) (size schema2))
  then throw (database_error "DEX db schema is incorrect")
  else if bool_decide (schema1 = schema2) then ret tt
  else throw (database_error "DEX db schema is incorrect").

Definition checkDexDbIntegrity : M unit :=
  d <- gets db ;;
  let result := integrity_check d in
  if negb (String.eqb result "ok") then throw (database_error result)
  else ret tt.

(** The number of rows of sqlite_master is compared with 0. *)
Definition isDexDbEmpty : M bool :=
  d <- gets db ;;
  let count :=
    (length (List.filter (fun t => table_exists t d) all_tables)
     + length (indexes d))%nat in
  ret (Nat.eqb count 0).

Definition tableCount (tableName : Table) : M Z :=
  d <- gets db ;;
  match table_count tableName d with
  | Some n => ret (Int.to_int32 (Z.of_nat n))
  | None => throw (database_error "no such table")
  end.

Definition addDbVersion (uiDexDbVersion : Z) : M unit :=
  d <- gets db ;;
  match t_dbversion d with
  | Some rows => run (set_dbversion (Some (rows ++ [uiDexDbVersion])))
  | None => throw (database_error "no such table")
  end.

(** One [sqlite3pp::transaction]: an exception that leaves the scope
    before [commit] rolls the file back. *)
Definition transaction {A} (body : M A) : M A :=
  fun s =>
    match body s with
    | (Return a, s') => (Return a, s')
    | (Throw e, s') => (Throw e, with_db (fun _ => db s) s')
    end.

Record DefaultCurrency := {
  dcur_iso : string; dcur_name : string; dcur_symbol : string;
  dcur_enabled : bool; dcur_sortOrder : Z
}.

Record DefaultCountry := {
  dcty_iso : string; dcty_name : string; dcty_currency : string
}.

Record DefaultPaymentMethod := {
  dpay_type : Z; dpay_name : string; dpay_description : string; dpay_sortOrder : Z
}.

(** [std::list::sort(comp)]: a stable sort.  An element goes before the
    first element that does not precede it. *)
Fixpoint insert_sorted {A} (comp : A -> A -> bool) (x : A) (l : list A) : list A :=
  match l with
  | [] => [x]
  | y :: l' => if comp y x then y :: insert_sorted comp x l' else x :: l
  end.

Definition list_sort {A} (comp : A -> A -> bool) (l : list A) : list A :=
  fold_right (insert_sorted comp) [] l.

Section Open.

(** What the store takes from the rest of the application: the schema
    version of the code and the seed data of defaultdatafordb.h. *)
Variable uiDexDBversionInCode : Z.            (* unsigned int *)
Variable dataCurrencies : list DefaultCurrency.
Variable dataCountries : list DefaultCountry.
Variable dataPaymentMethods : list DefaultPaymentMethod.
Variable cmp_name : DefaultCountry -> DefaultCountry -> bool.
Variable cmp_sortorder : DefaultCountry -> DefaultCountry -> bool.

Definition isDexDbOutdated : M bool :=
  d <- gets db ;;
  match t_dbversion d with
  | Some rows =>
      let iDBversion := Int.to_int32 (hd 0 rows) in
      if negb (uiDexDBversionInCode =? Int.to_uint32 iDBversion)
      then ret true
      else ret false
  | None => throw (database_error "no such table")
  end.

Definition addDefaultData : M unit :=
  modify (with_countries []) ;;;
  modify (with_currencies []) ;;;
  modify (with_payments []) ;;;
  modify (with_isGetCountriesDataFromDB true) ;;;
  modify (with_isGetCurrenciesDataFromDB true) ;;;
  modify (with_isGetPaymentsDataFromDB true) ;;;
  count <- tableCount T_dbversion ;;
  (if count <=? 0 then addDbVersion (Int.to_int32 uiDexDBversionInCode) else ret tt) ;;;
  count <- tableCount T_currencies ;;
  (if count <=? 0 then
     let currencies :=
       list_sort (fun first second => dcur_sortOrder first <? dcur_sortOrder second)
                 dataCurrencies in
     for_each currencies (fun item =>
       addCurrency (dcur_iso item) (dcur_name item) (dcur_symbol item)
                   (dcur_enabled item) (dcur_sortOrder item)) ;;;
     modify (with_isGetCurrenciesDataFromDB false)
   else ret tt) ;;;
  count <- tableCount T_countries ;;
  (if count <=? 0 then
     let countries := list_sort cmp_name dataCountries in
     let countries := list_sort cmp_sortorder countries in
     for_each (combine countries (map Z.of_nat (seq 0 (length countries))))
       (fun item_order =>
          let item := fst item_order in
          let order := Int.to_int32 (snd item_order) in
          addCountry (dcty_iso item) (dcty_name item) (dcty_currency item) true order) ;;;
     modify (with_isGetCountriesDataFromDB false)
   else ret tt) ;;;
  count <- tableCount T_paymentMethods ;;
  (if count <=? 0 then
     for_each dataPaymentMethods (fun item =>
       addPaymentMethod (dpay_type item) (dpay_name item) (dpay_description item)
                        (dpay_sortOrder item)) ;;;
     modify (with_isGetPaymentsDataFromDB false)
   else ret tt).

(** [DexDB::DexDB()], run on the object whose [db] is the file just
    opened. *)
Definition DexDB_ctor : M unit :=
  modify (with_countries []) ;;;
  modify (with_currencies []) ;;;
  modify (with_payments []) ;;;
  modify (with_isGetCountriesDataFromDB true) ;;;
  modify (with_isGetCurrenciesDataFromDB true) ;;;
  modify (with_isGetPaymentsDataFromDB true) ;;;
  empty <- isDexDbEmpty ;;
  (if empty then
     d <- gets db ;;
     d <- createTables d ;;
     run (fun _ => createIndexes d) ;;;
     addDefaultData
   else ret tt) ;;;
  checkDexDbIntegrity ;;;
  outdated <- isDexDbOutdated ;;
  if outdated then
    transaction (
      dropIndexes ;;;
      renameTables ;;;
      dropTables ;;;
      (d <- gets db ;; d <- createTables d ;; run (fun _ => d)) ;;;
      moveTablesData ;;;
      run createIndexes ;;;
      dropOldTables ;;;
      addDefaultData)
  else checkDexDbSchema.

End Open.

(** ** Notions used to state the properties *)

(** The calls one [finishTableOperation] makes on the observers. *)
Definition fanout (cb : gmap N Z) (tables : TypeTable)
    (operation : TypeTableOperation) (st : StatusTableOperation) : list Event :=
  map (fun item => {| ev_observer := item; ev_table := tables;
                      ev_operation := operation; ev_status := st |})
      (List.filter (fun item => negb (N.eqb item nullptr)) (observers cb)).

(** What the primary key and [bindOfferData] guarantee of an offer table:
    no two rows share a hash, and every hash is the text of a 256-bit
    value. *)
Definition wf_table (rows : list Row) : Prop :=
  List.NoDup (map col_hash rows) /\
  Forall (fun r => exists h, Uint256.valid h /\ col_hash r = Uint256.GetHex h) rows.

(** The row after the status sweep at time [now]. *)
Definition expire (Expired now : Z) (r : Row) : Row :=
  if col_timeToExpiration r <? now then set_col_status (Some Expired) r else r.

Definition absent (h : string) (rows : list Row) : Prop :=
  forall x, In x rows -> col_hash x <> h.

(** The table [addOffer] and [editOffer] name in their event. *)
Definition tTable_of_write (tableName : TableName) : TypeTable :=
  if TableName_eqb tableName offersBuy then OffersBuy else OffersSell.

(** The manifest read from the selected rows. *)
Definition manifest_of (rows : list Row) : list (Z * Z) :=
  map (fun i : string * Z =>
         (Uint256.SetHex (fst i), Int.to_uint32 (Int.to_int32 (snd i))))
      (distinct_hash_version rows).

(** A database file written by the program at another schema version:
    the integrity check passes, the version row is not the one of the
    code, the six tables the migration renames exist and satisfy their
    keys, no renamed table is left over, and the reference tables fit
    the [int] that counts them. *)
Definition legacy_file (uiDexDBversionInCode : Z) (d : Database) (vs : list Z)
    (cty : list CountryRow) (cur : list CurrencyRow) (pay : list PaymentRow)
    (mine sell buy : list Row) : Prop :=
  integrity_check d = "ok"%string /\
  t_dbversion d = Some vs /\
  Int.to_uint32 (Int.to_int32 (hd 0 vs)) <> uiDexDBversionInCode /\
  (t_countries d = Some cty /\ t_currencies d = Some cur /\
   t_paymentMethods d = Some pay /\ t_myOffers d = Some mine /\
   t_offersSell d = Some sell /\ t_offersBuy d = Some buy) /\
  (t_countries_old d = None /\ t_currencies_old d = None /\
   t_paymentMethods_old d = None /\ t_myOffers_old d = None /\
   t_offersSell_old d = None /\ t_offersBuy_old d = None) /\
  (List.NoDup (map countries_iso cty) /\ List.NoDup (map currencies_id cur) /\
   List.NoDup (map currencies_iso cur) /\
   List.NoDup (map paymentMethods_type pay) /\
   List.NoDup (map col_hash mine) /\ List.NoDup (map col_hash sell) /\
   List.NoDup (map col_hash buy)) /\
  (Z.of_nat (length cty) < 2 ^ 31 /\ Z.of_nat (length cur) < 2 ^ 31 /\
   Z.of_nat (length pay) < 2 ^ 31).

(** Seed data whose rows do not collide with one another. *)
Definition seed_data_ok (dataCurrencies : list DefaultCurrency)
    (dataCountries : list DefaultCountry)
    (dataPaymentMethods : list DefaultPaymentMethod) : Prop :=
  List.NoDup (map dcur_iso dataCurrencies) /\
  List.NoDup (map dcty_iso dataCountries) /\
  List.NoDup (map dpay_type dataPaymentMethods).


(** *** Sample data *)

Definition sample_db (sell buy mine : list Row) : Database :=
  {| t_dbversion := Some [1002]; t_countries := Some []; t_currencies := Some [];
     t_paymentMethods := Some []; t_myOffers := Some mine;
     t_offersSell := Some sell; t_offersBuy := Some buy; t_filterList := Some [];
     t_countries_old := None; t_currencies_old := None;
     t_paymentMethods_old := None; t_myOffers_old := None;
     t_offersSell_old := None; t_offersBuy_old := None;
     indexes := []; integrity_check := "ok" |}.

(** An open store with the given offer tables and one observer, at
    address 7, registered once. *)
Definition sample_store (sell buy mine : list Row) : DexDB :=
  {| db := sample_db sell buy mine; countries := []; currencies := [];
     payments := []; isGetCountriesDataFromDB := true;
     isGetCurrenciesDataFromDB := true; isGetPaymentsDataFromDB := true;
     callBack := {[ 7%N := 1 ]}; bOffersRescan := false; delivered := [] |}.

Definition sample_offer (h tte tmod : Z) : OfferInfo :=
  {| idTransaction := 1; hash := h; pubKey := "key"; countryIso := "RU";
     currencyIso := "RUB"; paymentMethod := 1; price := 100; minAmount := 10;
     timeCreate := 10; timeToExpiration := tte; timeModification := tmod;
     shortInfo := "info"; details := "details"; editingVersion := 0;
     editsign := "sign" |}.

Definition sample_my_row (h tte ty st : Z) : Row :=
  bind_type_status (bindOfferData (sample_offer h tte 10)) ty st.

(** A file left at version 1001, one row in each table but
    paymentMethods, which is empty, and seed data for version 1002. *)
Definition legacy_countries : list CountryRow :=
  [{| countries_iso := "RU"; countries_name := "Russia"; countries_enabled := true;
      countries_currencyId := 1; countries_sortOrder := 0 |}].

Definition legacy_currencies : list CurrencyRow :=
  [{| currencies_id := 1; currencies_iso := "RUB"; currencies_name := "Ruble";
      currencies_symbol := "R"; currencies_enabled := true;
      currencies_sortOrder := 0 |}].

Definition legacy_db : Database :=
  {| t_dbversion := Some [1001]; t_countries := Some legacy_countries;
     t_currencies := Some legacy_currencies; t_paymentMethods := Some [];
     t_myOffers := Some [sample_my_row 3 50 0 1];
     t_offersSell := Some [bindOfferData (sample_offer 1 50 20)];
     t_offersBuy := Some [bindOfferData (sample_offer 2 50 20)];
     t_filterList := Some [];
     t_countries_old := None; t_currencies_old := None;
     t_paymentMethods_old := None; t_myOffers_old := None;
     t_offersSell_old := None; t_offersBuy_old := None;
     indexes := []; integrity_check := "ok" |}.

Definition legacy_store : DexDB :=
  {| db := legacy_db; countries := []; currencies := []; payments := [];
     isGetCountriesDataFromDB := true; isGetCurrenciesDataFromDB := true;
     isGetPaymentsDataFromDB := true; callBack := {[ 7%N := 1 ]};
     bOffersRescan := false; delivered := [] |}.

Definition seed_currencies_sample : list DefaultCurrency :=
  [{| dcur_iso := "USD"; dcur_name := "Dollar"; dcur_symbol := "$";
      dcur_enabled := true; dcur_sortOrder := 1 |}].

Definition seed_countries_sample : list DefaultCountry :=
  [{| dcty_iso := "US"; dcty_name := "USA"; dcty_currency := "USD" |}].

Definition seed_payments_sample : list DefaultPaymentMethod :=
  [{| dpay_type := 1; dpay_name := "Cash"; dpay_description := "In person";
      dpay_sortOrder := 0 |}].

Definition cmp_name_sample (a b : DefaultCountry) : bool :=
  String.ltb (dcty_name a) (dcty_name b).

Definition cmp_sortorder_sample (a b : DefaultCountry) : bool := false.

(** The scenario of the specification: two sell offers, modified at 100
    and at 200, the first expiring at 1000. *)
Definition scenario : M (list (Z * Z) * Z * Z * bool) :=
  addOfferSell (sample_offer 1 1000 100) ;;;
  addOfferSell (sample_offer 2 5000 200) ;;;
  manifest <- getHashsAndEditingVersionsSell After 150 ;;
  count <- countOffersSell ;;
  deleteOldOffersSell 1001 ;;;
  count' <- countOffersSell ;;
  found <- isExistOfferSellByHash 1 ;;
  ret (manifest, count, count', found).

(** ** Further member functions *)

(** *** Local offers: point reads *)

(** [getMyOffer(idTransaction)] *)
Definition getMyOffer_byId (idTransaction : Z) : M MyOfferInfo :=
  rows <- query {| q_from := myOffers;
                   q_where := [idTransaction_eq (Uint256.GetHex idTransaction)];
                   q_limit := None |} ;;
  let info := getMyOffer (hd null_row rows) in
  let stat := finish in
  finishTableOperation MyOffers Read stat ;;;
  ret info.

Definition getMyOfferByHash (hash : Z) : M MyOfferInfo :=
  rows <- query {| q_from := myOffers;
                   q_where := [hash_eq (Uint256.GetHex hash)];
                   q_limit := None |} ;;
  let info := getMyOffer (hd null_row rows) in
  let stat := finish in
  finishTableOperation MyOffers Read stat ;;;
  ret info.

Definition isExistMyOffer (idTransaction : Z) : M bool :=
  rows <- query {| q_from := myOffers;
                   q_where := [idTransaction_eq (Uint256.GetHex idTransaction)];
                   q_limit := None |} ;;
  let count := Int.to_int32 (Z.of_nat (length rows)) in
  let status := finish in
  finishTableOperation MyOffers Read status ;;;
  ret (0 <? count).

Definition isExistMyOfferByHash (hash : Z) : M bool :=
  rows <- query {| q_from := myOffers;
                   q_where := [hash_eq (Uint256.GetHex hash)];
                   q_limit := None |} ;;
  let count := Int.to_int32 (Z.of_nat (length rows)) in
  let status := finish in
  finishTableOperation MyOffers Read status ;;;
  ret (0 <? count).

Definition countMyOffers : M Z :=
  r <- countOffers_all myOffers ;;
  finishTableOperation MyOffers Read (snd r) ;;;
  ret (fst r).

Definition countOffersSell_period (from : OffersPeriod) (timeMod : Z) : M Z :=
  r <- countOffers_period offersSell from timeMod ;;
  finishTableOperation OffersSell Read (snd r) ;;;
  ret (fst r).

Definition countOffersBuy_period (from : OffersPeriod) (timeMod : Z) : M Z :=
  r <- countOffers_period offersBuy from timeMod ;;
  finishTableOperation OffersBuy Read (snd r) ;;;
  ret (fst r).

Definition getOffersSell : M (list OfferInfo) := getOffers_all offersSell.
Definition getOffersBuy : M (list OfferInfo) := getOffers_all offersBuy.

Definition getOffersSell_filter (countryIso currencyIso : string)
    (payment limit offset : Z) : M (list OfferInfo) :=
  getOffers offersSell countryIso currencyIso payment limit offset.

Definition getOffersBuy_filter (countryIso currencyIso : string)
    (payment limit offset : Z) : M (list OfferInfo) :=
  getOffers offersBuy countryIso currencyIso payment limit offset.

Definition getSellHashs : M (list Z) := getHashs offersSell.
Definition getBuyHashs : M (list Z) := getHashs offersBuy.

(** *** The filter list *)

Definition addFilter (filter : string) : M unit :=
  d <- gets db ;;
  match t_filterList d with
  | Some rows =>
      status <-
        match insert_rows (fun r x => String.eqb x r) rows [filter] with
        | Some rows' =>
            modify (with_db (set_filterList (Some rows'))) ;;; ret SQLITE_OK
        | None => ret SQLITE_CONSTRAINT
        end ;;
      finishTableOperation FiltersList Add status
  | None => throw (database_error "no such table")
  end.


Definition getFilters : M (list string) :=
  d <- gets db ;;
  match t_filterList d with
  | Some rows =>
      let filters := rows in
      let status := finish in
      finishTableOperation FiltersList Read status ;;;
      ret filters
  | None => throw (database_error "no such table")
  end.

(** *** Reference data: edits, deletions and the lazy reads *)

Definition CountryInfo_of (r : CountryRow) : CountryInfo :=
  {| country_iso := countries_iso r; country_name := countries_name r;
     country_enabled := countries_enabled r |}.

Definition CurrencyInfo_of (r : CurrencyRow) : CurrencyInfo :=
  {| currency_iso := currencies_iso r; currency_name := currencies_name r;
     currency_symbol := currencies_symbol r;
     currency_enabled := currencies_enabled r |}.

Definition PaymentMethodInfo_of (r : PaymentRow) : PaymentMethodInfo :=
  {| payment_type := Int.to_uint8 (paymentMethods_type r);
     payment_name := paymentMethods_name r;
     payment_description := paymentMethods_description r |}.

(** UPDATE countries SET enabled = :enabled, sortOrder = :sortOrder
    WHERE iso = :iso *)
Definition editCountry (iso : string) (enabled : bool) (sortOrder : Z) : M Z :=
  d <- gets db ;;
  match t_countries d with
  | Some rows =>
      modify (with_db (set_countries (Some
        (map (fun r =>
                if String.eqb (countries_iso r) iso
                then {| countries_iso := countries_iso r;
                        countries_name := countries_name r;
                        countries_enabled := enabled;
                        countries_currencyId := countries_currencyId r;
                        countries_sortOrder := sortOrder |}
                else r) rows)))) ;;;
      ret SQLITE_OK
  | None => throw (database_error "no such table")
  end.

Definition editCurrency (iso : string) (enabled : bool) (sortOrder : Z) : M Z :=
  d <- gets db ;;
  match t_currencies d with
  | Some rows =>
      modify (with_db (set_currencies (Some
        (map (fun r =>
                if String.eqb (currencies_iso r) iso
                then {| currencies_id := currencies_id r;
                        currencies_iso := currencies_iso r;
                        currencies_name := currencies_name r;
                        currencies_symbol := currencies_symbol r;
                        currencies_enabled := enabled;
                        currencies_sortOrder := sortOrder |}
                else r) rows)))) ;;;
      ret SQLITE_OK
  | None => throw (database_error "no such table")
  end.

(** The loop of [editCountries]; [sort] is the [int] it counts with (the
    list is shorter than 2^31). *)
Fixpoint editCountries_loop (list : list CountryInfo) (sort : Z) : M unit :=
  match list with
  | [] => finishTableOperation Countries Edit 0
  | item :: list' =>
      status <- editCountry (country_iso item) (country_enabled item) sort ;;
      if negb (status =? 0) then finishTableOperation Countries Edit status
      else editCountries_loop list' (sort + 1)
  end.

Definition editCountries (list : list CountryInfo) : M unit :=
  modify (fun s =>
    if Nat.eqb (length (countries s)) (length list) then with_countries list s
    else s) ;;;
  editCountries_loop list 0.

Fixpoint editCurrencies_loop (list : list CurrencyInfo) (sort : Z) : M unit :=
  match list with
  | [] => finishTableOperation Currencies Edit 0
  | item :: list' =>
      status <- editCurrency (currency_iso item) (currency_enabled item) sort ;;
      if negb (status =? 0) then finishTableOperation Currencies Edit status
      else editCurrencies_loop list' (sort + 1)
  end.

Definition editCurrencies (list : list CurrencyInfo) : M unit :=
  modify (fun s =>
    if Nat.eqb (length (currencies s)) (length list) then with_currencies list s
    else s) ;;;
  editCurrencies_loop list 0.

Definition deleteCountry (iso : string) : M unit :=
  modify (fun s => with_countries
    (List.filter (fun c => negb (String.eqb (country_iso c) iso)) (countries s)) s) ;;;
  d <- gets db ;;
  match t_countries d with
  | Some rows =>
      modify (with_db (set_countries
        (Some (List.filter (fun c => negb (String.eqb (countries_iso c) iso)) rows)))) ;;;
      let status := SQLITE_OK in
      finishTableOperation Countries Delete status
  | None => throw (database_error "no such table")
  end.

(** [type] is an [unsigned char]. *)
Definition deletePaymentMethod (type : Z) : M unit :=
  modify (fun s => with_payments
    (List.filter (fun c => negb (payment_type c =? type)) (payments s)) s) ;;;
  d <- gets db ;;
  match t_paymentMethods d with
  | Some rows =>
      modify (with_db (set_paymentMethods
        (Some (List.filter (fun c => negb (paymentMethods_type c =? type)) rows)))) ;;;
      let status := SQLITE_OK in
      finishTableOperation PaymentMethods Delete status
  | None => throw (database_error "no such table")
  end.

(** The three lazy reads.  ORDER BY sortOrder is taken to keep rows of
    equal sortOrder in table order. *)
Definition getCountriesInfo : M (list CountryInfo) :=
  flag <- gets isGetCountriesDataFromDB ;;
  (if flag : bool then
     d <- gets db ;;
     match t_countries d with
     | Some rows =>
         let sorted :=
           list_sort (fun a b => countries_sortOrder a <? countries_sortOrder b) rows in
         modify (fun s => with_countries (countries s ++ map CountryInfo_of sorted) s) ;;;
         modify (with_isGetCountriesDataFromDB false) ;;;
         let status := finish in
         finishTableOperation Countries Read status
     | None => throw (database_error "no such table")
     end
   else ret tt) ;;;
  gets countries.

Definition getCurrenciesInfo : M (list CurrencyInfo) :=
  flag <- gets isGetCurrenciesDataFromDB ;;
  (if flag : bool then
     d <- gets db ;;
     match t_currencies d with
     | Some rows =>
         let sorted :=
           list_sort (fun a b => currencies_sortOrder a <? currencies_sortOrder b) rows in
         modify (fun s => with_currencies (currencies s ++ map CurrencyInfo_of sorted) s) ;;;
         let status := finish in
         finishTableOperation Currencies Read status ;;;
         modify (with_isGetCurrenciesDataFromDB false)
     | None => throw (database_error "no such table")
     end
   else ret tt) ;;;
  gets currencies.

Definition getPaymentMethodsInfo : M (list PaymentMethodInfo) :=
  flag <- gets isGetPaymentsDataFromDB ;;
  (if flag : bool then
     d <- gets db ;;
     match t_paymentMethods d with
     | Some rows =>
         let sorted :=
           list_sort (fun a b => paymentMethods_sortOrder a <? paymentMethods_sortOrder b)
                     rows in
         modify (fun s => with_payments (payments s ++ map PaymentMethodInfo_of sorted) s) ;;;
         let status := finish in
         finishTableOperation PaymentMethods Read status ;;;
         modify (with_isGetPaymentsDataFromDB false)
     | None => throw (database_error "no such table")
     end
   else ret tt) ;;;
  gets payments.

(** ** The process-wide instance *)


Section Instance.

Variable uiDexDBversionInCode : Z.
Variable dataCurrencies : list DefaultCurrency.
Variable dataCountries : list DefaultCountry.
Variable dataPaymentMethods : list DefaultPaymentMethod.
Variable cmp_name : DefaultCountry -> DefaultCountry -> bool.
Variable cmp_sortorder : DefaultCountry -> DefaultCountry -> bool.


End Instance.


(** ** Backup retention *)





(** ** Further notions *)

Definition is_int32 (z : Z) : Prop := - 2 ^ 31 <= z < 2 ^ 31.

(** A local offer whose fields fit their C++ types. *)
Definition valid_my_offer (m : MyOfferInfo) : Prop :=
  valid_offer (getOfferInfo m) /\ is_int32 (type m) /\ is_int32 (status m).

(** The parameters [addOrEditMyOffer] binds. *)
Definition bindMyOfferData (m : MyOfferInfo) : Row :=
  bind_type_status (bindOfferData (getOfferInfo m)) (type m) (status m).

Definition set_idTransaction (v : Z) (o : OfferInfo) : OfferInfo :=
  {| idTransaction := v; hash := hash o; pubKey := pubKey o;
     countryIso := countryIso o; currencyIso := currencyIso o;
     paymentMethod := paymentMethod o; price := price o;
     minAmount := minAmount o; timeCreate := timeCreate o;
     timeToExpiration := timeToExpiration o;
     timeModification := timeModification o; shortInfo := shortInfo o;
     details := details o; editingVersion := editingVersion o;
     editsign := editsign o |}.

Definition set_pubKey (v : string) (o : OfferInfo) : OfferInfo :=
  {| idTransaction := idTransaction o; hash := hash o; pubKey := v;
     countryIso := countryIso o; currencyIso := currencyIso o;
     paymentMethod := paymentMethod o; price := price o;
     minAmount := minAmount o; timeCreate := timeCreate o;
     timeToExpiration := timeToExpiration o;
     timeModification := timeModification o; shortInfo := shortInfo o;
     details := details o; editingVersion := editingVersion o;
     editsign := editsign o |}.

(** A filter text the code can splice between quotes into its query: it
    holds neither a quote nor a NUL, so that the clause compares the
    column with this text. *)
Definition plain_text (s : string) : Prop :=
  forallb (fun c => negb (Ascii.eqb c "'"%char) && negb (Ascii.eqb c "000"%char))
          (list_ascii_of_string s) = true.

(** The filter of the list and count functions in the words of the
    specification, field by field, to be compared with the clause the
    code builds ([where_iso_payment], [where_type_status]): a field
    constrains only when it is not its wildcard, which is the empty text
    for the two codes, zero for the payment method, a negative number for
    the type and zero or less for the status. *)
Definition offer_passes (countryIso_ currencyIso_ : string) (payment : Z)
    (o : OfferInfo) : bool :=
  (String.eqb countryIso_ "" || String.eqb (countryIso o) countryIso_) &&
  (String.eqb currencyIso_ "" || String.eqb (currencyIso o) currencyIso_) &&
  ((payment =? 0) || (paymentMethod o =? payment)).

Definition my_offer_passes (countryIso_ currencyIso_ : string)
    (payment type_ statusOffer : Z) (m : MyOfferInfo) : bool :=
  offer_passes countryIso_ currencyIso_ payment (getOfferInfo m) &&
  ((type_ <? 0) || (type m =? type_)) &&
  ((statusOffer <=? 0) || (status m =? statusOffer)).

(** The page that LIMIT and OFFSET cut from a listing: at most [limit]
    records after the first [offset], and the whole listing without a
    positive limit. *)
Definition page {A} (limit offset : Z) (l : list A) : list A :=
  if 0 <? limit then
    firstn (Z.to_nat limit) (if 0 <? offset then skipn (Z.to_nat offset) l else l)
  else l.

(** A record whose expiration time fits the signed 64-bit column that
    stores it. *)
Definition fits_column (o : OfferInfo) : Prop := timeToExpiration o < 2 ^ 63.

Definition set_status_of (st : Z) (m : MyOfferInfo) : MyOfferInfo :=
  {| getOfferInfo := getOfferInfo m; type := type m; status := st |}.




(** A computation that leaves an observation of the object as it was,
    whether it returns or throws. *)
Definition preserves {A B} (f : DexDB -> A) (m : M B) : Prop :=
  forall s, f (snd (m s)) = f s.


(** A database file in which nothing has been created yet. *)
Definition empty_file (d : Database) : Prop :=
  (forall t, table_exists t d = false) /\ indexes d = [] /\
  integrity_check d = "ok"%string.

(** The database [checkDexDbSchema] builds in memory, and its schema. *)
Definition created_tables : Database :=
  CREATE_TABLE T_filterList (CREATE_TABLE T_myOffers (CREATE_TABLE T_offersBuy
    (CREATE_TABLE T_offersSell (CREATE_TABLE T_paymentMethods
      (CREATE_TABLE T_currencies (CREATE_TABLE T_countries
        (CREATE_TABLE T_dbversion memory_db))))))).

Definition schema_in_code : gmap string string :=
  getDbSchema (createIndexes created_tables).

(** The rows of countries after the UPDATE statements of one
    [editCountries], the first of them carrying [sort]. *)
Fixpoint renumbered (items : list CountryInfo) (sort : Z) (rows : list CountryRow)
    : list CountryRow :=
  match items with
  | [] => rows
  | item :: items' =>
      renumbered items' (sort + 1)
        (map (fun r =>
                if String.eqb (countries_iso r) (country_iso item)
                then {| countries_iso := countries_iso r;
                        countries_name := countries_name r;
                        countries_enabled := country_enabled item;
                        countries_currencyId := countries_currencyId r;
                        countries_sortOrder := sort |}
                else r) rows)
  end.

(** The position of a text in a list, and the flag a list of countries
    gives for a code. *)
Fixpoint index_of (a : string) (l : list string) : Z :=
  match l with
  | [] => 0
  | x :: l' => if String.eqb x a then 0 else 1 + index_of a l'
  end.

Definition enabled_in (items : list CountryInfo) (a : string) : bool :=
  match List.find (fun item => String.eqb (country_iso item) a) items with
  | Some item => country_enabled item
  | None => false
  end.

(** *** Further sample data *)

(** A store object on a file in which nothing has been created yet. *)
Definition blank_store : DexDB :=
  {| db := memory_db; countries := []; currencies := []; payments := [];
     isGetCountriesDataFromDB := true; isGetCurrenciesDataFromDB := true;
     isGetPaymentsDataFromDB := true; callBack := {[ 7%N := 1 ]};
     bOffersRescan := false; delivered := [] |}.

(** The legacy file, damaged: the integrity check reports a problem. *)
Definition damaged_store : DexDB :=
  with_db (fun d =>
    {| t_dbversion := t_dbversion d; t_countries := t_countries d;
       t_currencies := t_currencies d; t_paymentMethods := t_paymentMethods d;
       t_myOffers := t_myOffers d; t_offersSell := t_offersSell d;
       t_offersBuy := t_offersBuy d; t_filterList := t_filterList d;
       t_countries_old := t_countries_old d; t_currencies_old := t_currencies_old d;
       t_paymentMethods_old := t_paymentMethods_old d;
       t_myOffers_old := t_myOffers_old d; t_offersSell_old := t_offersSell_old d;
       t_offersBuy_old := t_offersBuy_old d;
       indexes := indexes d; integrity_check := "row 1 missing from index" |})
    legacy_store.



Definition sample_offer_at (h : Z) (country currency : string) (pay : Z) : OfferInfo :=
  {| idTransaction := h; hash := h; pubKey := "key"; countryIso := country;
     currencyIso := currency; paymentMethod := pay; price := 100; minAmount := 10;
     timeCreate := 10; timeToExpiration := 50; timeModification := 10;
     shortInfo := "info"; details := "details"; editingVersion := 0;
     editsign := "sign" |}.

Definition sample_my_offer_at (h : Z) (country currency : string) (pay ty st : Z)
    : MyOfferInfo :=
  {| getOfferInfo := sample_offer_at h country currency pay; type := ty; status := st |}.

Definition sample_my_offer : MyOfferInfo :=
  {| getOfferInfo := sample_offer 255 50 10; type := 1; status := 2 |}.

(** * Properties *)

(** ** Casts and text forms *)

Lemma uint64_via_int64 z : Int.is_uint64 z -> Int.to_uint64 (Int.to_int64 z) = z.
Proof.
  unfold Int.is_uint64, Int.to_uint64, Int.to_int64; intros Hz.
  rewrite Zminus_mod, Zmod_mod, <- Zminus_mod.
  replace (z + 2 ^ 63 - 2 ^ 63) with z by lia.
  apply Z.mod_small; lia.
Qed.

Lemma uint32_via_int32 z : Int.is_uint32 z -> Int.to_uint32 (Int.to_int32 z) = z.
Proof.
  unfold Int.is_uint32, Int.to_uint32, Int.to_int32; intros Hz.
  rewrite Zminus_mod, Zmod_mod, <- Zminus_mod.
  replace (z + 2 ^ 31 - 2 ^ 31) with z by lia.
  apply Z.mod_small; lia.
Qed.

Lemma int32_idem z : Int.to_int32 (Int.to_int32 z) = Int.to_int32 z.
Proof.
  unfold Int.to_int32.
  replace ((z + 2 ^ 31) mod 2 ^ 32 - 2 ^ 31 + 2 ^ 31) with ((z + 2 ^ 31) mod 2 ^ 32) by lia.
  now rewrite Zmod_mod.
Qed.

Lemma uint8_small z : Int.is_uint8 z -> Int.to_uint8 z = z.
Proof. unfold Int.is_uint8, Int.to_uint8; intros; apply Z.mod_small; lia. Qed.

Lemma int64_via_uint64 z : Int.is_int64 z -> Int.to_int64 (Int.to_uint64 z) = z.
Proof.
  unfold Int.is_int64, Int.to_uint64, Int.to_int64; intros Hz.
  rewrite Zplus_mod, Zmod_mod, <- Zplus_mod.
  rewrite Z.mod_small; lia.
Qed.

Lemma int64_small z : Int.is_int64 z -> Int.to_int64 z = z.
Proof. unfold Int.is_int64, Int.to_int64; intros Hz; rewrite Z.mod_small; lia. Qed.

Lemma hex_val_char d : 0 <= d < 16 -> Uint256.hex_val (Uint256.hex_char d) = Some d.
Proof.
  intros Hd.
  assert (H : d = 0 \/ d = 1 \/ d = 2 \/ d = 3 \/ d = 4 \/ d = 5 \/ d = 6
              \/ d = 7 \/ d = 8 \/ d = 9 \/ d = 10 \/ d = 11 \/ d = 12
              \/ d = 13 \/ d = 14 \/ d = 15) by lia.
  repeat (destruct H as [-> | H]; [reflexivity |]).
  subst d; reflexivity.
Qed.

Lemma of_hex_to_hex k : forall h tail acc,
  0 <= h ->
  Uint256.of_hex (Uint256.to_hex k h tail) acc
  = Uint256.of_hex tail (acc * 16 ^ Z.of_nat k + h mod 16 ^ Z.of_nat k).
Proof.
  induction k as [| k IH]; intros h tail acc Hh.
  - cbn [Uint256.to_hex]. change (16 ^ Z.of_nat 0) with 1.
    rewrite Z.mod_1_r. f_equal; lia.
  - cbn [Uint256.to_hex]. rewrite IH by (apply Z.div_pos; lia).
    cbn [Uint256.of_hex]. rewrite hex_val_char by (apply Z.mod_pos_bound; lia).
    f_equal.
    rewrite Nat2Z.inj_succ, Z.pow_succ_r by lia.
    assert (Hp : 0 < 16 ^ Z.of_nat k) by (apply Z.pow_pos_nonneg; lia).
    rewrite (Z.mul_comm 16 (16 ^ Z.of_nat k)).
    rewrite (Z.mul_comm (16 ^ Z.of_nat k) 16).
    rewrite (Z.rem_mul_r h 16 (16 ^ Z.of_nat k)) by lia.
    ring.
Qed.

Lemma SetHex_GetHex h : Uint256.valid h -> Uint256.SetHex (Uint256.GetHex h) = h.
Proof.
  unfold Uint256.valid, Uint256.SetHex, Uint256.GetHex; intros Hh.
  rewrite of_hex_to_hex by lia.
  cbn [Uint256.of_hex]. change (16 ^ Z.of_nat 64) with (2 ^ 256).
  rewrite Z.mul_0_l, Z.add_0_l, Zmod_mod.
  apply Z.mod_small; lia.
Qed.


(** ** The store object *)

Lemma with_delivered_nil s : with_delivered (fun d => d ++ []) s = s.
Proof. destruct s; unfold with_delivered; cbn. now rewrite app_nil_r. Qed.

Lemma with_delivered_app l1 l2 s :
  with_delivered (fun d => d ++ l2) (with_delivered (fun d => d ++ l1) s)
  = with_delivered (fun d => d ++ (l1 ++ l2)) s.
Proof. destruct s; unfold with_delivered; cbn. now rewrite app_assoc. Qed.

Lemma set_table_same t d : set_table t (get_table t d) d = d.
Proof. destruct d, t; reflexivity. Qed.

Lemma get_set_table t v d : get_table t (set_table t v d) = v.
Proof. destruct t; reflexivity. Qed.

Lemma for_each_notify tables operation st : forall l s,
  for_each l (fun item =>
      if negb (N.eqb item nullptr) then notify item tables operation st else ret tt) s
  = (Return tt,
     with_delivered (fun d => d ++
       map (fun item => {| ev_observer := item; ev_table := tables;
                           ev_operation := operation; ev_status := st |})
           (List.filter (fun item => negb (N.eqb item nullptr)) l)) s).
Proof.
  induction l as [| item l IH]; intros s.
  - cbn. now rewrite with_delivered_nil.
  - cbn [for_each List.filter]. unfold bind.
    destruct (negb (N.eqb item nullptr)).
    + unfold notify, modify. rewrite IH, with_delivered_app. reflexivity.
    + unfold ret. apply IH.
Qed.

Lemma observers_empty (cb : gmap N Z) : size cb = 0%nat -> observers cb = [].
Proof.
  intros H. apply map_size_empty_inv in H. subst cb. reflexivity.
Qed.

Lemma finishTableOperation_ok tables operation s :
  finishTableOperation tables operation 0 s
  = (Return tt,
     with_delivered (fun d => d ++ fanout (callBack s) tables operation Ok) s).
Proof.
  unfold finishTableOperation, fanout. cbn [Z.eqb negb].
  unfold bind, gets.
  destruct (0 <? Z.of_nat (size (callBack s))) eqn:E.
  - apply for_each_notify.
  - rewrite observers_empty by (apply Z.ltb_ge in E; lia).
    cbn. now rewrite with_delivered_nil.
Qed.

Lemma finishTableOperation_throw tables operation status s :
  status <> 0 ->
  finishTableOperation tables operation status s
  = (Throw (DexDBException status), s).
Proof.
  intros H. unfold finishTableOperation.
  destruct (status =? 0) eqn:E; [apply Z.eqb_eq in E; contradiction |].
  reflexivity.
Qed.

(** ** Commands on the offer tables *)

Lemma with_db_set_same t rows s :
  get_table t (db s) = Some rows -> with_db (set_table t (Some rows)) s = s.
Proof.
  intros H. destruct s as [d]. unfold with_db; cbn in *.
  now rewrite <- H, set_table_same.
Qed.

Lemma execute_step c p s rows :
  get_table (cmd_table c) (db s) = Some rows ->
  prepares c p = true ->
  execute c p s
  = (Return (fst (step c p rows)),
     with_db (set_table (cmd_table c) (Some (snd (step c p rows)))) s).
Proof.
  intros Ht Hp. unfold execute. rewrite Ht, Hp.
  now destruct (step c p rows).
Qed.

Lemma existsb_hash_absent h rows :
  absent h rows ->
  existsb (fun x => String.eqb (col_hash x) h) rows = false.
Proof.
  induction rows as [| x rows IH]; intros Ha; [reflexivity |].
  cbn. rewrite IH by (intros y Hy; apply Ha; now right).
  destruct (String.eqb_spec (col_hash x) h) as [E | E]; [| reflexivity].
  exfalso. apply (Ha x); [now left | exact E].
Qed.

(** What [addOffer] does, in one equation. *)
Lemma addOffer_eq tableName offer s rows :
  get_table tableName (db s) = Some rows ->
  addOffer tableName offer s
  = if existsb (fun x => String.eqb (col_hash x) (Uint256.GetHex (hash offer))) rows
    then (Throw (DexDBException SQLITE_CONSTRAINT), s)
    else (Return tt,
          with_delivered
            (fun d => d ++ fanout (callBack s) (tTable_of_write tableName) Add Ok)
            (with_db (set_table tableName (Some (rows ++ [bindOfferData offer]))) s)).
Proof.
  intros Ht. unfold addOffer, addOrEditOffer, bind.
  rewrite (execute_step _ _ _ rows) by (assumption || reflexivity).
  cbn [step fst snd cmd_table].
  change (col_hash (bindOfferData offer)) with (Uint256.GetHex (hash offer)).
  destruct (existsb _ rows); cbn [fst snd].
  - rewrite finishTableOperation_throw by (unfold SQLITE_CONSTRAINT; lia).
    now rewrite (with_db_set_same _ _ _ Ht).
  - unfold SQLITE_OK. rewrite finishTableOperation_ok. reflexivity.
Qed.

Lemma addMyOffer_eq offer s rows :
  t_myOffers (db s) = Some rows ->
  addMyOffer offer s
  = if existsb (fun x => String.eqb (col_hash x)
                           (Uint256.GetHex (hash (getOfferInfo offer)))) rows
    then (Throw (DexDBException SQLITE_CONSTRAINT), s)
    else (Return tt,
          with_delivered
            (fun d => d ++ fanout (callBack s) MyOffers Add Ok)
            (with_db (set_table myOffers
               (Some (rows ++ [bind_type_status (bindOfferData (getOfferInfo offer))
                                 (type offer) (status offer)]))) s)).
Proof.
  intros Ht. unfold addMyOffer, addOrEditMyOffer, bind.
  rewrite (execute_step _ _ _ rows) by (assumption || reflexivity).
  cbn [step fst snd cmd_table].
  change (col_hash (bind_type_status _ _ _))
    with (Uint256.GetHex (hash (getOfferInfo offer))).
  destruct (existsb _ rows); cbn [fst snd].
  - rewrite finishTableOperation_throw by (unfold SQLITE_CONSTRAINT; lia).
    now rewrite (with_db_set_same myOffers _ _ Ht).
  - unfold SQLITE_OK. rewrite finishTableOperation_ok. reflexivity.
Qed.

(** C5.  A second [add] of a record whose hash is in the table fails with
    the constraint status of the engine (the duplicate key), and leaves
    the store object, file included, exactly as the first [add] left it.
    This holds for [addOffer] on each table and for [addMyOffer]. *)
Theorem add_twice_duplicate_key (tableName : TableName) (r r' : OfferInfo)
    (m m' : MyOfferInfo) (s : DexDB) :
  is_some (get_table tableName (db s)) = true ->
  is_some (t_myOffers (db s)) = true ->
  hash r' = hash r ->
  hash (getOfferInfo m') = hash (getOfferInfo m) ->
  (let s1 := snd (addOffer tableName r s) in
   addOffer tableName r' s1 = (Throw (DexDBException SQLITE_CONSTRAINT), s1)) /\
  (let s1 := snd (addMyOffer m s) in
   addMyOffer m' s1 = (Throw (DexDBException SQLITE_CONSTRAINT), s1)).
Proof.
  intros Ht Hm Hr Hmh. split.
  - destruct (get_table tableName (db s)) as [rows |] eqn:E; [| discriminate].
    cbn zeta. rewrite (addOffer_eq _ _ _ rows E).
    destruct (existsb _ rows) eqn:Ex; cbn [snd].
    + rewrite (addOffer_eq _ _ _ rows E), Hr, Ex. reflexivity.
    + rewrite (addOffer_eq _ _ _ (rows ++ [bindOfferData r])).
      2:{ cbn. apply get_set_table. }
      rewrite Hr, existsb_app. cbn [existsb].
      change (col_hash (bindOfferData r)) with (Uint256.GetHex (hash r)).
      rewrite String.eqb_refl, orb_true_r. reflexivity.
  - destruct (t_myOffers (db s)) as [rows |] eqn:E; [| discriminate].
    cbn zeta. rewrite (addMyOffer_eq _ _ rows E).
    destruct (existsb _ rows) eqn:Ex; cbn [snd].
    + rewrite (addMyOffer_eq _ _ rows E), Hmh, Ex. reflexivity.
    + rewrite (addMyOffer_eq _ _ (rows ++
         [bind_type_status (bindOfferData (getOfferInfo m)) (type m) (status m)])).
      2:{ reflexivity. }
      rewrite Hmh, existsb_app. cbn [existsb].
      change (col_hash (bind_type_status _ _ _))
        with (Uint256.GetHex (hash (getOfferInfo m))).
      rewrite String.eqb_refl, orb_true_r. reflexivity.
Qed.

Lemma add_twice_duplicate_key_witness :
  let s := sample_store [] [] [] in
  let r := sample_offer 255 50 10 in
  let m := {| getOfferInfo := r; type := 1; status := 1 |} in
  (let s1 := snd (addOffer offersSell r s) in
   addOffer offersSell r s1 = (Throw (DexDBException SQLITE_CONSTRAINT), s1)) /\
  (let s1 := snd (addMyOffer m s) in
   addMyOffer m s1 = (Throw (DexDBException SQLITE_CONSTRAINT), s1)).
Proof.
  apply (add_twice_duplicate_key offersSell (sample_offer 255 50 10)
           (sample_offer 255 50 10)
           {| getOfferInfo := sample_offer 255 50 10; type := 1; status := 1 |}
           {| getOfferInfo := sample_offer 255 50 10; type := 1; status := 1 |}
           (sample_store [] [] [])); reflexivity.
Defined.

Lemma update_absent cols p h rows :
  absent h rows ->
  map (fun x => if Cond_holds (hash_eq h) x then assign cols p x else x) rows = rows.
Proof.
  induction rows as [| x rows IH]; intros Ha; [reflexivity |].
  cbn [map]. rewrite IH by (intros y Hy; apply Ha; now right).
  cbn [Cond_holds].
  destruct (String.eqb_spec (col_hash x) h) as [E | E]; [| reflexivity].
  exfalso. apply (Ha x); [now left | exact E].
Qed.

(** C6 (as amended).  [editOffer] of a record whose hash is in no row of
    the table does not fail: the UPDATE matches no row, its status is 0,
    the function returns, the store is unchanged, and the observers are
    told that an Edit went well. *)
Theorem editOffer_absent_hash (tableName : TableName) (r' : OfferInfo)
    (s : DexDB) (rows : list Row) :
  get_table tableName (db s) = Some rows ->
  absent (Uint256.GetHex (hash r')) rows ->
  exists s',
    editOffer tableName r' s = (Return tt, s') /\
    db s' = db s /\
    delivered s' =
      delivered s ++ fanout (callBack s) (tTable_of_write tableName) Edit Ok.
Proof.
  intros Ht Ha. unfold editOffer, addOrEditOffer, bind.
  rewrite (execute_step _ _ _ rows) by (assumption || reflexivity).
  cbn [step fst snd cmd_table].
  rewrite update_absent by assumption.
  rewrite (with_db_set_same _ _ _ Ht).
  unfold SQLITE_OK. rewrite finishTableOperation_ok.
  eexists. split; [reflexivity |]. split; reflexivity.
Qed.

Lemma editOffer_absent_hash_witness :
  exists s',
    editOffer offersSell (sample_offer 2 50 10)
      (sample_store [bindOfferData (sample_offer 1 50 10)] [] [])
    = (Return tt, s') /\
    db s' = db (sample_store [bindOfferData (sample_offer 1 50 10)] [] []) /\
    delivered s' =
      delivered (sample_store [bindOfferData (sample_offer 1 50 10)] [] [])
      ++ fanout (callBack (sample_store [bindOfferData (sample_offer 1 50 10)] [] []))
           (tTable_of_write offersSell) Edit Ok.
Proof.
  apply (editOffer_absent_hash offersSell (sample_offer 2 50 10)
           (sample_store [bindOfferData (sample_offer 1 50 10)] [] [])
           [bindOfferData (sample_offer 1 50 10)]).
  - reflexivity.
  - intros x [<- | []]. vm_compute. discriminate.
Defined.

(** C6 as stated fails: the table holds the offer of hash 1 alone, and
    [editOffer] of a record of hash 2 returns normally instead of
    failing. *)
Lemma editOffer_absent_hash_counterexample :
  absent (Uint256.GetHex (hash (sample_offer 2 50 10)))
         [bindOfferData (sample_offer 1 50 10)] /\
  fst (editOffer offersSell (sample_offer 2 50 10)
         (sample_store [bindOfferData (sample_offer 1 50 10)] [] []))
  = Return tt.
Proof.
  split.
  - intros x [<- | []]. vm_compute. discriminate.
  - vm_compute. reflexivity.
Qed.

(** ** Reading a record back *)

Ltac cbn_fields :=
  cbn [idTransaction hash pubKey countryIso currencyIso paymentMethod price
       minAmount timeCreate timeToExpiration timeModification shortInfo
       details editingVersion editsign getOfferInfo type status
       col_idTransaction col_hash col_pubKey col_countryIso col_currencyIso
       col_paymentMethod col_price col_minAmount col_timeCreate
       col_timeToExpiration col_timeModification col_shortInfo col_details
       col_type col_status col_editingVersion col_editsign].

Lemma getOffer_bindOfferData r : valid_offer r -> getOffer (bindOfferData r) = r.
Proof.
  destruct r; unfold valid_offer, getOffer, bindOfferData; cbn_fields.
  intros (Hid & Hh & Hp & Hpr & Hmin & Htc & Hte & Htm & Hev).
  rewrite !SetHex_GetHex, !uint64_via_int64, int32_idem, uint32_via_int32, uint8_small
    by assumption.
  reflexivity.
Qed.

Lemma filter_hash_absent h rows :
  absent h rows -> List.filter (where_holds [hash_eq h]) rows = [].
Proof.
  induction rows as [| x rows IH]; intros Ha; [reflexivity |].
  cbn. rewrite andb_true_r.
  destruct (String.eqb_spec (col_hash x) h) as [E | E].
  - exfalso. apply (Ha x); [now left | exact E].
  - apply IH. intros y Hy. apply Ha. now right.
Qed.

(** C7.  A valid record added under a hash the table does not hold yet is
    read back by [getOfferByHash] field for field: the text form of the
    two identifiers and the casts of the integer columns all round-trip. *)
Theorem add_then_getOfferByHash (tableName : TableName) (r : OfferInfo)
    (s : DexDB) (rows : list Row) :
  valid_offer r ->
  get_table tableName (db s) = Some rows ->
  absent (Uint256.GetHex (hash r)) rows ->
  exists s1 s2,
    addOffer tableName r s = (Return tt, s1) /\
    getOfferByHash tableName (hash r) s1 = (Return r, s2).
Proof.
  intros Hv Ht Ha.
  rewrite (addOffer_eq _ _ _ rows Ht), existsb_hash_absent by assumption.
  eexists. eexists. split; [reflexivity |].
  unfold getOfferByHash, getOffer_query, query, bind, ret.
  cbn [q_from q_where db with_delivered with_db].
  rewrite get_set_table. cbn [forallb has_column andb].
  unfold select. cbn [q_where q_limit].
  rewrite List.filter_app, filter_hash_absent by assumption.
  cbn [List.filter where_holds forallb Cond_holds app].
  change (col_hash (bindOfferData r)) with (Uint256.GetHex (hash r)).
  rewrite String.eqb_refl. cbn [andb hd fst snd].
  unfold finish, SQLITE_OK. rewrite finishTableOperation_ok.
  rewrite getOffer_bindOfferData by assumption.
  reflexivity.
Qed.

Lemma add_then_getOfferByHash_witness :
  exists s1 s2,
    addOffer offersSell (sample_offer 255 50 10) (sample_store [] [] [])
    = (Return tt, s1) /\
    getOfferByHash offersSell (hash (sample_offer 255 50 10)) s1
    = (Return (sample_offer 255 50 10), s2).
Proof.
  apply (add_then_getOfferByHash offersSell (sample_offer 255 50 10)
           (sample_store [] [] []) []).
  - unfold valid_offer, Uint256.valid, Int.is_uint8, Int.is_uint64, Int.is_uint32.
    cbn. lia.
  - reflexivity.
  - intros x [].
Defined.

(** ** Failure of the engine *)

(** C2 (what the code does).  On a status other than 0
    [finishTableOperation] throws at once: the exception carries the
    status, and no observer is called, so no Error event is ever fanned
    out. *)
Theorem finishTableOperation_error_no_fanout (tables : TypeTable)
    (operation : TypeTableOperation) (status : Z) (s : DexDB) :
  status <> 0 ->
  finishTableOperation tables operation status s
  = (Throw (DexDBException status), s).
Proof. apply finishTableOperation_throw. Qed.

Lemma finishTableOperation_error_no_fanout_witness :
  finishTableOperation OffersSell Add 1 (sample_store [] [] [])
  = (Throw (DexDBException 1), sample_store [] [] []).
Proof.
  apply (finishTableOperation_error_no_fanout OffersSell Add 1
           (sample_store [] [] [])).
  lia.
Defined.

(** ** Stored records read back *)

Lemma int32_small z : is_int32 z -> Int.to_int32 z = z.
Proof. unfold is_int32, Int.to_int32. intros H. rewrite Z.mod_small; lia. Qed.

Lemma uint64_small z : Int.is_uint64 z -> Int.to_uint64 z = z.
Proof. unfold Int.is_uint64, Int.to_uint64. intros H. now rewrite Z.mod_small. Qed.

(** What a read of a whole query does, in one equation. *)
Lemma query_eq q s rows :
  get_table (q_from q) (db s) = Some rows ->
  forallb (has_column (q_from q)) (q_where q) = true ->
  query q s = (Return (select q rows), s).
Proof. intros Ht Hc. unfold query. now rewrite Ht, Hc. Qed.

Lemma filter_where_nil rows : List.filter (where_holds []) rows = rows.
Proof. induction rows as [| x rows IH]; [reflexivity |]. cbn. now f_equal. Qed.

Lemma filter_map {A B} (f : B -> bool) (g : A -> B) l :
  List.filter f (map g l) = map g (List.filter (fun x => f (g x)) l).
Proof.
  induction l as [| x l IH]; [reflexivity |]. cbn.
  destruct (f (g x)); cbn; now rewrite IH.
Qed.

Lemma Forall_filter {A} (P : A -> Prop) f l : Forall P l -> Forall P (List.filter f l).
Proof.
  rewrite !List.Forall_forall. intros H x Hx. apply List.filter_In in Hx. now apply H.
Qed.

Lemma Forall_fst {A} (P Q : A -> Prop) l : Forall (fun x => P x /\ Q x) l -> Forall P l.
Proof. intros H. eapply List.Forall_impl; [| exact H]. now intros x [Hx _]. Qed.

Lemma getOffers_all_eq tableName s rows :
  get_table tableName (db s) = Some rows ->
  getOffers_all tableName s
  = (Return (map getOffer rows),
     with_delivered
       (fun d => d ++ fanout (callBack s) (tTable_of_read tableName) Read Ok) s).
Proof.
  intros Ht. unfold getOffers_all, bind.
  rewrite (query_eq _ _ rows) by (assumption || reflexivity).
  unfold finish, SQLITE_OK. rewrite finishTableOperation_ok.
  unfold select. cbn [q_where q_limit]. now rewrite filter_where_nil.
Qed.

Lemma getMyOffers_all_eq s rows :
  t_myOffers (db s) = Some rows ->
  getMyOffers_all s
  = (Return (map getMyOffer rows),
     with_delivered (fun d => d ++ fanout (callBack s) MyOffers Read Ok) s).
Proof.
  intros Ht. unfold getMyOffers_all, bind.
  rewrite (query_eq _ _ rows) by (assumption || reflexivity).
  unfold finish, SQLITE_OK. rewrite finishTableOperation_ok.
  unfold select. cbn [q_where q_limit]. now rewrite filter_where_nil.
Qed.

Lemma getMyOffer_bindMyOfferData m : valid_my_offer m -> getMyOffer (bindMyOfferData m) = m.
Proof.
  destruct m as [o t st]. unfold valid_my_offer, getMyOffer, bindMyOfferData.
  cbn_fields. intros (Hv & Ht & Hst).
  change (getOffer (bind_type_status (bindOfferData o) t st))
    with (getOffer (bindOfferData o)).
  rewrite getOffer_bindOfferData by assumption.
  unfold bind_type_status; cbn_fields. cbn [default from_option].
  now rewrite !int32_small.
Qed.

Lemma map_getOffer_bindOfferData offers :
  Forall valid_offer offers -> map getOffer (map bindOfferData offers) = offers.
Proof.
  intros H. rewrite map_map. rewrite <- (map_id offers) at 2.
  apply map_ext_in. intros o Ho. rewrite List.Forall_forall in H.
  now apply getOffer_bindOfferData, H.
Qed.

Lemma map_getMyOffer_bindMyOfferData mine :
  Forall valid_my_offer mine -> map getMyOffer (map bindMyOfferData mine) = mine.
Proof.
  intros H. rewrite map_map. rewrite <- (map_id mine) at 2.
  apply map_ext_in. intros m Hm. rewrite List.Forall_forall in H.
  now apply getMyOffer_bindMyOfferData, H.
Qed.

(** The expiration time of a stored record is the number in its column. *)
Lemma col_timeToExpiration_bindOfferData o :
  valid_offer o -> fits_column o ->
  col_timeToExpiration (bindOfferData o) = timeToExpiration o.
Proof.
  intros (_ & _ & _ & _ & _ & _ & Hte & _) Hf. unfold fits_column in Hf.
  cbn [bindOfferData col_timeToExpiration]. apply int64_small.
  unfold Int.is_uint64 in Hte. unfold Int.is_int64. lia.
Qed.

(** ** The expiration sweeps *)

Lemma delete_le_filter t rows :
  List.filter (fun x => negb (Cond_holds (timeToExpiration_le t) x)) rows
  = List.filter (fun r => t <? col_timeToExpiration r) rows.
Proof.
  apply List.filter_ext. intros r. cbn [Cond_holds].
  destruct (Z.leb_spec (col_timeToExpiration r) t),
           (Z.ltb_spec t (col_timeToExpiration r)); cbn; (reflexivity || lia).
Qed.

Lemma update_lt_expire Expired now rows :
  map (fun x => if Cond_holds (timeToExpiration_lt now) x
                then assign set_status (bind_type_status null_row 0 Expired) x
                else x) rows
  = map (expire Expired now) rows.
Proof. reflexivity. Qed.

(** The two statements at time [now], row by row, on any table. *)
Lemma sweep_expired_rows (Expired now : Z) (tableName : TableName) (s : DexDB)
    (rows mine : list Row) :
  Int.is_int64 now ->
  get_table tableName (db s) = Some rows ->
  t_myOffers (db s) = Some mine ->
  (exists s',
     deleteOldOffers tableName now s = (Return tt, s') /\
     db s' = set_table tableName
               (Some (List.filter (fun r => now <? col_timeToExpiration r) rows))
               (db s)) /\
  (exists s',
     setStatusExpiredForMyOffers Expired now s = (Return tt, s') /\
     db s' = set_table myOffers (Some (map (expire Expired now) mine)) (db s)).
Proof.
  intros Hnow Ht Hm. split.
  - unfold deleteOldOffers, bind.
    rewrite (execute_step _ _ _ rows) by (assumption || reflexivity).
    cbn [step fst snd cmd_table]. rewrite int64_small by assumption.
    rewrite delete_le_filter.
    unfold SQLITE_OK. rewrite finishTableOperation_ok.
    eexists. split; reflexivity.
  - unfold setStatusExpiredForMyOffers, bind.
    rewrite (execute_step _ _ _ mine) by (assumption || reflexivity).
    cbn [step fst snd cmd_table]. rewrite int64_via_uint64 by assumption.
    rewrite update_lt_expire.
    unfold SQLITE_OK. rewrite finishTableOperation_ok.
    eexists. split; reflexivity.
Qed.

Lemma filter_stored_offers now offers :
  Forall (fun o => valid_offer o /\ fits_column o) offers ->
  List.filter (fun r => now <? col_timeToExpiration r) (map bindOfferData offers)
  = map bindOfferData (List.filter (fun o => now <? timeToExpiration o) offers).
Proof.
  intros H. rewrite filter_map. f_equal. apply List.filter_ext_in. intros o Ho.
  rewrite List.Forall_forall in H. destruct (H o Ho) as [Hv Hf].
  now rewrite col_timeToExpiration_bindOfferData.
Qed.

Lemma filter_stored_my_offers now mine :
  Forall (fun m => valid_my_offer m /\ fits_column (getOfferInfo m)) mine ->
  List.filter (fun r => now <? col_timeToExpiration r) (map bindMyOfferData mine)
  = map bindMyOfferData
      (List.filter (fun m => now <? timeToExpiration (getOfferInfo m)) mine).
Proof.
  intros H. rewrite filter_map. f_equal. apply List.filter_ext_in. intros m Hm.
  rewrite List.Forall_forall in H. destruct (H m Hm) as [[Hv _] Hf].
  change (col_timeToExpiration (bindMyOfferData m))
    with (col_timeToExpiration (bindOfferData (getOfferInfo m))).
  now rewrite col_timeToExpiration_bindOfferData.
Qed.

Lemma expire_stored_my_offers Expired now mine :
  Forall (fun m => valid_my_offer m /\ fits_column (getOfferInfo m)) mine ->
  map (expire Expired now) (map bindMyOfferData mine)
  = map bindMyOfferData
      (map (fun m => if timeToExpiration (getOfferInfo m) <? now
                     then set_status_of Expired m else m) mine).
Proof.
  intros H. rewrite !map_map. apply map_ext_in. intros m Hm.
  rewrite List.Forall_forall in H. destruct (H m Hm) as [[Hv _] Hf].
  unfold expire.
  change (col_timeToExpiration (bindMyOfferData m))
    with (col_timeToExpiration (bindOfferData (getOfferInfo m))).
  rewrite col_timeToExpiration_bindOfferData by assumption.
  now destruct (timeToExpiration (getOfferInfo m) <? now).
Qed.

(** C1 (as amended).  The tables hold valid records whose expiration time
    is below 2^63, the range of the signed column that stores it, and
    [now] fits [time_t].  Then:
    - [deleteOldOffers] leaves in its table exactly the records with
      timeToExpiration > now, each as it was and in place: the records
      with timeToExpiration <= now are deleted, and the listing that
      follows returns the others;
    - the same holds on myOffers: [deleteOldMyOffers] does delete local
      offers;
    - [setStatusExpiredForMyOffers] deletes nothing: it sets the status of
      the local offers with timeToExpiration < now to Expired and changes
      no other field and no other offer. *)
Theorem sweep_expired (Expired now : Z) (tableName : TableName) (s : DexDB)
    (offers : list OfferInfo) (mine : list MyOfferInfo) :
  Int.is_int64 now ->
  is_int32 Expired ->
  get_table tableName (db s) = Some (map bindOfferData offers) ->
  t_myOffers (db s) = Some (map bindMyOfferData mine) ->
  Forall (fun o => valid_offer o /\ fits_column o) offers ->
  Forall (fun m => valid_my_offer m /\ fits_column (getOfferInfo m)) mine ->
  (exists s',
     deleteOldOffers tableName now s = (Return tt, s') /\
     db s' = set_table tableName
               (Some (map bindOfferData
                        (List.filter (fun o => now <? timeToExpiration o) offers)))
               (db s) /\
     fst (getOffers_all tableName s')
     = Return (List.filter (fun o => now <? timeToExpiration o) offers)) /\
  (exists s',
     deleteOldMyOffers now s = (Return tt, s') /\
     db s' = set_table myOffers
               (Some (map bindMyOfferData
                        (List.filter
                           (fun m => now <? timeToExpiration (getOfferInfo m)) mine)))
               (db s) /\
     fst (getMyOffers_all s')
     = Return (List.filter (fun m => now <? timeToExpiration (getOfferInfo m)) mine)) /\
  (exists s',
     setStatusExpiredForMyOffers Expired now s = (Return tt, s') /\
     db s' = set_table myOffers
               (Some (map bindMyOfferData
                        (map (fun m => if timeToExpiration (getOfferInfo m) <? now
                                       then set_status_of Expired m else m) mine)))
               (db s) /\
     fst (getMyOffers_all s')
     = Return (map (fun m => if timeToExpiration (getOfferInfo m) <? now
                             then set_status_of Expired m else m) mine)).
Proof.
  intros Hnow HE Ht Hm Ho Hmine.
  destruct (sweep_expired_rows Expired now tableName s _ _ Hnow Ht Hm)
    as [(s1 & E1 & D1) _].
  destruct (sweep_expired_rows Expired now myOffers s _ _ Hnow Hm Hm)
    as [(s2 & E2 & D2) (s3 & E3 & D3)].
  rewrite filter_stored_offers in D1 by assumption.
  rewrite filter_stored_my_offers in D2 by assumption.
  rewrite expire_stored_my_offers in D3 by assumption.
  split; [| split].
  - exists s1. split; [exact E1 |]. split; [exact D1 |].
    erewrite getOffers_all_eq by (rewrite D1; apply get_set_table).
    cbn [fst]. f_equal. apply map_getOffer_bindOfferData.
    apply Forall_filter. now apply Forall_fst in Ho.
  - exists s2. split; [exact E2 |]. split; [exact D2 |].
    erewrite getMyOffers_all_eq by (rewrite D2; reflexivity).
    cbn [fst]. f_equal. apply map_getMyOffer_bindMyOfferData.
    apply Forall_filter. now apply Forall_fst in Hmine.
  - exists s3. split; [exact E3 |]. split; [exact D3 |].
    erewrite getMyOffers_all_eq by (rewrite D3; reflexivity).
    cbn [fst]. f_equal. apply map_getMyOffer_bindMyOfferData.
    apply List.Forall_forall. intros m Hin. apply in_map_iff in Hin.
    destruct Hin as (m0 & <- & Hm0).
    rewrite List.Forall_forall in Hmine. destruct (Hmine m0 Hm0) as [Hv _].
    destruct (timeToExpiration (getOfferInfo m0) <? now); [| exact Hv].
    destruct Hv as (Hv & Hty & _). split; [exact Hv | split; [exact Hty | exact HE]].
Qed.

Lemma sweep_expired_witness :
  let s := sample_store
             (map bindOfferData [sample_offer 1 50 10; sample_offer 2 150 10]) []
             (map bindMyOfferData
                [{| getOfferInfo := sample_offer 3 50 10; type := 0; status := 1 |};
                 {| getOfferInfo := sample_offer 4 150 10; type := 0; status := 1 |}]) in
  (exists s',
     deleteOldOffers offersSell 100 s = (Return tt, s') /\
     db s' = set_table offersSell
               (Some (map bindOfferData [sample_offer 2 150 10])) (db s) /\
     fst (getOffers_all offersSell s') = Return [sample_offer 2 150 10]) /\
  (exists s',
     deleteOldMyOffers 100 s = (Return tt, s') /\
     db s' = set_table myOffers
               (Some (map bindMyOfferData
                        [{| getOfferInfo := sample_offer 4 150 10;
                            type := 0; status := 1 |}])) (db s) /\
     fst (getMyOffers_all s')
     = Return [{| getOfferInfo := sample_offer 4 150 10; type := 0; status := 1 |}]) /\
  (exists s',
     setStatusExpiredForMyOffers 3 100 s = (Return tt, s') /\
     db s' = set_table myOffers
               (Some (map bindMyOfferData
                        [{| getOfferInfo := sample_offer 3 50 10;
                            type := 0; status := 3 |};
                         {| getOfferInfo := sample_offer 4 150 10;
                            type := 0; status := 1 |}])) (db s) /\
     fst (getMyOffers_all s')
     = Return [{| getOfferInfo := sample_offer 3 50 10; type := 0; status := 3 |};
               {| getOfferInfo := sample_offer 4 150 10; type := 0; status := 1 |}]).
Proof.
  apply (sweep_expired 3 100 offersSell
           (sample_store
              (map bindOfferData [sample_offer 1 50 10; sample_offer 2 150 10]) []
              (map bindMyOfferData
                 [{| getOfferInfo := sample_offer 3 50 10; type := 0; status := 1 |};
                  {| getOfferInfo := sample_offer 4 150 10; type := 0; status := 1 |}]))
           [sample_offer 1 50 10; sample_offer 2 150 10]
           [{| getOfferInfo := sample_offer 3 50 10; type := 0; status := 1 |};
            {| getOfferInfo := sample_offer 4 150 10; type := 0; status := 1 |}]).
  - unfold Int.is_int64. lia.
  - unfold is_int32. lia.
  - reflexivity.
  - reflexivity.
  - repeat constructor;
      unfold fits_column, Uint256.valid, Int.is_uint8, Int.is_uint64, Int.is_uint32;
      simpl; lia.
  - repeat constructor;
      unfold fits_column, is_int32, Uint256.valid, Int.is_uint8, Int.is_uint64,
        Int.is_uint32; simpl; lia.
Defined.

(** C1 as stated fails on its last part: myOffers holds one offer that
    expired at 50, and the sweep [deleteOldMyOffers] at time 100 deletes
    it. *)
Lemma deleteOldMyOffers_deletes_counterexample :
  t_myOffers (db (sample_store [] [] [sample_my_row 3 50 0 1]))
  = Some [sample_my_row 3 50 0 1] /\
  fst (deleteOldMyOffers 100 (sample_store [] [] [sample_my_row 3 50 0 1]))
  = Return tt /\
  t_myOffers
    (db (snd (deleteOldMyOffers 100 (sample_store [] [] [sample_my_row 3 50 0 1]))))
  = Some [].
Proof. vm_compute. repeat split. Qed.

(** The bound on the expiration time is needed: an offer that expires at
    2^64 - 1 is valid, its column holds -1, and the sweep at time 100
    deletes it. *)
Example far_future_offer_swept :
  valid_offer (sample_offer 1 (2 ^ 64 - 1) 10) /\
  col_timeToExpiration (bindOfferData (sample_offer 1 (2 ^ 64 - 1) 10)) = -1 /\
  t_offersSell
    (db (snd (deleteOldOffersSell 100
                (sample_store [bindOfferData (sample_offer 1 (2 ^ 64 - 1) 10)] [] []))))
  = Some [].
Proof.
  split; [| split; vm_compute; reflexivity].
  unfold valid_offer, Uint256.valid, Int.is_uint8, Int.is_uint64, Int.is_uint32.
  simpl. lia.
Qed.

(** ** Sync manifests *)

Lemma getHashsAndEditingVersions_eq tableName from timeMod s rows :
  get_table tableName (db s) = Some rows ->
  getHashsAndEditingVersions tableName from timeMod s
  = (Return (manifest_of
               (List.filter (where_holds (where_period from timeMod)) rows)),
     with_delivered
       (fun d => d ++ fanout (callBack s) (tTable_of_read tableName) Read Ok) s).
Proof.
  intros Ht. unfold getHashsAndEditingVersions, query, bind, ret.
  cbn [q_from q_where]. rewrite Ht.
  assert (Hc : forallb (has_column tableName) (where_period from timeMod) = true)
    by (destruct from; reflexivity).
  rewrite Hc. unfold finish, SQLITE_OK. rewrite finishTableOperation_ok.
  reflexivity.
Qed.

Lemma In_manifest_of p rows :
  In p (manifest_of rows) <->
  exists r, In r rows /\
    p = (Uint256.SetHex (col_hash r),
         Int.to_uint32 (Int.to_int32 (col_editingVersion r))).
Proof.
  unfold manifest_of, distinct_hash_version. rewrite in_map_iff. split.
  - intros ([h v] & <- & Hin).
    rewrite <- list_elem_of_In, elem_of_remove_dups, list_elem_of_In in Hin.
    apply in_map_iff in Hin. destruct Hin as (r & E & Hr).
    inversion E; subst. exists r. split; [assumption | reflexivity].
  - intros (r & Hr & ->).
    exists (col_hash r, col_editingVersion r). split; [reflexivity |].
    rewrite <- list_elem_of_In, elem_of_remove_dups, list_elem_of_In.
    apply in_map_iff. exists r. split; [reflexivity | assumption].
Qed.

Lemma NoDup_map_inj {A B} (f : A -> B) l x y :
  List.NoDup (map f l) -> In x l -> In y l -> f x = f y -> x = y.
Proof.
  induction l as [| a l IH]; intros Hnd Hx Hy E; [contradiction |].
  cbn in Hnd. inversion Hnd as [| ? ? Hni Hnd']; subst.
  destruct Hx as [-> | Hx], Hy as [-> | Hy].
  - reflexivity.
  - exfalso. apply Hni. rewrite E. now apply in_map.
  - exfalso. apply Hni. rewrite <- E. now apply in_map.
  - now apply IH.
Qed.

Lemma wf_table_same_row rows r1 r2 :
  wf_table rows -> In r1 rows -> In r2 rows ->
  Uint256.SetHex (col_hash r1) = Uint256.SetHex (col_hash r2) -> r1 = r2.
Proof.
  intros [Hnd Hc] H1 H2 E.
  apply (NoDup_map_inj col_hash rows); try assumption.
  rewrite List.Forall_forall in Hc.
  destruct (Hc r1 H1) as (h1 & Hv1 & E1), (Hc r2 H2) as (h2 & Hv2 & E2).
  rewrite E1, E2 in E. rewrite !SetHex_GetHex in E by assumption.
  now rewrite E1, E2, E.
Qed.

Lemma In_filter_period_rows (from : OffersPeriod) t rows r :
  In r (List.filter (where_holds (where_period from t)) rows) -> In r rows.
Proof. intros H. now apply List.filter_In in H. Qed.

Lemma manifest_union t t0 rows p :
  In p (manifest_of (List.filter (where_holds (where_period All t0)) rows)) <->
  In p (manifest_of (List.filter (where_holds (where_period Before t)) rows)) \/
  In p (manifest_of (List.filter (where_holds (where_period After t)) rows)).
Proof.
  rewrite !In_manifest_of. split.
  - intros (r & Hr & ->). apply List.filter_In in Hr. destruct Hr as [Hr _].
    destruct (col_timeModification r <? t) eqn:E.
    + left. exists r. split; [| reflexivity].
      apply List.filter_In. split; [assumption |].
      cbn. now rewrite E.
    + right. exists r. split; [| reflexivity].
      apply List.filter_In. split; [assumption |].
      cbn. apply Z.ltb_ge in E. rewrite andb_true_r. now apply Z.leb_le.
  - intros [(r & Hr & ->) | (r & Hr & ->)];
      apply List.filter_In in Hr; destruct Hr as [Hr _];
      exists r; (split; [| reflexivity]);
      apply List.filter_In; (split; [assumption | reflexivity]).
Qed.

Lemma manifest_disjoint t rows p :
  wf_table rows ->
  In p (manifest_of (List.filter (where_holds (where_period Before t)) rows)) ->
  ~ In p (manifest_of (List.filter (where_holds (where_period After t)) rows)).
Proof.
  intros Hwf Hb Ha. rewrite In_manifest_of in Hb, Ha.
  destruct Hb as (r1 & H1 & ->), Ha as (r2 & H2 & E).
  apply List.filter_In in H1, H2.
  destruct H1 as [H1 P1], H2 as [H2 P2].
  assert (r1 = r2) as ->
    by (apply (wf_table_same_row rows); try assumption; congruence).
  cbn in P1, P2. rewrite andb_true_r in P1, P2.
  apply Z.ltb_lt in P1. apply Z.leb_le in P2. lia.
Qed.

Lemma manifest_NoDup rows sel :
  wf_table rows -> (forall r, In r sel -> In r rows) ->
  List.NoDup (manifest_of sel).
Proof.
  intros Hwf Hsub. unfold manifest_of, distinct_hash_version.
  apply List.NoDup_map_NoDup_ForallPairs.
  - intros x y Hx Hy E.
    rewrite <- list_elem_of_In, elem_of_remove_dups, list_elem_of_In in Hx, Hy.
    apply in_map_iff in Hx, Hy.
    destruct Hx as (r1 & <- & H1), Hy as (r2 & <- & H2).
    cbn [fst snd] in E. inversion E as [[Eh Ev]].
    now rewrite (wf_table_same_row rows r1 r2 Hwf (Hsub r1 H1) (Hsub r2 H2) Eh).
  - apply NoDup_ListNoDup, NoDup_remove_dups.
Qed.

(** C4.  On a table that satisfies its primary key, read three times from
    the same store: a pair is in the manifest of [All] exactly when it is
    in the manifest of [Before] t or in that of [After] t, and no pair is
    in both of these; as no manifest repeats a pair, the manifest of [All]
    is the two others put together, up to the order of the pairs. *)
Theorem manifest_before_after (tableName : TableName) (t t0 : Z) (s : DexDB)
    (rows : list Row) :
  get_table tableName (db s) = Some rows ->
  wf_table rows ->
  exists all before after s1 s2 s3,
    getHashsAndEditingVersions tableName All t0 s = (Return all, s1) /\
    getHashsAndEditingVersions tableName Before t s = (Return before, s2) /\
    getHashsAndEditingVersions tableName After t s = (Return after, s3) /\
    (forall p, In p all <-> In p before \/ In p after) /\
    (forall p, ~ (In p before /\ In p after)) /\
    Permutation all (before ++ after).
Proof.
  intros Ht Hwf.
  do 6 eexists.
  split; [apply (getHashsAndEditingVersions_eq _ _ _ _ rows Ht) |].
  split; [apply (getHashsAndEditingVersions_eq _ _ _ _ rows Ht) |].
  split; [apply (getHashsAndEditingVersions_eq _ _ _ _ rows Ht) |].
  split; [intros p; apply manifest_union |].
  split; [intros p [Hb Ha]; now apply (manifest_disjoint t rows p) |].
  apply Stdlib.Sorting.Permutation.NoDup_Permutation.
  - apply (manifest_NoDup rows); [assumption | apply In_filter_period_rows].
  - apply List.NoDup_app.
    + apply (manifest_NoDup rows); [assumption | apply In_filter_period_rows].
    + apply (manifest_NoDup rows); [assumption | apply In_filter_period_rows].
    + intros p. now apply manifest_disjoint.
  - intros p. rewrite in_app_iff. apply manifest_union.
Qed.

Lemma manifest_before_after_witness :
  exists all before after s1 s2 s3,
    getHashsAndEditingVersions offersSell All 0
      (sample_store [bindOfferData (sample_offer 1 500 100);
                     bindOfferData (sample_offer 2 500 200)] [] [])
    = (Return all, s1) /\
    getHashsAndEditingVersions offersSell Before 150
      (sample_store [bindOfferData (sample_offer 1 500 100);
                     bindOfferData (sample_offer 2 500 200)] [] [])
    = (Return before, s2) /\
    getHashsAndEditingVersions offersSell After 150
      (sample_store [bindOfferData (sample_offer 1 500 100);
                     bindOfferData (sample_offer 2 500 200)] [] [])
    = (Return after, s3) /\
    (forall p, In p all <-> In p before \/ In p after) /\
    (forall p, ~ (In p before /\ In p after)) /\
    Permutation all (before ++ after).
Proof.
  apply (manifest_before_after offersSell 150 0
           (sample_store [bindOfferData (sample_offer 1 500 100);
                          bindOfferData (sample_offer 2 500 200)] [] [])
           [bindOfferData (sample_offer 1 500 100);
            bindOfferData (sample_offer 2 500 200)]).
  - reflexivity.
  - split.
    + vm_compute. constructor; [intros [H | []]; discriminate |].
      constructor; [intros [] | constructor].
    + repeat constructor.
      * exists 1. split; [unfold Uint256.valid; lia | reflexivity].
      * exists 2. split; [unfold Uint256.valid; lia | reflexivity].
Defined.

(** ** Filtered reads *)

Lemma where_iso_payment_wildcard payment :
  payment <= 0 -> where_iso_payment "" "" payment = [].
Proof.
  intros H. unfold where_iso_payment. cbn.
  destruct (Z.ltb_spec 0 payment); [lia | reflexivity].
Qed.

Lemma where_type_status_wildcard w type statusOffer :
  type < 0 -> statusOffer <= 0 -> where_type_status w type statusOffer = w.
Proof.
  intros Ht Hs. unfold where_type_status.
  destruct (Z.leb_spec 0 type); [lia |].
  destruct (Z.ltb_spec 0 statusOffer); [lia | reflexivity].
Qed.

Lemma limit_offset_none limit offset : limit <= 0 -> limit_offset limit offset = None.
Proof.
  intros H. unfold limit_offset.
  destruct (Z.ltb_spec 0 limit); [lia | reflexivity].
Qed.

Lemma filter_true {A} (l : list A) : List.filter (fun _ => true) l = l.
Proof. induction l as [| x l IH]; cbn; [reflexivity | now rewrite IH]. Qed.

(** With every field a wildcard the rows of the table are read as they
    are, whatever they hold. *)
Lemma wildcard_filter_all_rows (tableName : TableName)
    (payment type statusOffer limit offset : Z) (s : DexDB)
    (rows mine : list Row) :
  get_table tableName (db s) = Some rows ->
  t_myOffers (db s) = Some mine ->
  payment <= 0 -> type < 0 -> statusOffer <= 0 -> limit <= 0 ->
  fst (getOffers tableName "" "" payment limit offset s)
  = Return (map getOffer rows) /\
  fst (getMyOffers "" "" payment type statusOffer limit offset s)
  = Return (map getMyOffer mine) /\
  fst (countOffers tableName "" "" payment type statusOffer s)
  = Return (Int.to_uint64 (Z.of_nat (length rows)), SQLITE_OK).
Proof.
  intros Ht Hm Hp Hty Hst Hl.
  unfold getOffers, getMyOffers, countOffers, query, bind, ret.
  rewrite where_type_status_wildcard, where_iso_payment_wildcard,
    limit_offset_none by assumption.
  cbn [q_from q_where q_limit forallb]. rewrite Ht.
  change (get_table myOffers (db s)) with (t_myOffers (db s)). rewrite Hm.
  unfold select, finish, SQLITE_OK. cbn [q_where q_limit where_holds forallb].
  rewrite !filter_true, !finishTableOperation_ok.
  repeat split.
Qed.

Lemma has_column_iso_payment t countryIso currencyIso payment :
  forallb (has_column t) (where_iso_payment countryIso currencyIso payment) = true.
Proof.
  unfold where_iso_payment.
  destruct (negb (String.eqb countryIso "")), (negb (String.eqb currencyIso "")),
    (0 <? payment); reflexivity.
Qed.

Lemma has_column_type_status w type statusOffer :
  forallb (has_column myOffers) w = true ->
  forallb (has_column myOffers) (where_type_status w type statusOffer) = true.
Proof.
  intros H. unfold where_type_status.
  destruct (0 <=? type), (0 <? statusOffer);
    rewrite ?forallb_app, ?H; reflexivity.
Qed.

Lemma getOffers_eq tableName countryIso currencyIso payment limit offset s rows :
  get_table tableName (db s) = Some rows ->
  getOffers tableName countryIso currencyIso payment limit offset s
  = (Return (map getOffer
       (select {| q_from := tableName;
                  q_where := where_iso_payment countryIso currencyIso payment;
                  q_limit := limit_offset limit offset |} rows)),
     with_delivered
       (fun d => d ++ fanout (callBack s) (tTable_of_read tableName) Read Ok) s).
Proof.
  intros Ht. unfold getOffers, bind.
  rewrite (query_eq _ _ rows) by (assumption || apply has_column_iso_payment).
  unfold finish, SQLITE_OK. rewrite finishTableOperation_ok. reflexivity.
Qed.

Lemma getMyOffers_eq countryIso currencyIso payment type statusOffer limit offset s rows :
  t_myOffers (db s) = Some rows ->
  getMyOffers countryIso currencyIso payment type statusOffer limit offset s
  = (Return (map getMyOffer
       (select {| q_from := myOffers;
                  q_where := where_type_status
                    (where_iso_payment countryIso currencyIso payment) type statusOffer;
                  q_limit := limit_offset limit offset |} rows)),
     with_delivered (fun d => d ++ fanout (callBack s) MyOffers Read Ok) s).
Proof.
  intros Ht. unfold getMyOffers, bind.
  rewrite (query_eq _ _ rows)
    by (assumption || apply has_column_type_status, has_column_iso_payment).
  unfold finish, SQLITE_OK. rewrite finishTableOperation_ok. reflexivity.
Qed.

Lemma where_holds_app w w' r :
  where_holds (w ++ w') r = where_holds w r && where_holds w' r.
Proof. apply forallb_app. Qed.

(** The clause of the two codes and the payment method, on a row. *)
Lemma where_iso_payment_holds countryIso currencyIso payment r :
  where_holds (where_iso_payment countryIso currencyIso payment) r
  = (String.eqb countryIso "" || String.eqb (col_countryIso r) countryIso) &&
    (String.eqb currencyIso "" || String.eqb (col_currencyIso r) currencyIso) &&
    (negb (0 <? payment) || (col_paymentMethod r =? payment)).
Proof.
  unfold where_iso_payment.
  destruct (String.eqb countryIso ""), (String.eqb currencyIso ""), (0 <? payment);
    cbn [negb orb app]; rewrite ?where_holds_app; unfold where_holds;
    cbn [forallb Cond_holds andb];
    rewrite ?andb_true_r, ?andb_assoc; reflexivity.
Qed.

(** The clause of the type and the status, on a row. *)
Lemma where_type_status_holds w type statusOffer r :
  where_holds (where_type_status w type statusOffer) r
  = where_holds w r &&
    (negb (0 <=? type) || match col_type r with Some v => v =? type | None => false end) &&
    (negb (0 <? statusOffer)
     || match col_status r with Some v => v =? statusOffer | None => false end).
Proof.
  unfold where_type_status.
  destruct (0 <=? type), (0 <? statusOffer);
    cbn [negb orb]; rewrite ?where_holds_app; unfold where_holds;
    cbn [forallb Cond_holds andb];
    rewrite ?andb_true_r, ?andb_assoc; reflexivity.
Qed.

Lemma where_iso_payment_stored countryIso currencyIso payment o :
  Int.is_uint8 payment ->
  where_holds (where_iso_payment countryIso currencyIso payment) (bindOfferData o)
  = offer_passes countryIso currencyIso payment o.
Proof.
  intros Hp. rewrite where_iso_payment_holds. unfold offer_passes.
  cbn [bindOfferData col_countryIso col_currencyIso col_paymentMethod].
  replace (negb (0 <? payment)) with (payment =? 0); [reflexivity |].
  unfold Int.is_uint8 in Hp.
  destruct (Z.eqb_spec payment 0), (Z.ltb_spec 0 payment); cbn; (reflexivity || lia).
Qed.

Lemma where_type_status_stored countryIso currencyIso payment type_ statusOffer m :
  Int.is_uint8 payment ->
  where_holds
    (where_type_status (where_iso_payment countryIso currencyIso payment)
       type_ statusOffer) (bindMyOfferData m)
  = my_offer_passes countryIso currencyIso payment type_ statusOffer m.
Proof.
  intros Hp. rewrite where_type_status_holds. unfold my_offer_passes.
  rewrite <- (where_iso_payment_stored _ _ _ _ Hp).
  rewrite !where_iso_payment_holds.
  change (col_countryIso (bindMyOfferData m))
    with (col_countryIso (bindOfferData (getOfferInfo m))).
  change (col_currencyIso (bindMyOfferData m))
    with (col_currencyIso (bindOfferData (getOfferInfo m))).
  change (col_paymentMethod (bindMyOfferData m))
    with (col_paymentMethod (bindOfferData (getOfferInfo m))).
  change (col_type (bindMyOfferData m)) with (Some (type m)).
  change (col_status (bindMyOfferData m)) with (Some (status m)).
  f_equal; [f_equal |].
  - destruct (Z.leb_spec 0 type_), (Z.ltb_spec type_ 0); cbn; (reflexivity || lia).
  - destruct (Z.ltb_spec 0 statusOffer), (Z.leb_spec statusOffer 0); cbn;
      (reflexivity || lia).
Qed.

Lemma select_stored_offers countryIso currencyIso payment offers :
  Int.is_uint8 payment ->
  List.filter (where_holds (where_iso_payment countryIso currencyIso payment))
    (map bindOfferData offers)
  = map bindOfferData (List.filter (offer_passes countryIso currencyIso payment) offers).
Proof.
  intros Hp. rewrite filter_map. f_equal. apply List.filter_ext. intros o.
  now apply where_iso_payment_stored.
Qed.

Lemma select_stored_my_offers countryIso currencyIso payment type_ statusOffer mine :
  Int.is_uint8 payment ->
  List.filter
    (where_holds
       (where_type_status (where_iso_payment countryIso currencyIso payment)
          type_ statusOffer))
    (map bindMyOfferData mine)
  = map bindMyOfferData
      (List.filter (my_offer_passes countryIso currencyIso payment type_ statusOffer)
         mine).
Proof.
  intros Hp. rewrite filter_map. f_equal. apply List.filter_ext. intros m.
  now apply where_type_status_stored.
Qed.

Lemma countOffers_general tableName countryIso currencyIso payment type statusOffer s rows :
  get_table tableName (db s) = Some rows ->
  forallb (has_column tableName)
    (where_type_status (where_iso_payment countryIso currencyIso payment)
       type statusOffer) = true ->
  countOffers tableName countryIso currencyIso payment type statusOffer s
  = (Return (Int.to_uint64 (Z.of_nat (length
       (List.filter
          (where_holds
             (where_type_status (where_iso_payment countryIso currencyIso payment)
                type statusOffer)) rows))), SQLITE_OK), s).
Proof.
  intros Ht Hc. unfold countOffers, bind, ret.
  rewrite (query_eq _ _ rows) by assumption. reflexivity.
Qed.

Lemma select_page t w limit offset rows :
  select {| q_from := t; q_where := w; q_limit := limit_offset limit offset |} rows
  = page limit offset (List.filter (where_holds w) rows).
Proof.
  unfold select, limit_offset, page. cbn [q_where q_limit].
  destruct (0 <? limit); [| reflexivity]. now destruct (0 <? offset).
Qed.

Lemma map_page {A B} (f : A -> B) limit offset l :
  map f (page limit offset l) = page limit offset (map f l).
Proof.
  unfold page. destruct (0 <? limit); [| reflexivity].
  destruct (0 <? offset); now rewrite ?List.skipn_map, List.firstn_map.
Qed.

Lemma page_none {A} limit offset (l : list A) : limit <= 0 -> page limit offset l = l.
Proof. intros H. unfold page. destruct (Z.ltb_spec 0 limit); [lia | reflexivity]. Qed.

(** The listing of an offer table under a filter. *)
Lemma getOffers_stored tableName countryIso currencyIso payment limit offset s offers :
  Int.is_uint8 payment ->
  get_table tableName (db s) = Some (map bindOfferData offers) ->
  Forall valid_offer offers ->
  fst (getOffers tableName countryIso currencyIso payment limit offset s)
  = Return (page limit offset
              (List.filter (offer_passes countryIso currencyIso payment) offers)).
Proof.
  intros Hp Ht Hv. rewrite (getOffers_eq _ _ _ _ _ _ _ _ Ht).
  cbn [fst]. rewrite select_page, map_page.
  rewrite select_stored_offers by assumption. do 2 f_equal.
  apply map_getOffer_bindOfferData. now apply Forall_filter.
Qed.

Lemma getMyOffers_stored countryIso currencyIso payment type_ statusOffer limit offset
    s mine :
  Int.is_uint8 payment ->
  t_myOffers (db s) = Some (map bindMyOfferData mine) ->
  Forall valid_my_offer mine ->
  fst (getMyOffers countryIso currencyIso payment type_ statusOffer limit offset s)
  = Return
      (page limit offset
         (List.filter (my_offer_passes countryIso currencyIso payment type_ statusOffer)
            mine)).
Proof.
  intros Hp Ht Hv. rewrite (getMyOffers_eq _ _ _ _ _ _ _ _ _ Ht).
  cbn [fst]. rewrite select_page, map_page.
  rewrite select_stored_my_offers by assumption. do 2 f_equal.
  apply map_getMyOffer_bindMyOfferData. now apply Forall_filter.
Qed.

Lemma filter_ext_true {A} (f : A -> bool) l :
  (forall x, f x = true) -> List.filter f l = l.
Proof.
  intros H. rewrite (List.filter_ext f (fun _ => true)) by assumption. apply filter_true.
Qed.

(** C8 (as amended).  The tables hold valid records and the two filter
    texts hold neither a quote nor a NUL.  Each field of the filter
    constrains on its own account, whatever the others are: the list
    functions return the page of exactly the records that pass
    [offer_passes] (or [my_offer_passes] on myOffers), and the count
    functions the number of these records.  So an empty countryIso or
    currencyIso, a payment method of 0, a negative type and a status of 0
    or less put no condition, and with all five so set, and no limit,
    every record is returned.  A type of 0 is not such a value: it
    selects the records of type 0. *)
Theorem filter_fields_select (tableName : TableName) (countryIso currencyIso : string)
    (payment type_ statusOffer limit offset : Z) (s : DexDB)
    (offers : list OfferInfo) (mine : list MyOfferInfo) :
  plain_text countryIso -> plain_text currencyIso ->
  Int.is_uint8 payment ->
  get_table tableName (db s) = Some (map bindOfferData offers) ->
  t_myOffers (db s) = Some (map bindMyOfferData mine) ->
  Forall valid_offer offers ->
  Forall valid_my_offer mine ->
  fst (getOffers tableName countryIso currencyIso payment limit offset s)
  = Return (page limit offset
              (List.filter (offer_passes countryIso currencyIso payment) offers)) /\
  fst (getMyOffers countryIso currencyIso payment type_ statusOffer limit offset s)
  = Return
      (page limit offset
         (List.filter (my_offer_passes countryIso currencyIso payment type_ statusOffer)
            mine)) /\
  fst (countOffers tableName countryIso currencyIso payment (-1) 0 s)
  = Return
      (Int.to_uint64
         (Z.of_nat
            (length (List.filter (offer_passes countryIso currencyIso payment) offers))),
       SQLITE_OK) /\
  fst (countOffers myOffers countryIso currencyIso payment type_ statusOffer s)
  = Return
      (Int.to_uint64
         (Z.of_nat
            (length
               (List.filter
                  (my_offer_passes countryIso currencyIso payment type_ statusOffer)
                  mine))),
       SQLITE_OK) /\
  (forall noLimit anyOffset : Z, noLimit <= 0 ->
   fst (getOffers tableName "" "" 0 noLimit anyOffset s) = Return offers) /\
  (forall noLimit anyOffset anyType anyStatus : Z,
   noLimit <= 0 -> anyType < 0 -> anyStatus <= 0 ->
   fst (getMyOffers "" "" 0 anyType anyStatus noLimit anyOffset s) = Return mine) /\
  (forall noLimit anyOffset : Z, noLimit <= 0 ->
   fst (getMyOffers "" "" 0 0 0 noLimit anyOffset s)
   = Return (List.filter (fun m => type m =? 0) mine)).
Proof.
  intros _ _ Hp Ht Hm Hv Hvm.
  assert (H0 : Int.is_uint8 0) by (unfold Int.is_uint8; lia).
  split; [now apply getOffers_stored |].
  split; [now apply getMyOffers_stored |].
  split.
  { rewrite (countOffers_general _ _ _ _ _ _ _ _ Ht).
    - rewrite where_type_status_wildcard by lia.
      rewrite select_stored_offers by assumption. now rewrite length_map.
    - rewrite where_type_status_wildcard by lia. apply has_column_iso_payment. }
  split.
  { rewrite (countOffers_general myOffers _ _ _ _ _ _ _ Hm).
    - rewrite select_stored_my_offers by assumption. now rewrite length_map.
    - apply has_column_type_status, has_column_iso_payment. }
  split.
  { intros noLimit anyOffset Hl.
    rewrite (getOffers_stored _ _ _ _ _ _ _ _ H0 Ht Hv), page_none by assumption.
    f_equal. now apply filter_ext_true. }
  split.
  { intros noLimit anyOffset anyType anyStatus Hl Hty Hst.
    rewrite (getMyOffers_stored _ _ _ _ _ _ _ _ _ H0 Hm Hvm), page_none by assumption.
    f_equal. apply filter_ext_true. intros m. unfold my_offer_passes, offer_passes.
    destruct (Z.ltb_spec anyType 0), (Z.leb_spec anyStatus 0); (reflexivity || lia). }
  intros noLimit anyOffset Hl.
  rewrite (getMyOffers_stored _ _ _ _ _ _ _ _ _ H0 Hm Hvm), page_none by assumption.
  f_equal. apply List.filter_ext. intros m. unfold my_offer_passes, offer_passes. cbn.
  now rewrite andb_true_r.
Qed.

Lemma filter_fields_select_witness :
  let s := sample_store
             (map bindOfferData
                [sample_offer_at 1 "RU" "RUB" 1; sample_offer_at 2 "US" "USD" 2;
                 sample_offer_at 3 "RU" "USD" 2]) []
             (map bindMyOfferData
                [sample_my_offer_at 4 "RU" "RUB" 1 0 1;
                 sample_my_offer_at 5 "RU" "USD" 2 1 2;
                 sample_my_offer_at 6 "US" "USD" 2 0 2]) in
  fst (getOffers offersSell "RU" "" 0 0 0 s)
  = Return [sample_offer_at 1 "RU" "RUB" 1; sample_offer_at 3 "RU" "USD" 2] /\
  fst (getMyOffers "RU" "" 0 1 0 0 0 s)
  = Return [sample_my_offer_at 5 "RU" "USD" 2 1 2] /\
  fst (countOffers offersSell "RU" "" 0 (-1) 0 s) = Return (2, SQLITE_OK) /\
  fst (countOffers myOffers "RU" "" 0 1 0 s) = Return (1, SQLITE_OK) /\
  (forall noLimit anyOffset : Z, noLimit <= 0 ->
   fst (getOffers offersSell "" "" 0 noLimit anyOffset s)
   = Return [sample_offer_at 1 "RU" "RUB" 1; sample_offer_at 2 "US" "USD" 2;
             sample_offer_at 3 "RU" "USD" 2]) /\
  (forall noLimit anyOffset anyType anyStatus : Z,
   noLimit <= 0 -> anyType < 0 -> anyStatus <= 0 ->
   fst (getMyOffers "" "" 0 anyType anyStatus noLimit anyOffset s)
   = Return [sample_my_offer_at 4 "RU" "RUB" 1 0 1;
             sample_my_offer_at 5 "RU" "USD" 2 1 2;
             sample_my_offer_at 6 "US" "USD" 2 0 2]) /\
  (forall noLimit anyOffset : Z, noLimit <= 0 ->
   fst (getMyOffers "" "" 0 0 0 noLimit anyOffset s)
   = Return [sample_my_offer_at 4 "RU" "RUB" 1 0 1;
             sample_my_offer_at 6 "US" "USD" 2 0 2]).
Proof.
  apply (filter_fields_select offersSell "RU" "" 0 1 0 0 0
           (sample_store
              (map bindOfferData
                 [sample_offer_at 1 "RU" "RUB" 1; sample_offer_at 2 "US" "USD" 2;
                  sample_offer_at 3 "RU" "USD" 2]) []
              (map bindMyOfferData
                 [sample_my_offer_at 4 "RU" "RUB" 1 0 1;
                  sample_my_offer_at 5 "RU" "USD" 2 1 2;
                  sample_my_offer_at 6 "US" "USD" 2 0 2]))
           [sample_offer_at 1 "RU" "RUB" 1; sample_offer_at 2 "US" "USD" 2;
            sample_offer_at 3 "RU" "USD" 2]
           [sample_my_offer_at 4 "RU" "RUB" 1 0 1;
            sample_my_offer_at 5 "RU" "USD" 2 1 2;
            sample_my_offer_at 6 "US" "USD" 2 0 2]).
  - reflexivity.
  - reflexivity.
  - unfold Int.is_uint8. lia.
  - reflexivity.
  - reflexivity.
  - repeat constructor;
      unfold Uint256.valid, Int.is_uint8, Int.is_uint64, Int.is_uint32; simpl; lia.
  - repeat constructor;
      unfold is_int32, Uint256.valid, Int.is_uint8, Int.is_uint64, Int.is_uint32;
      simpl; lia.
Defined.

(** C8 as stated fails for the type: myOffers holds one offer, of type 1;
    the filter with every field empty or zero, type 0 included, lists no
    offer and counts none. *)
Lemma type_zero_filter_counterexample :
  t_myOffers (db (sample_store [] [] [sample_my_row 3 50 1 1]))
  = Some [sample_my_row 3 50 1 1] /\
  fst (getMyOffers "" "" 0 0 0 0 0 (sample_store [] [] [sample_my_row 3 50 1 1]))
  = Return [] /\
  fst (countMyOffers_filter "" "" 0 0 0
         (sample_store [] [] [sample_my_row 3 50 1 1]))
  = Return 0.
Proof. vm_compute. repeat split. Qed.

(** C10.  With a limit of 0 or less the query text carries neither LIMIT
    nor OFFSET: [getOffers] and [getMyOffers] are then the same
    computation for any two offsets, the one of the call without
    pagination. *)
Theorem offset_needs_positive_limit (tableName : TableName)
    (countryIso currencyIso : string)
    (payment type statusOffer limit offset offset' : Z) :
  limit <= 0 ->
  getOffers tableName countryIso currencyIso payment limit offset
  = getOffers tableName countryIso currencyIso payment limit offset' /\
  getOffers tableName countryIso currencyIso payment limit offset
  = getOffers tableName countryIso currencyIso payment 0 0 /\
  getMyOffers countryIso currencyIso payment type statusOffer limit offset
  = getMyOffers countryIso currencyIso payment type statusOffer limit offset' /\
  getMyOffers countryIso currencyIso payment type statusOffer limit offset
  = getMyOffers countryIso currencyIso payment type statusOffer 0 0.
Proof.
  intros H. unfold getOffers, getMyOffers.
  rewrite !(limit_offset_none limit) by assumption.
  repeat split.
Qed.

Lemma offset_needs_positive_limit_witness :
  getOffers offersSell "RU" "RUB" 1 0 5 = getOffers offersSell "RU" "RUB" 1 0 9 /\
  getOffers offersSell "RU" "RUB" 1 0 5 = getOffers offersSell "RU" "RUB" 1 0 0 /\
  getMyOffers "RU" "RUB" 1 1 1 0 5 = getMyOffers "RU" "RUB" 1 1 1 0 9 /\
  getMyOffers "RU" "RUB" 1 1 1 0 5 = getMyOffers "RU" "RUB" 1 1 1 0 0.
Proof.
  apply (offset_needs_positive_limit offersSell "RU" "RUB" 1 1 1 0 5 9). lia.
Defined.

(** ** The table an event names *)

(** C9 (what the code does).  With one observer registered:
    [addCurrency] inserts into currencies, leaves countries alone, and
    the observer is told of an Add on Countries;
    [lastModificationOffersSell] reads the newest modification time of
    offersSell, and the observer is told of a Read on OffersBuy. *)
Theorem event_names_other_table :
  let s := sample_store [bindOfferData (sample_offer 1 50 10)] [] [] in
  let s1 := snd (addCurrency "USD" "Dollar" "$" true 0 s) in
  let s2 := snd (lastModificationOffersSell s) in
  t_currencies (db s1)
  = Some [{| currencies_id := 1; currencies_iso := "USD";
             currencies_name := "Dollar"; currencies_symbol := "$";
             currencies_enabled := true; currencies_sortOrder := 0 |}] /\
  t_countries (db s1) = t_countries (db s) /\
  delivered s1 = [{| ev_observer := 7%N; ev_table := Countries;
                     ev_operation := Add; ev_status := Ok |}] /\
  fst (lastModificationOffersSell s) = Return 10 /\
  delivered s2 = [{| ev_observer := 7%N; ev_table := OffersBuy;
                     ev_operation := Read; ev_status := Ok |}].
Proof. vm_compute. repeat split. Qed.

(** ** Multi-row inserts and the seeding of the reference tables *)

Lemma insert_rows_NoDup {A K1 K2} (key1 : A -> K1) (key2 : A -> K2)
    (conflict : A -> A -> bool) :
  (forall r x, conflict r x = true -> key1 x = key1 r \/ key2 x = key2 r) ->
  forall new rows,
    List.NoDup (map key1 (rows ++ new)) ->
    List.NoDup (map key2 (rows ++ new)) ->
    insert_rows conflict rows new = Some (rows ++ new).
Proof.
  intros Hc. induction new as [| r new IH]; intros rows H1 H2.
  - cbn. now rewrite app_nil_r.
  - cbn [insert_rows].
    assert (E : existsb (conflict r) rows = false).
    { apply not_true_is_false. intros Hex. apply existsb_exists in Hex.
      destruct Hex as (x & Hx & Hcx).
      rewrite map_app in H1, H2. cbn [map] in H1, H2.
      apply List.NoDup_remove_2 in H1. apply List.NoDup_remove_2 in H2.
      destruct (Hc r x Hcx) as [E | E].
      - apply H1. apply in_or_app. left. rewrite <- E. now apply in_map.
      - apply H2. apply in_or_app. left. rewrite <- E. now apply in_map. }
    rewrite E, IH.
    + now rewrite <- app_assoc.
    + now rewrite <- app_assoc.
    + now rewrite <- app_assoc.
Qed.

Lemma conflict_Row_key r x : conflict_Row r x = true -> col_hash x = col_hash r \/ col_hash x = col_hash r.
Proof. unfold conflict_Row. intros H. apply String.eqb_eq in H. now left. Qed.

Lemma conflict_CountryRow_key r x :
  conflict_CountryRow r x = true ->
  countries_iso x = countries_iso r \/ countries_iso x = countries_iso r.
Proof. unfold conflict_CountryRow. intros H. apply String.eqb_eq in H. now left. Qed.

Lemma conflict_CurrencyRow_key r x :
  conflict_CurrencyRow r x = true ->
  currencies_id x = currencies_id r \/ currencies_iso x = currencies_iso r.
Proof.
  unfold conflict_CurrencyRow. intros H. apply orb_true_iff in H.
  destruct H as [H | H]; [left; now apply Z.eqb_eq | right; now apply String.eqb_eq].
Qed.

Lemma conflict_PaymentRow_key r x :
  conflict_PaymentRow r x = true ->
  paymentMethods_type x = paymentMethods_type r \/
  paymentMethods_type x = paymentMethods_type r.
Proof. unfold conflict_PaymentRow. intros H. apply Z.eqb_eq in H. now left. Qed.

Lemma fold_left_max_ge l : forall a, a <= fold_left Z.max l a.
Proof.
  induction l as [| x l IH]; intros a; cbn; [lia |].
  specialize (IH (Z.max a x)). lia.
Qed.

Lemma fold_left_max_In l : forall a x, In x l -> x <= fold_left Z.max l a.
Proof.
  induction l as [| y l IH]; intros a x Hx; [contradiction |].
  cbn. destruct Hx as [-> | Hx].
  - pose proof (fold_left_max_ge l (Z.max a x)). lia.
  - now apply IH.
Qed.

Lemma next_id_fresh rows x : In x rows -> currencies_id x < next_id rows.
Proof.
  intros Hx. unfold next_id.
  pose proof (fold_left_max_In (map currencies_id rows) 0 (currencies_id x)
                (in_map currencies_id rows x Hx)).
  lia.
Qed.

Lemma set_currencies_twice v w d : set_currencies v (set_currencies w d) = set_currencies v d.
Proof. reflexivity. Qed.

Lemma set_countries_twice v w d : set_countries v (set_countries w d) = set_countries v d.
Proof. reflexivity. Qed.

Lemma set_paymentMethods_twice v w d :
  set_paymentMethods v (set_paymentMethods w d) = set_paymentMethods v d.
Proof. reflexivity. Qed.

Lemma set_currencies_same d : set_currencies (t_currencies d) d = d.
Proof. now destruct d. Qed.

Lemma set_countries_same d : set_countries (t_countries d) d = d.
Proof. now destruct d. Qed.

Lemma set_paymentMethods_same d : set_paymentMethods (t_paymentMethods d) d = d.
Proof. now destruct d. Qed.

Lemma set_dbversion_same d : set_dbversion (t_dbversion d) d = d.
Proof. now destruct d. Qed.

Lemma addCurrency_fresh iso name symbol enabled sortOrder s rows :
  t_currencies (db s) = Some rows ->
  (forall x, In x rows -> currencies_iso x <> iso) ->
  exists s' row,
    addCurrency iso name symbol enabled sortOrder s = (Return tt, s') /\
    db s' = set_currencies (Some (rows ++ [row])) (db s) /\
    currencies_iso row = iso.
Proof.
  intros Ht Hf. unfold addCurrency, bind, modify, gets.
  cbn [db with_currencies]. rewrite Ht. cbn [insert_rows].
  set (row := {| currencies_id := next_id rows; currencies_iso := iso;
                 currencies_name := name; currencies_symbol := symbol;
                 currencies_enabled := enabled; currencies_sortOrder := sortOrder |}).
  assert (E : existsb (conflict_CurrencyRow row) rows = false).
  { apply not_true_is_false. intros Hex. apply existsb_exists in Hex.
    destruct Hex as (x & Hx & Hc). apply conflict_CurrencyRow_key in Hc.
    destruct Hc as [Hc | Hc].
    - pose proof (next_id_fresh rows x Hx). cbn in Hc. lia.
    - now apply (Hf x Hx). }
  rewrite E. unfold ret. unfold SQLITE_OK. rewrite finishTableOperation_ok.
  eexists. exists row. split; [reflexivity |]. split; reflexivity.
Qed.

Lemma addPaymentMethod_fresh type name description sortOrder s rows :
  t_paymentMethods (db s) = Some rows ->
  (forall x, In x rows -> paymentMethods_type x <> type) ->
  exists s' row,
    addPaymentMethod type name description sortOrder s = (Return tt, s') /\
    db s' = set_paymentMethods (Some (rows ++ [row])) (db s) /\
    paymentMethods_type row = type.
Proof.
  intros Ht Hf. unfold addPaymentMethod, bind, modify, gets.
  cbn [db with_payments]. rewrite Ht. cbn [insert_rows].
  set (row := {| paymentMethods_type := type; paymentMethods_name := name;
                 paymentMethods_description := description;
                 paymentMethods_sortOrder := sortOrder |}).
  assert (E : existsb (conflict_PaymentRow row) rows = false).
  { apply not_true_is_false. intros Hex. apply existsb_exists in Hex.
    destruct Hex as (x & Hx & Hc). apply conflict_PaymentRow_key in Hc.
    destruct Hc as [Hc | Hc]; now apply (Hf x Hx). }
  rewrite E. unfold ret. unfold SQLITE_OK. rewrite finishTableOperation_ok.
  eexists. exists row. split; [reflexivity |]. split; reflexivity.
Qed.

Lemma filter_key_NoDup {A} (key : A -> string) v l :
  List.NoDup (map key l) ->
  List.filter (fun x => String.eqb (key x) v) l = [] \/
  exists y, List.filter (fun x => String.eqb (key x) v) l = [y].
Proof.
  induction l as [| a l IH]; intros Hnd; [now left |].
  cbn in Hnd. inversion Hnd as [| ? ? Hni Hnd']; subst.
  cbn [List.filter]. destruct (String.eqb_spec (key a) v) as [E | E].
  - right. exists a. f_equal.
    destruct (List.filter (fun x => String.eqb (key x) v) l) as [| b l'] eqn:F;
      [reflexivity |].
    exfalso. apply Hni.
    assert (Hb : In b (List.filter (fun x => String.eqb (key x) v) l))
      by (rewrite F; now left).
    apply List.filter_In in Hb. destruct Hb as [Hb Eb].
    apply String.eqb_eq in Eb. rewrite E, <- Eb. now apply in_map.
  - now apply IH.
Qed.

Lemma addCountry_fresh iso name currency enabled sortOrder s rows cur :
  t_countries (db s) = Some rows ->
  t_currencies (db s) = Some cur ->
  List.NoDup (map currencies_iso cur) ->
  (forall x, In x rows -> countries_iso x <> iso) ->
  exists s' extra,
    addCountry iso name currency enabled sortOrder s = (Return tt, s') /\
    db s' = set_countries (Some (rows ++ extra)) (db s) /\
    (forall x, In x extra -> countries_iso x = iso).
Proof.
  intros Ht Hc Hnd Hf. unfold addCountry, bind, modify, gets.
  cbn [db with_countries]. rewrite Ht, Hc.
  destruct (filter_key_NoDup currencies_iso currency cur Hnd) as [-> | [y ->]].
  - cbn [map insert_rows]. unfold ret, modify.
    unfold SQLITE_OK. rewrite finishTableOperation_ok.
    eexists. exists []. split; [reflexivity |]. split.
    + cbn. now rewrite app_nil_r.
    + intros x [].
  - cbn [map insert_rows].
    set (row := {| countries_iso := iso; countries_name := name;
                   countries_enabled := enabled;
                   countries_currencyId := currencies_id y;
                   countries_sortOrder := sortOrder |}).
    assert (E : existsb (conflict_CountryRow row) rows = false).
    { apply not_true_is_false. intros Hex. apply existsb_exists in Hex.
      destruct Hex as (x & Hx & Hcx). apply conflict_CountryRow_key in Hcx.
      destruct Hcx as [Hcx | Hcx]; now apply (Hf x Hx). }
    rewrite E. unfold ret, modify.
    unfold SQLITE_OK. rewrite finishTableOperation_ok.
    eexists. exists [row]. split; [reflexivity |]. split; [reflexivity |].
    intros x [<- | []]. reflexivity.
Qed.

Lemma seed_currencies items : forall s rows,
  t_currencies (db s) = Some rows ->
  List.NoDup (map dcur_iso items) ->
  (forall item x, In item items -> In x rows -> currencies_iso x <> dcur_iso item) ->
  exists s' extra,
    for_each items (fun item =>
      addCurrency (dcur_iso item) (dcur_name item) (dcur_symbol item)
                  (dcur_enabled item) (dcur_sortOrder item)) s
    = (Return tt, s') /\
    db s' = set_currencies (Some (rows ++ extra)) (db s) /\
    map currencies_iso extra = map dcur_iso items.
Proof.
  induction items as [| item items IH]; intros s rows Ht Hnd Hf.
  - exists s, []. split; [reflexivity |]. split; [| reflexivity].
    now rewrite app_nil_r, <- Ht, set_currencies_same.
  - cbn [map] in Hnd. inversion Hnd as [| ? ? Hni Hnd']; subst.
    destruct (addCurrency_fresh (dcur_iso item) (dcur_name item) (dcur_symbol item)
                (dcur_enabled item) (dcur_sortOrder item) s rows Ht)
      as (s1 & row & E1 & D1 & K1).
    { intros x Hx. apply Hf; [now left | assumption]. }
    destruct (IH s1 (rows ++ [row])) as (s' & extra & E & D & K).
    { now rewrite D1. }
    { assumption. }
    { intros it x Hit Hx. apply in_app_or in Hx. destruct Hx as [Hx | [<- | []]].
      - apply Hf; [now right | assumption].
      - rewrite K1. intros Heq. apply Hni. rewrite Heq. now apply in_map. }
    exists s', (row :: extra). split; [| split].
    + cbn [for_each]. unfold bind at 1. now rewrite E1.
    + rewrite D, D1, set_currencies_twice, <- app_assoc. reflexivity.
    + cbn [map]. now rewrite K, K1.
Qed.

Lemma seed_payments items : forall s rows,
  t_paymentMethods (db s) = Some rows ->
  List.NoDup (map dpay_type items) ->
  (forall item x, In item items -> In x rows -> paymentMethods_type x <> dpay_type item) ->
  exists s' extra,
    for_each items (fun item =>
      addPaymentMethod (dpay_type item) (dpay_name item) (dpay_description item)
                       (dpay_sortOrder item)) s
    = (Return tt, s') /\
    db s' = set_paymentMethods (Some (rows ++ extra)) (db s).
Proof.
  induction items as [| item items IH]; intros s rows Ht Hnd Hf.
  - exists s, []. split; [reflexivity |].
    now rewrite app_nil_r, <- Ht, set_paymentMethods_same.
  - cbn [map] in Hnd. inversion Hnd as [| ? ? Hni Hnd']; subst.
    destruct (addPaymentMethod_fresh (dpay_type item) (dpay_name item)
                (dpay_description item) (dpay_sortOrder item) s rows Ht)
      as (s1 & row & E1 & D1 & K1).
    { intros x Hx. apply Hf; [now left | assumption]. }
    destruct (IH s1 (rows ++ [row])) as (s' & extra & E & D).
    { now rewrite D1. }
    { assumption. }
    { intros it x Hit Hx. apply in_app_or in Hx. destruct Hx as [Hx | [<- | []]].
      - apply Hf; [now right | assumption].
      - rewrite K1. intros Heq. apply Hni. rewrite Heq. now apply in_map. }
    exists s', (row :: extra). split.
    + cbn [for_each]. unfold bind at 1. now rewrite E1.
    + rewrite D, D1, set_paymentMethods_twice, <- app_assoc. reflexivity.
Qed.

Lemma seed_countries (pairs : list (DefaultCountry * Z)) : forall s rows cur,
  t_countries (db s) = Some rows ->
  t_currencies (db s) = Some cur ->
  List.NoDup (map currencies_iso cur) ->
  List.NoDup (map (fun p => dcty_iso (fst p)) pairs) ->
  (forall p x, In p pairs -> In x rows -> countries_iso x <> dcty_iso (fst p)) ->
  exists s' extra,
    for_each pairs (fun item_order =>
      let item := fst item_order in
      let order := Int.to_int32 (snd item_order) in
      addCountry (dcty_iso item) (dcty_name item) (dcty_currency item) true order) s
    = (Return tt, s') /\
    db s' = set_countries (Some (rows ++ extra)) (db s).
Proof.
  induction pairs as [| p pairs IH]; intros s rows cur Ht Hc Hcur Hnd Hf.
  - exists s, []. split; [reflexivity |].
    now rewrite app_nil_r, <- Ht, set_countries_same.
  - cbn [map] in Hnd. inversion Hnd as [| ? ? Hni Hnd']; subst.
    destruct (addCountry_fresh (dcty_iso (fst p)) (dcty_name (fst p))
                (dcty_currency (fst p)) true (Int.to_int32 (snd p)) s rows cur Ht Hc Hcur)
      as (s1 & extra1 & E1 & D1 & K1).
    { intros x Hx. apply Hf; [now left | assumption]. }
    destruct (IH s1 (rows ++ extra1) cur) as (s' & extra & E & D).
    { now rewrite D1. }
    { now rewrite D1. }
    { assumption. }
    { assumption. }
    { intros q x Hq Hx. apply in_app_or in Hx. destruct Hx as [Hx | Hx].
      - apply Hf; [now right | assumption].
      - rewrite (K1 x Hx). intros Heq. apply Hni. rewrite Heq.
        now apply (in_map (fun p => dcty_iso (fst p))). }
    exists s', (extra1 ++ extra). split.
    + cbn [for_each]. unfold bind at 1. now rewrite E1.
    + rewrite D, D1, set_countries_twice, <- app_assoc. reflexivity.
Qed.

Lemma insert_sorted_perm {A} (comp : A -> A -> bool) x l :
  Permutation (insert_sorted comp x l) (x :: l).
Proof.
  induction l as [| y l IH]; cbn; [reflexivity |].
  destruct (comp y x); [| reflexivity].
  rewrite IH. apply perm_swap.
Qed.

Lemma list_sort_perm {A} (comp : A -> A -> bool) l : Permutation (list_sort comp l) l.
Proof.
  induction l as [| x l IH]; cbn; [reflexivity |].
  unfold list_sort in IH. rewrite insert_sorted_perm. now constructor.
Qed.

Lemma NoDup_map_sort {A K} (key : A -> K) comp l :
  List.NoDup (map key l) -> List.NoDup (map key (list_sort comp l)).
Proof.
  intros H. eapply Permutation_NoDup; [| exact H].
  apply Permutation_map. symmetry. apply list_sort_perm.
Qed.

Lemma map_fst_combine_seq {A} (l : list A) : forall k,
  map fst (combine l (map Z.of_nat (seq k (length l)))) = l.
Proof.
  induction l as [| x l IH]; intros k; cbn; [reflexivity |].
  now rewrite IH.
Qed.

Lemma tableCount_eq t s n :
  table_count t (db s) = Some n ->
  tableCount t s = (Return (Int.to_int32 (Z.of_nat n)), s).
Proof. intros H. unfold tableCount, bind, gets. now rewrite H. Qed.

Lemma count_empty {A} (rows : list A) :
  Z.of_nat (length rows) < 2 ^ 31 ->
  (Int.to_int32 (Z.of_nat (length rows)) <=? 0) = match rows with [] => true | _ => false end.
Proof.
  intros H. destruct rows as [| r rows]; [reflexivity |].
  unfold Int.to_int32. rewrite Z.mod_small by lia.
  apply Z.leb_gt. cbn [length] in *. lia.
Qed.

Lemma bind_step {A B} (m : M A) (k : A -> M B) s a s1 r :
  m s = (Return a, s1) -> k a s1 = r -> bind m k s = r.
Proof. intros Hm Hk. unfold bind. now rewrite Hm. Qed.

Lemma block_dbversion v s vs :
  t_dbversion (db s) = Some vs ->
  Z.of_nat (length vs) < 2 ^ 31 ->
  exists s1,
    (if Int.to_int32 (Z.of_nat (length vs)) <=? 0 then addDbVersion v else ret tt) s
    = (Return tt, s1) /\
    db s1 = set_dbversion (Some (match vs with [] => [v] | _ => vs end)) (db s).
Proof.
  intros Ht Hs. rewrite count_empty by assumption. destruct vs as [| v0 vs].
  - unfold addDbVersion, bind, gets, run, modify. rewrite Ht.
    eexists. split; reflexivity.
  - exists s. split; [reflexivity |]. now rewrite <- Ht, set_dbversion_same.
Qed.

Lemma block_currencies items s cur :
  t_currencies (db s) = Some cur ->
  Z.of_nat (length cur) < 2 ^ 31 ->
  List.NoDup (map currencies_iso cur) ->
  List.NoDup (map dcur_iso items) ->
  exists s1 extra,
    (if Int.to_int32 (Z.of_nat (length cur)) <=? 0 then
       for_each
         (list_sort (fun first second => dcur_sortOrder first <? dcur_sortOrder second)
                    items)
         (fun item =>
            addCurrency (dcur_iso item) (dcur_name item) (dcur_symbol item)
                        (dcur_enabled item) (dcur_sortOrder item)) ;;;
       modify (with_isGetCurrenciesDataFromDB false)
     else ret tt) s
    = (Return tt, s1) /\
    db s1 = set_currencies (Some (cur ++ extra)) (db s) /\
    List.NoDup (map currencies_iso (cur ++ extra)).
Proof.
  intros Ht Hs Hnd Hit. rewrite count_empty by assumption.
  destruct cur as [| c cur].
  - destruct (seed_currencies
                (list_sort (fun first second => dcur_sortOrder first <? dcur_sortOrder second)
                           items) s [] Ht)
      as (s1 & extra & E & D & K).
    { now apply NoDup_map_sort. }
    { intros ? ? ? []. }
    eexists. exists extra. split; [| split].
    + eapply bind_step; [exact E |]. reflexivity.
    + cbn [db with_isGetCurrenciesDataFromDB]. exact D.
    + cbn [app]. rewrite K. now apply NoDup_map_sort.
  - exists s, []. split; [reflexivity |]. rewrite app_nil_r. split.
    + now rewrite <- Ht, set_currencies_same.
    + assumption.
Qed.

Lemma block_countries items cmp_name cmp_sortorder s cty cur :
  t_countries (db s) = Some cty ->
  t_currencies (db s) = Some cur ->
  Z.of_nat (length cty) < 2 ^ 31 ->
  List.NoDup (map currencies_iso cur) ->
  List.NoDup (map dcty_iso items) ->
  exists s1 extra,
    (if Int.to_int32 (Z.of_nat (length cty)) <=? 0 then
       for_each
         (combine (list_sort cmp_sortorder (list_sort cmp_name items))
            (map Z.of_nat
               (seq 0 (length (list_sort cmp_sortorder (list_sort cmp_name items))))))
         (fun item_order =>
            let item := fst item_order in
            let order := Int.to_int32 (snd item_order) in
            addCountry (dcty_iso item) (dcty_name item) (dcty_currency item) true order) ;;;
       modify (with_isGetCountriesDataFromDB false)
     else ret tt) s
    = (Return tt, s1) /\
    db s1 = set_countries (Some (cty ++ extra)) (db s).
Proof.
  intros Ht Hc Hs Hnd Hit. rewrite count_empty by assumption.
  destruct cty as [| c cty].
  - destruct (seed_countries
                (combine (list_sort cmp_sortorder (list_sort cmp_name items))
                   (map Z.of_nat
                      (seq 0 (length (list_sort cmp_sortorder (list_sort cmp_name items))))))
                s [] cur Ht Hc Hnd)
      as (s1 & extra & E & D).
    { rewrite <- (map_map fst dcty_iso), map_fst_combine_seq.
      now do 2 apply NoDup_map_sort. }
    { intros ? ? ? []. }
    eexists. exists extra. split.
    + eapply bind_step; [exact E |]. reflexivity.
    + cbn [db with_isGetCountriesDataFromDB]. exact D.
  - exists s, []. split; [reflexivity |]. rewrite app_nil_r.
    now rewrite <- Ht, set_countries_same.
Qed.

Lemma block_payments items s pay :
  t_paymentMethods (db s) = Some pay ->
  Z.of_nat (length pay) < 2 ^ 31 ->
  List.NoDup (map dpay_type items) ->
  exists s1 extra,
    (if Int.to_int32 (Z.of_nat (length pay)) <=? 0 then
       for_each items
         (fun item =>
            addPaymentMethod (dpay_type item) (dpay_name item) (dpay_description item)
                             (dpay_sortOrder item)) ;;;
       modify (with_isGetPaymentsDataFromDB false)
     else ret tt) s
    = (Return tt, s1) /\
    db s1 = set_paymentMethods (Some (pay ++ extra)) (db s).
Proof.
  intros Ht Hs Hit. rewrite count_empty by assumption.
  destruct pay as [| p pay].
  - destruct (seed_payments items s [] Ht Hit) as (s1 & extra & E & D).
    { intros ? ? ? []. }
    eexists. exists extra. split.
    + eapply bind_step; [exact E |]. reflexivity.
    + cbn [db with_isGetPaymentsDataFromDB]. exact D.
  - exists s, []. split; [reflexivity |]. rewrite app_nil_r.
    now rewrite <- Ht, set_paymentMethods_same.
Qed.

(** [addDefaultData] on a store with its four seeded tables in place: it
    returns, writes the version when dbversion is empty, and adds rows to
    the reference tables that are empty; nothing else changes. *)
Lemma addDefaultData_eq uiDexDBversionInCode dataCurrencies dataCountries
    dataPaymentMethods cmp_name cmp_sortorder s vs cur cty pay :
  t_dbversion (db s) = Some vs ->
  t_currencies (db s) = Some cur ->
  t_countries (db s) = Some cty ->
  t_paymentMethods (db s) = Some pay ->
  Z.of_nat (length vs) < 2 ^ 31 ->
  Z.of_nat (length cur) < 2 ^ 31 ->
  Z.of_nat (length cty) < 2 ^ 31 ->
  Z.of_nat (length pay) < 2 ^ 31 ->
  List.NoDup (map currencies_iso cur) ->
  List.NoDup (map dcur_iso dataCurrencies) ->
  List.NoDup (map dcty_iso dataCountries) ->
  List.NoDup (map dpay_type dataPaymentMethods) ->
  exists s' cur' cty' pay',
    addDefaultData uiDexDBversionInCode dataCurrencies dataCountries
      dataPaymentMethods cmp_name cmp_sortorder s = (Return tt, s') /\
    db s' =
      set_paymentMethods (Some (pay ++ pay'))
        (set_countries (Some (cty ++ cty'))
           (set_currencies (Some (cur ++ cur'))
              (set_dbversion
                 (Some (match vs with
                        | [] => [Int.to_int32 uiDexDBversionInCode]
                        | _ => vs
                        end)) (db s)))).
Proof.
  intros Hvs Hcur Hcty Hpay Svs Scur Scty Spay NDcur NDdc NDdco NDdp.
  set (s0 := with_isGetPaymentsDataFromDB true
               (with_isGetCurrenciesDataFromDB true
                  (with_isGetCountriesDataFromDB true
                     (with_payments [] (with_currencies [] (with_countries [] s)))))).
  assert (D0 : db s0 = db s) by reflexivity.
  destruct (block_dbversion (Int.to_int32 uiDexDBversionInCode) s0 vs Hvs Svs)
    as (s1 & E1 & D1).
  destruct (block_currencies dataCurrencies s1 cur) as (s2 & cur' & E2 & D2 & ND2);
    try assumption.
  { now rewrite D1. }
  destruct (block_countries dataCountries cmp_name cmp_sortorder s2 cty (cur ++ cur'))
    as (s3 & cty' & E3 & D3); try assumption.
  { now rewrite D2, D1. }
  { now rewrite D2. }
  destruct (block_payments dataPaymentMethods s3 pay) as (s4 & pay' & E4 & D4);
    try assumption.
  { now rewrite D3, D2, D1. }
  exists s4, cur', cty', pay'. split.
  - unfold addDefaultData.
    do 6 (eapply bind_step; [reflexivity |]).
    eapply bind_step.
    { apply (tableCount_eq T_dbversion _ (length vs)). cbn. now rewrite Hvs. }
    eapply bind_step; [exact E1 |].
    eapply bind_step.
    { apply (tableCount_eq T_currencies _ (length cur)). rewrite D1. cbn.
      now rewrite Hcur. }
    eapply bind_step; [exact E2 |].
    eapply bind_step.
    { apply (tableCount_eq T_countries _ (length cty)). rewrite D2, D1. cbn.
      now rewrite Hcty. }
    eapply bind_step; [exact E3 |].
    eapply bind_step.
    { apply (tableCount_eq T_paymentMethods _ (length pay)). rewrite D3, D2, D1. cbn.
      now rewrite Hpay. }
    exact E4.
  - rewrite D4, D3, D2, D1, D0. reflexivity.
Qed.

(** ** Migration *)

Lemma CREATE_INDEX_eq unique name t columns d :
  exists v, CREATE_INDEX unique name t columns d = set_indexes v d.
Proof.
  unfold CREATE_INDEX.
  assert (Hid : d = set_indexes (indexes d) d) by now destruct d.
  destruct (existsb _ (indexes d)); [now exists (indexes d) |].
  destruct (get_table t d); [| now exists (indexes d)].
  destruct (unique && _); [now exists (indexes d) |].
  eexists. reflexivity.
Qed.

Lemma createIndexes_eq d : exists v, createIndexes d = set_indexes v d.
Proof.
  unfold createIndexes.
  repeat match goal with
         | |- context [CREATE_INDEX ?u ?n ?t ?c ?x] =>
             let v := fresh "v" in
             destruct (CREATE_INDEX_eq u n t c x) as [v ->]
         end.
  eexists. reflexivity.
Qed.

Lemma transaction_Return {A} (body : M A) s a s' :
  body s = (Return a, s') -> transaction body s = (Return a, s').
Proof. intros H. unfold transaction. now rewrite H. Qed.

Lemma insert_rows_fresh_table {A K1 K2} (key1 : A -> K1) (key2 : A -> K2)
    (conflict : A -> A -> bool) new :
  (forall r x, conflict r x = true -> key1 x = key1 r \/ key2 x = key2 r) ->
  List.NoDup (map key1 new) -> List.NoDup (map key2 new) ->
  insert_rows conflict [] new = Some new.
Proof. intros Hc H1 H2. now apply (insert_rows_NoDup key1 key2 conflict Hc new []). Qed.

Lemma map_hash_moved b rows : map col_hash (map (moved_row b) rows) = map col_hash rows.
Proof. rewrite map_map. reflexivity. Qed.

Lemma INSERT_SELECT_countries_eq d old :
  t_countries d = Some [] -> t_countries_old d = Some old ->
  List.NoDup (map countries_iso old) ->
  INSERT_SELECT_countries d = set_countries (Some old) d.
Proof.
  intros H1 H2 Hnd. unfold INSERT_SELECT_countries. rewrite H1, H2.
  now rewrite (insert_rows_fresh_table countries_iso countries_iso)
    by auto using conflict_CountryRow_key.
Qed.

Lemma INSERT_SELECT_currencies_eq d old :
  t_currencies d = Some [] -> t_currencies_old d = Some old ->
  List.NoDup (map currencies_id old) -> List.NoDup (map currencies_iso old) ->
  INSERT_SELECT_currencies d = set_currencies (Some old) d.
Proof.
  intros H1 H2 Hid Hiso. unfold INSERT_SELECT_currencies. rewrite H1, H2.
  now rewrite (insert_rows_fresh_table currencies_id currencies_iso)
    by auto using conflict_CurrencyRow_key.
Qed.

Lemma INSERT_SELECT_paymentMethods_eq d old :
  t_paymentMethods d = Some [] -> t_paymentMethods_old d = Some old ->
  List.NoDup (map paymentMethods_type old) ->
  INSERT_SELECT_paymentMethods d = set_paymentMethods (Some old) d.
Proof.
  intros H1 H2 Hnd. unfold INSERT_SELECT_paymentMethods. rewrite H1, H2.
  now rewrite (insert_rows_fresh_table paymentMethods_type paymentMethods_type)
    by auto using conflict_PaymentRow_key.
Qed.

Lemma INSERT_SELECT_offers_eq t d old :
  get_table t d = Some [] -> get_table_old t d = Some old ->
  List.NoDup (map col_hash old) ->
  INSERT_SELECT_offers t d
  = set_table t (Some (map (moved_row (TableName_eqb t myOffers)) old)) d.
Proof.
  intros H1 H2 Hnd. unfold INSERT_SELECT_offers. rewrite H1, H2.
  now rewrite (insert_rows_fresh_table col_hash col_hash)
    by (auto using conflict_Row_key; now rewrite map_hash_moved).
Qed.

Lemma migration_steps (rest : M unit) (s : DexDB) (vs : list Z)
    (cty : list CountryRow) (cur : list CurrencyRow)
    (pay : list PaymentRow) (mine sell buy : list Row) :
  t_dbversion (db s) = Some vs ->
  t_countries (db s) = Some cty ->
  t_currencies (db s) = Some cur ->
  t_paymentMethods (db s) = Some pay ->
  t_myOffers (db s) = Some mine ->
  t_offersSell (db s) = Some sell ->
  t_offersBuy (db s) = Some buy ->
  t_countries_old (db s) = None ->
  t_currencies_old (db s) = None ->
  t_paymentMethods_old (db s) = None ->
  t_myOffers_old (db s) = None ->
  t_offersSell_old (db s) = None ->
  t_offersBuy_old (db s) = None ->
  List.NoDup (map countries_iso cty) ->
  List.NoDup (map currencies_id cur) ->
  List.NoDup (map currencies_iso cur) ->
  List.NoDup (map paymentMethods_type pay) ->
  List.NoDup (map col_hash mine) ->
  List.NoDup (map col_hash sell) ->
  List.NoDup (map col_hash buy) ->
  exists s_m,
    (dropIndexes ;;;
     renameTables ;;;
     dropTables ;;;
     (d <- gets db ;; d <- createTables d ;; run (fun _ => d)) ;;;
     moveTablesData ;;;
     run createIndexes ;;;
     dropOldTables ;;;
     rest) s = rest s_m /\
    t_dbversion (db s_m) = Some [] /\
    t_countries (db s_m) = Some cty /\
    t_currencies (db s_m) = Some cur /\
    t_paymentMethods (db s_m) = Some pay /\
    t_myOffers (db s_m) = Some (map (moved_row true) mine) /\
    t_offersSell (db s_m) = Some (map (moved_row false) sell) /\
    t_offersBuy (db s_m) = Some (map (moved_row false) buy) /\
    t_countries_old (db s_m) = None /\
    t_currencies_old (db s_m) = None /\
    t_paymentMethods_old (db s_m) = None /\
    t_myOffers_old (db s_m) = None /\
    t_offersSell_old (db s_m) = None /\
    t_offersBuy_old (db s_m) = None.
Proof.
  intros Hvs Hcty Hcur Hpay Hmine Hsell Hbuy
    Ocy Ocu Opa Omi Ose Obu NDcty NDid NDiso NDpay NDmine NDsell NDbuy.
  destruct s as [d cs cus ps f1 f2 f3 cb resc dl].
  destruct d as [dv tcy tcu tpa tmi tse tbu tfl ocy ocu opa omi ose obu idx ic].
  cbn [db t_dbversion t_countries t_currencies t_paymentMethods t_myOffers
       t_offersSell t_offersBuy t_filterList t_countries_old t_currencies_old
       t_paymentMethods_old t_myOffers_old t_offersSell_old t_offersBuy_old
       integrity_check] in *.
  subst.
  destruct tfl.
  - eexists. split.
    + do 7 (eapply bind_step; [reflexivity |]). reflexivity.
    + cbn [db with_db].
      match goal with
      | |- context [createIndexes ?d] => destruct (createIndexes_eq d) as [v ->]
      end.
      rewrite (INSERT_SELECT_countries_eq _ cty) by (reflexivity || assumption).
      rewrite (INSERT_SELECT_currencies_eq _ cur) by (reflexivity || assumption).
      rewrite (INSERT_SELECT_paymentMethods_eq _ pay) by (reflexivity || assumption).
      rewrite (INSERT_SELECT_offers_eq myOffers _ mine) by (reflexivity || assumption).
      rewrite (INSERT_SELECT_offers_eq offersSell _ sell) by (reflexivity || assumption).
      rewrite (INSERT_SELECT_offers_eq offersBuy _ buy) by (reflexivity || assumption).
      repeat split.
  - eexists. split.
    + do 7 (eapply bind_step; [reflexivity |]). reflexivity.
    + cbn [db with_db].
      match goal with
      | |- context [createIndexes ?d] => destruct (createIndexes_eq d) as [v ->]
      end.
      rewrite (INSERT_SELECT_countries_eq _ cty) by (reflexivity || assumption).
      rewrite (INSERT_SELECT_currencies_eq _ cur) by (reflexivity || assumption).
      rewrite (INSERT_SELECT_paymentMethods_eq _ pay) by (reflexivity || assumption).
      rewrite (INSERT_SELECT_offers_eq myOffers _ mine) by (reflexivity || assumption).
      rewrite (INSERT_SELECT_offers_eq offersSell _ sell) by (reflexivity || assumption).
      rewrite (INSERT_SELECT_offers_eq offersBuy _ buy) by (reflexivity || assumption).
      repeat split.
Qed.

Lemma isDexDbEmpty_false s vs :
  t_dbversion (db s) = Some vs -> isDexDbEmpty s = (Return false, s).
Proof.
  intros H. unfold isDexDbEmpty, bind, gets, ret.
  unfold all_tables. cbn [List.filter table_exists]. rewrite H. reflexivity.
Qed.

Lemma checkDexDbIntegrity_ok s :
  integrity_check (db s) = "ok"%string -> checkDexDbIntegrity s = (Return tt, s).
Proof. intros H. unfold checkDexDbIntegrity, bind, gets. now rewrite H. Qed.

Lemma isDexDbOutdated_eq uiDexDBversionInCode s vs :
  t_dbversion (db s) = Some vs ->
  isDexDbOutdated uiDexDBversionInCode s
  = (Return (negb (uiDexDBversionInCode =? Int.to_uint32 (Int.to_int32 (hd 0 vs)))), s).
Proof.
  intros H. unfold isDexDbOutdated, bind, gets. rewrite H.
  now destruct (uiDexDBversionInCode =? _).
Qed.

(** C3.  The constructor run on a file left at another schema version,
    with seed data free of collisions: it returns; each offer table holds
    one row per row of the legacy table, in the same order and with the
    same columns, hash included, except that timeModification is a copy of
    timeCreate; each reference table starts with its legacy rows; none of
    the renamed tables exists any more; dbversion holds the version of
    the code as its only row, and the store no longer counts as
    outdated. *)
Theorem migration_keeps_rows
    (uiDexDBversionInCode : Z) (dataCurrencies : list DefaultCurrency)
    (dataCountries : list DefaultCountry)
    (dataPaymentMethods : list DefaultPaymentMethod)
    (cmp_name cmp_sortorder : DefaultCountry -> DefaultCountry -> bool)
    (s : DexDB) (vs : list Z) (cty : list CountryRow) (cur : list CurrencyRow)
    (pay : list PaymentRow) (mine sell buy : list Row) :
  Int.is_uint32 uiDexDBversionInCode ->
  legacy_file uiDexDBversionInCode (db s) vs cty cur pay mine sell buy ->
  seed_data_ok dataCurrencies dataCountries dataPaymentMethods ->
  exists s' cty' cur' pay',
    DexDB_ctor uiDexDBversionInCode dataCurrencies dataCountries
      dataPaymentMethods cmp_name cmp_sortorder s = (Return tt, s') /\
    (t_offersSell (db s') = Some (map (moved_row false) sell) /\
     t_offersBuy (db s') = Some (map (moved_row false) buy) /\
     t_myOffers (db s') = Some (map (moved_row true) mine) /\
     t_countries (db s') = Some (cty ++ cty') /\
     t_currencies (db s') = Some (cur ++ cur') /\
     t_paymentMethods (db s') = Some (pay ++ pay')) /\
    (t_countries_old (db s') = None /\ t_currencies_old (db s') = None /\
     t_paymentMethods_old (db s') = None /\ t_myOffers_old (db s') = None /\
     t_offersSell_old (db s') = None /\ t_offersBuy_old (db s') = None) /\
    t_dbversion (db s') = Some [Int.to_int32 uiDexDBversionInCode] /\
    isDexDbOutdated uiDexDBversionInCode s' = (Return false, s').
Proof.
  intros HN (Hint & Hvs & Hver & (Hcty & Hcur & Hpay & Hmine & Hsell & Hbuy)
             & (Ocy & Ocu & Opa & Omi & Ose & Obu)
             & (NDcty & NDid & NDiso & NDpay & NDmine & NDsell & NDbuy)
             & (Scty & Scur & Spay))
         (NDdc & NDdco & NDdp).
  set (s0 := with_isGetPaymentsDataFromDB true
               (with_isGetCurrenciesDataFromDB true
                  (with_isGetCountriesDataFromDB true
                     (with_payments [] (with_currencies [] (with_countries [] s)))))).
  destruct (migration_steps
              (addDefaultData uiDexDBversionInCode dataCurrencies dataCountries
                 dataPaymentMethods cmp_name cmp_sortorder)
              s0 vs cty cur pay mine sell buy)
    as (s_m & Em & Fv & Fcty & Fcur & Fpay & Fmine & Fsell & Fbuy
        & Gcy & Gcu & Gpa & Gmi & Gse & Gbu); try assumption.
  destruct (addDefaultData_eq uiDexDBversionInCode dataCurrencies dataCountries
              dataPaymentMethods cmp_name cmp_sortorder s_m [] cur cty pay)
    as (s' & cur' & cty' & pay' & E' & D'); try assumption.
  { cbn. lia. }
  assert (Hv' : t_dbversion (db s') = Some [Int.to_int32 uiDexDBversionInCode])
    by (now rewrite D').
  exists s', cty', cur', pay'. split; [| split; [| split; [| split]]].
  - unfold DexDB_ctor.
    do 6 (eapply bind_step; [reflexivity |]).
    eapply bind_step; [apply (isDexDbEmpty_false s0 vs Hvs) |].
    eapply bind_step; [reflexivity |].
    eapply bind_step; [apply (checkDexDbIntegrity_ok s0 Hint) |].
    eapply bind_step; [apply (isDexDbOutdated_eq _ s0 vs Hvs) |].
    destruct (Z.eqb_spec uiDexDBversionInCode
                (Int.to_uint32 (Int.to_int32 (hd 0 vs)))) as [E | E];
      [exfalso; now apply Hver |].
    cbn [negb]. apply transaction_Return. rewrite Em. exact E'.
  - rewrite D'. repeat split; assumption.
  - rewrite D'. repeat split; assumption.
  - exact Hv'.
  - rewrite (isDexDbOutdated_eq _ s' _ Hv'). cbn [hd].
    rewrite int32_idem, uint32_via_int32, Z.eqb_refl by assumption.
    reflexivity.
Qed.

Lemma migration_keeps_rows_witness :
  exists s' cty' cur' pay',
    DexDB_ctor 1002 seed_currencies_sample seed_countries_sample
      seed_payments_sample cmp_name_sample cmp_sortorder_sample legacy_store
    = (Return tt, s') /\
    (t_offersSell (db s')
     = Some (map (moved_row false) [bindOfferData (sample_offer 1 50 20)]) /\
     t_offersBuy (db s')
     = Some (map (moved_row false) [bindOfferData (sample_offer 2 50 20)]) /\
     t_myOffers (db s') = Some (map (moved_row true) [sample_my_row 3 50 0 1]) /\
     t_countries (db s') = Some (legacy_countries ++ cty') /\
     t_currencies (db s') = Some (legacy_currencies ++ cur') /\
     t_paymentMethods (db s') = Some ([] ++ pay')) /\
    (t_countries_old (db s') = None /\ t_currencies_old (db s') = None /\
     t_paymentMethods_old (db s') = None /\ t_myOffers_old (db s') = None /\
     t_offersSell_old (db s') = None /\ t_offersBuy_old (db s') = None) /\
    t_dbversion (db s') = Some [Int.to_int32 1002] /\
    isDexDbOutdated 1002 s' = (Return false, s').
Proof.
  apply (migration_keeps_rows 1002 seed_currencies_sample seed_countries_sample
           seed_payments_sample cmp_name_sample cmp_sortorder_sample legacy_store
           [1001] legacy_countries legacy_currencies []
           [sample_my_row 3 50 0 1] [bindOfferData (sample_offer 1 50 20)]
           [bindOfferData (sample_offer 2 50 20)]).
  - unfold Int.is_uint32. lia.
  - unfold legacy_file. cbn [db legacy_store].
    split; [reflexivity |]. split; [reflexivity |].
    split; [vm_compute; discriminate |].
    split; [repeat split |]. split; [repeat split |].
    split.
    + repeat split;
        repeat (constructor; [intros H; cbn in H; tauto |]); constructor.
    + cbn. lia.
  - unfold seed_data_ok.
    repeat split; repeat (constructor; [intros H; cbn in H; tauto |]); constructor.
Defined.

(** ** The primary key as an invariant *)








Example scenario_result :
  fst (scenario (sample_store [] [] [])) = Return ([(2, 0)], 2, 1, false).
Proof. vm_compute. reflexivity. Qed.

(** The sibling functions name the table they work on. *)
Example sibling_events :
  let s := sample_store [] [] [] in
  delivered (snd (deleteCurrency "USD" s))
  = [{| ev_observer := 7%N; ev_table := Currencies;
        ev_operation := Delete; ev_status := Ok |}] /\
  delivered (snd (lastModificationOffersBuy s))
  = [{| ev_observer := 7%N; ev_table := OffersBuy;
        ev_operation := Read; ev_status := Ok |}] /\
  delivered (snd (countOffersSell s))
  = [{| ev_observer := 7%N; ev_table := OffersSell;
        ev_operation := Read; ev_status := Ok |}].
Proof. vm_compute. repeat split. Qed.

(** * Further properties *)

(** ** Sample records *)

Lemma sample_offer_valid h tte tmod :
  Uint256.valid h -> Int.is_uint64 tte -> Int.is_uint64 tmod ->
  valid_offer (sample_offer h tte tmod).
Proof.
  intros Hh Ht Hm.
  unfold valid_offer, sample_offer, Uint256.valid, Int.is_uint8, Int.is_uint64,
    Int.is_uint32 in *.
  cbn. lia.
Qed.

Lemma sample_my_offer_valid : valid_my_offer sample_my_offer.
Proof.
  unfold valid_my_offer, valid_offer, is_int32, Uint256.valid, Int.is_uint8,
    Int.is_uint64, Int.is_uint32.
  cbn. lia.
Qed.

Lemma seed_sample_ok :
  seed_data_ok seed_currencies_sample seed_countries_sample seed_payments_sample.
Proof.
  unfold seed_data_ok.
  repeat split; repeat (constructor; [intros H; cbn in H; tauto |]); constructor.
Qed.

Lemma isExistOfferByHash_eq tableName h s rows :
  get_table tableName (db s) = Some rows ->
  isExistOfferByHash tableName h s
  = (Return (0 <? Int.to_int32 (Z.of_nat (length
               (List.filter (where_holds [hash_eq (Uint256.GetHex h)]) rows)))),
     with_delivered
       (fun d => d ++ fanout (callBack s) (tTable_of_read tableName) Read Ok) s).
Proof.
  intros Ht. unfold isExistOfferByHash, bind.
  rewrite (query_eq _ _ rows) by (assumption || reflexivity).
  unfold finish, SQLITE_OK. rewrite finishTableOperation_ok. reflexivity.
Qed.

Lemma where_hash_eq h x : where_holds [hash_eq h] x = String.eqb (col_hash x) h.
Proof. cbn. apply andb_true_r. Qed.

Lemma length_filter_le {A} (f : A -> bool) l : (length (List.filter f l) <= length l)%nat.
Proof.
  induction l as [| x l IH]; [constructor |]. cbn. destruct (f x); cbn; lia.
Qed.

Lemma length_filter_existsb {A} (f : A -> bool) l :
  (0 <? Z.of_nat (length (List.filter f l))) = existsb f l.
Proof.
  induction l as [| x l IH]; [reflexivity |]. cbn.
  destruct (f x); cbn [length orb]; [| exact IH].
  apply Z.ltb_lt. lia.
Qed.

(** X1.  On a table of fewer than 2^31 rows [isExistOfferByHash] answers
    whether a row of the table holds the hash. *)
Theorem isExistOfferByHash_iff_present (tableName : TableName) (h : Z) (s : DexDB)
    (rows : list Row) :
  get_table tableName (db s) = Some rows ->
  Z.of_nat (length rows) < 2 ^ 31 ->
  fst (isExistOfferByHash tableName h s)
  = Return (existsb (fun x => String.eqb (col_hash x) (Uint256.GetHex h)) rows).
Proof.
  intros Ht Hn. rewrite (isExistOfferByHash_eq _ _ _ rows Ht). cbn [fst].
  rewrite int32_small.
  2:{ pose proof (length_filter_le (where_holds [hash_eq (Uint256.GetHex h)]) rows).
      unfold is_int32. lia. }
  rewrite length_filter_existsb. f_equal. clear.
  induction rows as [| x rows IH]; [reflexivity |].
  cbn [existsb]. rewrite where_hash_eq. now f_equal.
Qed.

Lemma isExistOfferByHash_iff_present_witness :
  fst (isExistOfferByHash offersSell 1
         (sample_store [bindOfferData (sample_offer 1 50 10)] [] []))
  = Return (existsb (fun x => String.eqb (col_hash x) (Uint256.GetHex 1))
              [bindOfferData (sample_offer 1 50 10)]).
Proof.
  apply (isExistOfferByHash_iff_present offersSell 1
           (sample_store [bindOfferData (sample_offer 1 50 10)] [] [])
           [bindOfferData (sample_offer 1 50 10)]).
  - reflexivity.
  - cbn. lia.
Defined.

(** ** Edits *)

Lemma getOffer_assign_set_offer r r' :
  valid_offer r -> valid_offer r' ->
  getOffer (assign set_offer (bindOfferData r') (bindOfferData r))
  = set_idTransaction (idTransaction r) r'.
Proof.
  destruct r, r'; unfold valid_offer, getOffer, bindOfferData, set_idTransaction, assign;
    cbn_fields.
  intros (Hid & _) (_ & Hh & Hp & Hpr & Hmin & Htc & Hte & Htm & Hev).
  rewrite !SetHex_GetHex, !uint64_via_int64, int32_idem, uint32_via_int32, uint8_small
    by assumption.
  reflexivity.
Qed.

Lemma getOfferByHash_eq tableName h s rows :
  get_table tableName (db s) = Some rows ->
  getOfferByHash tableName h s
  = (Return (getOffer (hd null_row
               (List.filter (where_holds [hash_eq (Uint256.GetHex h)]) rows))),
     with_delivered
       (fun d => d ++ fanout (callBack s) (tTable_of_read tableName) Read Ok) s).
Proof.
  intros Ht. unfold getOfferByHash, getOffer_query, bind, ret.
  rewrite (query_eq _ _ rows) by (assumption || reflexivity).
  cbn [fst snd]. unfold finish, SQLITE_OK. rewrite finishTableOperation_ok. reflexivity.
Qed.

Lemma editOffer_eq tableName offer s rows :
  get_table tableName (db s) = Some rows ->
  editOffer tableName offer s
  = (Return tt,
     with_delivered
       (fun d => d ++ fanout (callBack s) (tTable_of_write tableName) Edit Ok)
       (with_db (set_table tableName (Some
          (map (fun x => if String.eqb (col_hash x) (Uint256.GetHex (hash offer))
                         then assign set_offer (bindOfferData offer) x else x) rows))) s)).
Proof.
  intros Ht. unfold editOffer, addOrEditOffer, bind.
  rewrite (execute_step _ _ _ rows) by (assumption || reflexivity).
  cbn [step fst snd cmd_table Cond_holds].
  unfold SQLITE_OK. rewrite finishTableOperation_ok. reflexivity.
Qed.

Lemma map_hash_absent (f : Row -> Row) h rows :
  absent h rows ->
  map (fun x => if String.eqb (col_hash x) h then f x else x) rows = rows.
Proof.
  induction rows as [| x rows IH]; intros Ha; [reflexivity |].
  cbn [map]. rewrite IH by (intros y Hy; apply Ha; now right).
  destruct (String.eqb_spec (col_hash x) h) as [E | E]; [| reflexivity].
  exfalso. apply (Ha x); [now left | exact E].
Qed.

(** X2.  An edit replaces every field but idTransaction: after [addOffer] of
    [r], under a new hash, and [editOffer] of [r'] with the same hash,
    [getOfferByHash] returns [r'] with the idTransaction of [r]. *)
Theorem editOffer_keeps_idTransaction (tableName : TableName) (r r' : OfferInfo)
    (s : DexDB) (rows : list Row) :
  valid_offer r -> valid_offer r' ->
  hash r' = hash r ->
  get_table tableName (db s) = Some rows ->
  absent (Uint256.GetHex (hash r)) rows ->
  exists s1 s2 s3,
    addOffer tableName r s = (Return tt, s1) /\
    editOffer tableName r' s1 = (Return tt, s2) /\
    getOfferByHash tableName (hash r) s2
    = (Return (set_idTransaction (idTransaction r) r'), s3).
Proof.
  intros Hv Hv' Hh Ht Ha.
  rewrite (addOffer_eq _ _ _ rows Ht), existsb_hash_absent by assumption.
  eexists. eexists. eexists. split; [reflexivity |].
  rewrite (editOffer_eq _ _ _ (rows ++ [bindOfferData r])).
  2:{ exact (get_set_table _ _ _). }
  split; [reflexivity |].
  erewrite getOfferByHash_eq.
  2:{ exact (get_set_table _ _ _). }
  rewrite Hh, map_app, map_hash_absent by assumption.
  rewrite List.filter_app, filter_hash_absent by assumption.
  cbn [map List.filter app].
  change (col_hash (bindOfferData r)) with (Uint256.GetHex (hash r)).
  rewrite String.eqb_refl, where_hash_eq.
  change (col_hash (assign set_offer (bindOfferData r') (bindOfferData r)))
    with (Uint256.GetHex (hash r')).
  rewrite Hh, String.eqb_refl. cbn [hd].
  rewrite getOffer_assign_set_offer by assumption. reflexivity.
Qed.

Lemma editOffer_keeps_idTransaction_witness :
  exists s1 s2 s3,
    addOffer offersSell (sample_offer 255 50 10) (sample_store [] [] [])
    = (Return tt, s1) /\
    editOffer offersSell (set_idTransaction 2 (sample_offer 255 60 20)) s1
    = (Return tt, s2) /\
    getOfferByHash offersSell (hash (sample_offer 255 50 10)) s2
    = (Return (set_idTransaction (idTransaction (sample_offer 255 50 10))
                 (set_idTransaction 2 (sample_offer 255 60 20))), s3).
Proof.
  apply (editOffer_keeps_idTransaction offersSell (sample_offer 255 50 10)
           (set_idTransaction 2 (sample_offer 255 60 20)) (sample_store [] [] []) []).
  - unfold valid_offer, Uint256.valid, Int.is_uint8, Int.is_uint64, Int.is_uint32.
    cbn. lia.
  - unfold valid_offer, Uint256.valid, Int.is_uint8, Int.is_uint64, Int.is_uint32.
    cbn. lia.
  - reflexivity.
  - reflexivity.
  - intros x [].
Defined.

(** ** Deletion by hash *)


Lemma filter_filter {A} (f g : A -> bool) l :
  List.filter f (List.filter g l) = List.filter (fun x => g x && f x) l.
Proof.
  induction l as [| x l IH]; [reflexivity |]. cbn.
  destruct (g x); cbn; [destruct (f x) |]; now rewrite IH.
Qed.





(** ** Listings, counts and pages *)

Lemma countOffers_eq tableName countryIso currencyIso payment s rows :
  get_table tableName (db s) = Some rows ->
  countOffers tableName countryIso currencyIso payment (-1) 0 s
  = (Return (Int.to_uint64 (Z.of_nat (length
       (List.filter (where_holds (where_iso_payment countryIso currencyIso payment))
                    rows))), 0), s).
Proof.
  intros Ht. unfold countOffers, bind, ret.
  rewrite where_type_status_wildcard by lia.
  rewrite (query_eq _ _ rows) by (assumption || apply has_column_iso_payment).
  reflexivity.
Qed.

Lemma uint64_length_filter (f : Row -> bool) rows :
  Z.of_nat (length rows) < 2 ^ 64 ->
  Int.to_uint64 (Z.of_nat (length (List.filter f rows)))
  = Z.of_nat (length (List.filter f rows)).
Proof.
  intros H. apply uint64_small. pose proof (length_filter_le f rows).
  unfold Int.is_uint64. lia.
Qed.

(** X4.  Under one filter, and without a limit, each count function returns the
    length of the list its list function returns. *)
Theorem count_filter_is_length_of_listing (countryIso currencyIso : string)
    (payment type statusOffer limit offset : Z) (s : DexDB) (sell buy mine : list Row) :
  t_offersSell (db s) = Some sell ->
  t_offersBuy (db s) = Some buy ->
  t_myOffers (db s) = Some mine ->
  Z.of_nat (length sell) < 2 ^ 64 ->
  Z.of_nat (length buy) < 2 ^ 64 ->
  Z.of_nat (length mine) < 2 ^ 64 ->
  limit <= 0 ->
  (exists offers,
     fst (getOffersSell_filter countryIso currencyIso payment limit offset s)
     = Return offers /\
     fst (countOffersSell_filter countryIso currencyIso payment s)
     = Return (Z.of_nat (length offers))) /\
  (exists offers,
     fst (getOffersBuy_filter countryIso currencyIso payment limit offset s)
     = Return offers /\
     fst (countOffersBuy_filter countryIso currencyIso payment s)
     = Return (Z.of_nat (length offers))) /\
  (exists offers,
     fst (getMyOffers countryIso currencyIso payment type statusOffer limit offset s)
     = Return offers /\
     fst (countMyOffers_filter countryIso currencyIso payment type statusOffer s)
     = Return (Z.of_nat (length offers))).
Proof.
  intros Hs Hb Hm Hns Hnb Hnm Hl. split; [| split].
  - unfold getOffersSell_filter, countOffersSell_filter, bind.
    rewrite (getOffers_eq offersSell _ _ _ _ _ _ sell Hs),
      (countOffers_eq offersSell _ _ _ _ sell Hs).
    cbn [fst snd]. rewrite finishTableOperation_ok.
    eexists. split; [reflexivity |].
    unfold select, ret. cbn [q_where q_limit fst]. rewrite limit_offset_none by assumption.
    now rewrite length_map, uint64_length_filter.
  - unfold getOffersBuy_filter, countOffersBuy_filter, bind.
    rewrite (getOffers_eq offersBuy _ _ _ _ _ _ buy Hb),
      (countOffers_eq offersBuy _ _ _ _ buy Hb).
    cbn [fst snd]. rewrite finishTableOperation_ok.
    eexists. split; [reflexivity |].
    unfold select, ret. cbn [q_where q_limit fst]. rewrite limit_offset_none by assumption.
    now rewrite length_map, uint64_length_filter.
  - unfold countMyOffers_filter, countOffers, bind, ret.
    rewrite (getMyOffers_eq _ _ _ _ _ _ _ _ mine Hm).
    rewrite (query_eq _ _ mine)
      by (assumption || apply has_column_type_status, has_column_iso_payment).
    cbn [fst snd]. unfold finish, SQLITE_OK. rewrite finishTableOperation_ok.
    eexists. split; [reflexivity |].
    unfold select. cbn [q_where q_limit fst]. rewrite limit_offset_none by assumption.
    now rewrite length_map, uint64_length_filter.
Qed.

Lemma count_filter_is_length_of_listing_witness :
  let s := sample_store [bindOfferData (sample_offer 1 50 10)] []
             [sample_my_row 3 50 0 1] in
  (exists offers,
     fst (getOffersSell_filter "RU" "" 1 0 5 s) = Return offers /\
     fst (countOffersSell_filter "RU" "" 1 s) = Return (Z.of_nat (length offers))) /\
  (exists offers,
     fst (getOffersBuy_filter "RU" "" 1 0 5 s) = Return offers /\
     fst (countOffersBuy_filter "RU" "" 1 s) = Return (Z.of_nat (length offers))) /\
  (exists offers,
     fst (getMyOffers "RU" "" 1 0 1 0 5 s) = Return offers /\
     fst (countMyOffers_filter "RU" "" 1 0 1 s) = Return (Z.of_nat (length offers))).
Proof.
  apply (count_filter_is_length_of_listing "RU" "" 1 0 1 0 5
           (sample_store [bindOfferData (sample_offer 1 50 10)] []
              [sample_my_row 3 50 0 1])
           [bindOfferData (sample_offer 1 50 10)] [] [sample_my_row 3 50 0 1]);
    try reflexivity; cbn; lia.
Defined.

Lemma countOffers_period_eq tableName from timeMod s rows :
  get_table tableName (db s) = Some rows ->
  countOffers_period tableName from timeMod s
  = (Return (Int.to_uint64 (Z.of_nat (length
       (List.filter (where_holds (where_period from timeMod)) rows))), 0), s).
Proof.
  intros Ht. unfold countOffers_period, bind, ret.
  rewrite (query_eq _ _ rows) by (assumption || now destruct from).
  reflexivity.
Qed.

Lemma length_filter_split {A} (f g : A -> bool) l :
  (forall x, g x = negb (f x)) ->
  (length (List.filter f l) + length (List.filter g l))%nat = length l.
Proof.
  intros H. induction l as [| x l IH]; [reflexivity |]. cbn.
  rewrite H. destruct (f x); cbn; lia.
Qed.

(** X5.  The offers modified before a time and those modified at or after it
    add up to the count over the period All, which is the count of the
    whole table. *)
Theorem count_before_after_all (timeMod : Z) (s : DexDB) (sell buy : list Row) :
  t_offersSell (db s) = Some sell ->
  t_offersBuy (db s) = Some buy ->
  Z.of_nat (length sell) < 2 ^ 64 ->
  Z.of_nat (length buy) < 2 ^ 64 ->
  (exists b a n,
     fst (countOffersSell_period Before timeMod s) = Return b /\
     fst (countOffersSell_period After timeMod s) = Return a /\
     fst (countOffersSell_period All timeMod s) = Return n /\
     fst (countOffersSell s) = Return n /\
     b + a = n) /\
  (exists b a n,
     fst (countOffersBuy_period Before timeMod s) = Return b /\
     fst (countOffersBuy_period After timeMod s) = Return a /\
     fst (countOffersBuy_period All timeMod s) = Return n /\
     fst (countOffersBuy s) = Return n /\
     b + a = n).
Proof.
  intros Hs Hb Hns Hnb.
  assert (Hsplit : forall rows : list Row,
    Z.of_nat (length (List.filter (where_holds (where_period Before timeMod)) rows))
    + Z.of_nat (length (List.filter (where_holds (where_period After timeMod)) rows))
    = Z.of_nat (length (List.filter (where_holds (where_period All timeMod)) rows))).
  { intros rows.
    rewrite <- (length_filter_split
      (where_holds (where_period Before timeMod))
      (where_holds (where_period After timeMod))
      (List.filter (where_holds (where_period All timeMod)) rows)).
    - cbn [where_period]. rewrite filter_where_nil. lia.
    - intros x. cbn. rewrite !andb_true_r.
      destruct (Z.ltb_spec (col_timeModification x) timeMod),
               (Z.leb_spec timeMod (col_timeModification x)); cbn; (reflexivity || lia). }
  split.
  - unfold countOffersSell_period, countOffersSell, countOffers_all, bind, ret.
    rewrite !(countOffers_period_eq offersSell _ _ _ sell Hs).
    rewrite (query_eq _ _ sell) by (assumption || reflexivity).
    cbn [fst snd]. unfold finish, SQLITE_OK. rewrite finishTableOperation_ok.
    do 3 eexists. do 3 (split; [reflexivity |]). split; [reflexivity |].
    rewrite !uint64_length_filter by assumption. apply Hsplit.
  - unfold countOffersBuy_period, countOffersBuy, countOffers_all, bind, ret.
    rewrite !(countOffers_period_eq offersBuy _ _ _ buy Hb).
    rewrite (query_eq _ _ buy) by (assumption || reflexivity).
    cbn [fst snd]. unfold finish, SQLITE_OK. rewrite finishTableOperation_ok.
    do 3 eexists. do 3 (split; [reflexivity |]). split; [reflexivity |].
    rewrite !uint64_length_filter by assumption. apply Hsplit.
Qed.

Lemma count_before_after_all_witness :
  let s := sample_store [bindOfferData (sample_offer 1 50 10);
                         bindOfferData (sample_offer 2 50 30)] [] [] in
  (exists b a n,
     fst (countOffersSell_period Before 20 s) = Return b /\
     fst (countOffersSell_period After 20 s) = Return a /\
     fst (countOffersSell_period All 20 s) = Return n /\
     fst (countOffersSell s) = Return n /\
     b + a = n) /\
  (exists b a n,
     fst (countOffersBuy_period Before 20 s) = Return b /\
     fst (countOffersBuy_period After 20 s) = Return a /\
     fst (countOffersBuy_period All 20 s) = Return n /\
     fst (countOffersBuy s) = Return n /\
     b + a = n).
Proof.
  apply (count_before_after_all 20
           (sample_store [bindOfferData (sample_offer 1 50 10);
                          bindOfferData (sample_offer 2 50 30)] [] [])
           [bindOfferData (sample_offer 1 50 10); bindOfferData (sample_offer 2 50 30)]
           []); try reflexivity; cbn; lia.
Defined.

(** X6.  A page is a slice of the whole listing: with a positive limit
    [getOffers] skips the offset, if positive, and takes at most [limit]
    of the records the call without a limit returns. *)
Theorem getOffers_page_is_slice (tableName : TableName) (countryIso currencyIso : string)
    (payment limit offset : Z) (s : DexDB) (rows : list Row) :
  get_table tableName (db s) = Some rows ->
  0 < limit ->
  exists all,
    fst (getOffers tableName countryIso currencyIso payment 0 0 s) = Return all /\
    fst (getOffers tableName countryIso currencyIso payment limit offset s)
    = Return (firstn (Z.to_nat limit) (skipn (Z.to_nat offset) all)).
Proof.
  intros Ht Hl. rewrite !(getOffers_eq _ _ _ _ _ _ _ rows Ht).
  eexists. split; [reflexivity |]. cbn [fst]. f_equal.
  unfold select, limit_offset. cbn [q_where q_limit].
  destruct (Z.ltb_spec 0 limit) as [_ | H]; [| lia]. cbn [Z.ltb Z.compare].
  destruct (Z.ltb_spec 0 offset) as [Ho | Ho].
  - now rewrite <- List.firstn_map, <- List.skipn_map.
  - replace (Z.to_nat offset) with 0%nat by lia. cbn [skipn].
    now rewrite <- List.firstn_map.
Qed.

Lemma getOffers_page_is_slice_witness :
  let s := sample_store [bindOfferData (sample_offer 1 50 10);
                         bindOfferData (sample_offer 2 50 30)] [] [] in
  exists all,
    fst (getOffers offersSell "RU" "" 0 0 0 s) = Return all /\
    fst (getOffers offersSell "RU" "" 0 1 1 s)
    = Return (firstn (Z.to_nat 1) (skipn (Z.to_nat 1) all)).
Proof.
  apply (getOffers_page_is_slice offersSell "RU" "" 0 1 1
           (sample_store [bindOfferData (sample_offer 1 50 10);
                          bindOfferData (sample_offer 2 50 30)] [] [])
           [bindOfferData (sample_offer 1 50 10); bindOfferData (sample_offer 2 50 30)]).
  - reflexivity.
  - lia.
Defined.

Lemma In_firstn {A} (x : A) n : forall l, In x (firstn n l) -> In x l.
Proof.
  induction n as [| n IH]; intros [| y l] H; cbn in H; try contradiction.
  destruct H as [-> | H]; [now left | right; now apply IH].
Qed.

Lemma In_skipn {A} (x : A) n : forall l, In x (skipn n l) -> In x l.
Proof.
  induction n as [| n IH]; intros [| y l] H; cbn in H; try contradiction;
    [exact H | right; now apply IH].
Qed.

Lemma In_select q rows x :
  In x (select q rows) -> In x rows /\ where_holds (q_where q) x = true.
Proof.
  unfold select. intros H. apply List.filter_In.
  destruct (q_limit q) as [[n [m |]] |]; [| | exact H].
  - now apply In_firstn, In_skipn in H.
  - now apply In_firstn in H.
Qed.

(** ** The latest modification *)

Lemma fold_left_max_attained l : forall a,
  fold_left Z.max l a = a \/ In (fold_left Z.max l a) l.
Proof.
  induction l as [| x l IH]; intros a; [now left |]. cbn.
  destruct (IH (Z.max a x)) as [E | H]; [| now right; right].
  rewrite E. destruct (Z.max_spec a x) as [[_ ->] | [_ ->]]; [right; now left | now left].
Qed.

(** X7.  [lastModificationOffers] returns the latest modification time of the
    offers [getOffers] lists: none is later, one has that time, and an
    empty table gives 0. *)
Theorem lastModificationOffers_is_latest (tableName : TableName) (s : DexDB)
    (rows : list Row) :
  get_table tableName (db s) = Some rows ->
  Forall (fun r => 0 <= col_timeModification r < 2 ^ 63) rows ->
  exists t offers,
    fst (lastModificationOffers tableName s) = Return (t, 0) /\
    fst (getOffers_all tableName s) = Return offers /\
    Forall (fun o => timeModification o <= t) offers /\
    (offers = [] -> t = 0) /\
    (offers <> [] -> exists o, In o offers /\ timeModification o = t).
Proof.
  intros Ht Hr. unfold lastModificationOffers, bind, ret.
  rewrite (query_eq _ _ rows) by (assumption || reflexivity).
  rewrite (getOffers_all_eq _ _ rows Ht).
  unfold select. cbn [q_where q_limit fst]. rewrite filter_where_nil.
  eexists. eexists. split; [reflexivity |]. split; [reflexivity |].
  assert (Hcol : forall r, In r rows ->
            timeModification (getOffer r) = col_timeModification r).
  { intros r Hin. rewrite List.Forall_forall in Hr. specialize (Hr r Hin).
    unfold getOffer; cbn_fields. apply uint64_small. unfold Int.is_uint64. lia. }
  destruct rows as [| r rows].
  { split; [constructor |]. split; [reflexivity | intros H; now contradiction H]. }
  assert (Hmax : In (max_timeModification (r :: rows))
                    (map col_timeModification (r :: rows)) /\
                 forall x, In x (r :: rows) ->
                   col_timeModification x <= max_timeModification (r :: rows)).
  { cbn [max_timeModification map]. split.
    - destruct (fold_left_max_attained (map col_timeModification rows)
                  (col_timeModification r)) as [E | H]; [left; now rewrite E | now right].
    - intros x [<- | Hx]; [apply fold_left_max_ge |].
      apply fold_left_max_In. now apply in_map. }
  destruct Hmax as [Hin Hge].
  apply in_map_iff in Hin. destruct Hin as (x & Ex & Hx).
  assert (Hm : Int.to_uint64 (max_timeModification (r :: rows))
               = max_timeModification (r :: rows)).
  { rewrite List.Forall_forall in Hr. specialize (Hr x Hx).
    apply uint64_small. unfold Int.is_uint64. lia. }
  rewrite Hm. split; [| split].
  - apply List.Forall_forall. intros o Ho. apply in_map_iff in Ho.
    destruct Ho as (y & <- & Hy). rewrite Hcol by assumption. now apply Hge.
  - discriminate.
  - intros _. exists (getOffer x). split; [now apply in_map |].
    rewrite Hcol by assumption. exact Ex.
Qed.

Lemma lastModificationOffers_is_latest_witness :
  let s := sample_store [bindOfferData (sample_offer 1 50 10);
                         bindOfferData (sample_offer 2 50 30)] [] [] in
  exists t offers,
    fst (lastModificationOffers offersSell s) = Return (t, 0) /\
    fst (getOffers_all offersSell s) = Return offers /\
    Forall (fun o => timeModification o <= t) offers /\
    (offers = [] -> t = 0) /\
    (offers <> [] -> exists o, In o offers /\ timeModification o = t).
Proof.
  apply (lastModificationOffers_is_latest offersSell
           (sample_store [bindOfferData (sample_offer 1 50 10);
                          bindOfferData (sample_offer 2 50 30)] [] [])
           [bindOfferData (sample_offer 1 50 10); bindOfferData (sample_offer 2 50 30)]).
  - reflexivity.
  - repeat constructor; vm_compute; congruence.
Defined.

(** ** Local offers *)

Lemma getMyOfferByHash_eq h s rows :
  t_myOffers (db s) = Some rows ->
  getMyOfferByHash h s
  = (Return (getMyOffer (hd null_row
               (List.filter (where_holds [hash_eq (Uint256.GetHex h)]) rows))),
     with_delivered (fun d => d ++ fanout (callBack s) MyOffers Read Ok) s).
Proof.
  intros Ht. unfold getMyOfferByHash, bind, ret.
  rewrite (query_eq _ _ rows) by (assumption || reflexivity).
  unfold finish, SQLITE_OK. rewrite finishTableOperation_ok. reflexivity.
Qed.

(** X8.  A valid local offer added under a new hash is read back as it was
    given, type and status included, and [isExistMyOfferByHash] finds it. *)
Theorem addMyOffer_then_getMyOfferByHash (m : MyOfferInfo) (s : DexDB)
    (rows : list Row) :
  valid_my_offer m ->
  t_myOffers (db s) = Some rows ->
  absent (Uint256.GetHex (hash (getOfferInfo m))) rows ->
  exists s1 s2,
    addMyOffer m s = (Return tt, s1) /\
    getMyOfferByHash (hash (getOfferInfo m)) s1 = (Return m, s2) /\
    fst (isExistMyOfferByHash (hash (getOfferInfo m)) s1) = Return true.
Proof.
  intros Hv Ht Ha.
  rewrite (addMyOffer_eq _ _ rows Ht), existsb_hash_absent by assumption.
  eexists. eexists. split; [reflexivity |].
  fold (bindMyOfferData m).
  assert (Hf : List.filter (where_holds [hash_eq (Uint256.GetHex (hash (getOfferInfo m)))])
                 (rows ++ [bindMyOfferData m]) = [bindMyOfferData m]).
  { rewrite List.filter_app, filter_hash_absent by assumption.
    cbn [List.filter app]. rewrite where_hash_eq.
    change (col_hash (bindMyOfferData m)) with (Uint256.GetHex (hash (getOfferInfo m))).
    now rewrite String.eqb_refl. }
  split.
  - erewrite getMyOfferByHash_eq by reflexivity.
    rewrite Hf. cbn [hd]. now rewrite getMyOffer_bindMyOfferData.
  - unfold isExistMyOfferByHash, bind, ret.
    erewrite query_eq by reflexivity.
    unfold finish, SQLITE_OK. rewrite finishTableOperation_ok.
    unfold select. cbn [q_where q_limit fst]. rewrite Hf. reflexivity.
Qed.

Lemma addMyOffer_then_getMyOfferByHash_witness :
  exists s1 s2,
    addMyOffer sample_my_offer (sample_store [] [] []) = (Return tt, s1) /\
    getMyOfferByHash (hash (getOfferInfo sample_my_offer)) s1
    = (Return sample_my_offer, s2) /\
    fst (isExistMyOfferByHash (hash (getOfferInfo sample_my_offer)) s1) = Return true.
Proof.
  apply (addMyOffer_then_getMyOfferByHash sample_my_offer (sample_store [] [] []) []).
  - unfold valid_my_offer, valid_offer, is_int32, Uint256.valid, Int.is_uint8,
      Int.is_uint64, Int.is_uint32.
    cbn. lia.
  - reflexivity.
  - intros x [].
Defined.

Lemma editMyOffer_eq offer s rows :
  t_myOffers (db s) = Some rows ->
  editMyOffer offer s
  = (Return tt,
     with_delivered (fun d => d ++ fanout (callBack s) MyOffers Edit Ok)
       (with_db (set_table myOffers (Some
          (map (fun x =>
                  if String.eqb (col_hash x) (Uint256.GetHex (hash (getOfferInfo offer)))
                  then assign set_myOffer (bindMyOfferData offer) x else x) rows))) s)).
Proof.
  intros Ht. unfold editMyOffer, addOrEditMyOffer, bind.
  rewrite (execute_step _ _ _ rows) by (assumption || reflexivity).
  cbn [step fst snd cmd_table Cond_holds].
  unfold SQLITE_OK. rewrite finishTableOperation_ok. reflexivity.
Qed.

Lemma getMyOffer_assign_set_myOffer m m' :
  valid_my_offer m -> valid_my_offer m' ->
  hash (getOfferInfo m') = hash (getOfferInfo m) ->
  getMyOffer (assign set_myOffer (bindMyOfferData m') (bindMyOfferData m))
  = {| getOfferInfo := set_pubKey (pubKey (getOfferInfo m)) (getOfferInfo m');
       type := type m'; status := status m' |}.
Proof.
  destruct m as [o t st], m' as [o' t' st']. destruct o, o'.
  unfold valid_my_offer, valid_offer, getMyOffer, getOffer, bindMyOfferData,
    bind_type_status, bindOfferData, set_pubKey, assign; cbn_fields.
  intros ((_ & Hh0 & _) & _)
         ((Hid & Hh & Hp & Hpr & Hmin & Htc & Hte & Htm & Hev) & Ht & Hst) Heq.
  cbn [default from_option].
  rewrite !SetHex_GetHex, !uint64_via_int64, int32_idem, uint32_via_int32, uint8_small,
    !int32_small by assumption.
  now rewrite Heq.
Qed.

(** X9.  An edit of a local offer replaces every field but hash and pubKey:
    after [addMyOffer] of [m] and [editMyOffer] of [m'] with the same
    hash the offer read back is [m'] with the pubKey of [m]. *)
Theorem editMyOffer_keeps_pubKey (m m' : MyOfferInfo) (s : DexDB) (rows : list Row) :
  valid_my_offer m -> valid_my_offer m' ->
  hash (getOfferInfo m') = hash (getOfferInfo m) ->
  t_myOffers (db s) = Some rows ->
  absent (Uint256.GetHex (hash (getOfferInfo m))) rows ->
  exists s1 s2 s3,
    addMyOffer m s = (Return tt, s1) /\
    editMyOffer m' s1 = (Return tt, s2) /\
    getMyOfferByHash (hash (getOfferInfo m)) s2
    = (Return {| getOfferInfo := set_pubKey (pubKey (getOfferInfo m)) (getOfferInfo m');
                 type := type m'; status := status m' |}, s3).
Proof.
  intros Hv Hv' Hh Ht Ha.
  rewrite (addMyOffer_eq _ _ rows Ht), existsb_hash_absent by assumption.
  eexists. eexists. eexists. split; [reflexivity |].
  fold (bindMyOfferData m).
  erewrite editMyOffer_eq by reflexivity.
  split; [reflexivity |].
  erewrite getMyOfferByHash_eq by reflexivity.
  rewrite Hh, map_app, map_hash_absent by assumption.
  rewrite List.filter_app, filter_hash_absent by assumption.
  cbn [map List.filter app].
  change (col_hash (bindMyOfferData m)) with (Uint256.GetHex (hash (getOfferInfo m))).
  rewrite String.eqb_refl, where_hash_eq.
  change (col_hash (assign set_myOffer (bindMyOfferData m') (bindMyOfferData m)))
    with (Uint256.GetHex (hash (getOfferInfo m))).
  rewrite String.eqb_refl. cbn [hd].
  now rewrite getMyOffer_assign_set_myOffer.
Qed.

Lemma editMyOffer_keeps_pubKey_witness :
  let m' := {| getOfferInfo := set_pubKey "other" (sample_offer 255 60 20);
               type := 0; status := 3 |} in
  exists s1 s2 s3,
    addMyOffer sample_my_offer (sample_store [] [] []) = (Return tt, s1) /\
    editMyOffer m' s1 = (Return tt, s2) /\
    getMyOfferByHash (hash (getOfferInfo sample_my_offer)) s2
    = (Return {| getOfferInfo :=
                   set_pubKey (pubKey (getOfferInfo sample_my_offer)) (getOfferInfo m');
                 type := type m'; status := status m' |}, s3).
Proof.
  apply (editMyOffer_keeps_pubKey sample_my_offer
           {| getOfferInfo := set_pubKey "other" (sample_offer 255 60 20);
              type := 0; status := 3 |}
           (sample_store [] [] []) []).
  - unfold valid_my_offer, valid_offer, is_int32, Uint256.valid, Int.is_uint8,
      Int.is_uint64, Int.is_uint32.
    cbn. lia.
  - unfold valid_my_offer, valid_offer, is_int32, Uint256.valid, Int.is_uint8,
      Int.is_uint64, Int.is_uint32.
    cbn. lia.
  - reflexivity.
  - reflexivity.
  - intros x [].
Defined.





(** ** Observers *)

Lemma addCallBack_eq cb s :
  addCallBack cb s
  = (Return tt, with_callBack (fun m => <[cb := default 0 (m !! cb) + 1]> m) s).
Proof. reflexivity. Qed.










Lemma observers_spec (m : gmap N Z) :
  List.NoDup (observers m) /\
  (forall cb, In cb (observers m) <-> is_Some (m !! cb)) /\
  Sorted N.le (observers m).
Proof.
  unfold observers.
  assert (Hperm : merge_sort N.le (map_to_list m).*1 ≡ₚ (map_to_list m).*1)
    by apply merge_sort_Permutation.
  split; [| split].
  - apply NoDup_ListNoDup. rewrite Hperm. apply NoDup_fst_map_to_list.
  - intros cb. rewrite <- list_elem_of_In, Hperm, list_elem_of_fmap. split.
    + intros [[k v] [-> H]]. apply elem_of_map_to_list in H. cbn. eauto.
    + intros [v H]. exists (cb, v). split; [reflexivity |].
      now apply elem_of_map_to_list.
  - apply Sorted_merge_sort. intros x y. lia.
Qed.

(** X12.  On status 0 [finishTableOperation] notifies each registered observer
    that is not null once, however often it was registered, with the
    table and the operation it was given and the status Ok. *)
Theorem finishTableOperation_notifies_each_once (tables : TypeTable)
    (operation : TypeTableOperation) (s : DexDB) :
  exists events,
    finishTableOperation tables operation 0 s
    = (Return tt, with_delivered (fun d => d ++ events) s) /\
    List.NoDup (map ev_observer events) /\
    (forall cb, In cb (map ev_observer events)
                <-> cb <> nullptr /\ is_Some (callBack s !! cb)) /\
    Forall (fun e => ev_table e = tables /\ ev_operation e = operation /\
                     ev_status e = Ok) events.
Proof.
  rewrite finishTableOperation_ok. eexists. split; [reflexivity |].
  destruct (observers_spec (callBack s)) as (Hnd & Hin & _).
  unfold fanout. rewrite map_map. cbn [ev_observer]. rewrite map_id.
  split; [| split].
  - now apply List.NoDup_filter.
  - intros cb. rewrite List.filter_In, Hin, negb_true_iff, N.eqb_neq. tauto.
  - apply List.Forall_forall. intros e He. apply in_map_iff in He.
    destruct He as (cb & <- & _). repeat split.
Qed.

(** ** The filter list *)

Lemma existsb_eqb_In (x : string) l :
  existsb (fun y => String.eqb y x) l = true <-> In x l.
Proof.
  rewrite existsb_exists. split.
  - intros (y & Hy & E). apply String.eqb_eq in E. now subst.
  - intros H. exists x. split; [assumption | apply String.eqb_refl].
Qed.

Lemma getFilters_eq s rows :
  t_filterList (db s) = Some rows ->
  getFilters s
  = (Return rows, with_delivered (fun d => d ++ fanout (callBack s) FiltersList Read Ok) s).
Proof.
  intros Ht. unfold getFilters, bind, gets, ret. rewrite Ht.
  unfold finish, SQLITE_OK. rewrite finishTableOperation_ok. reflexivity.
Qed.

(** X13.  [addFilter] refuses a filter the list holds already, with the
    constraint error and no change; a new filter is added, and
    [getFilters] then returns it with the old ones. *)
Theorem addFilter_then_getFilters (filter : string) (s : DexDB) (rows : list string) :
  t_filterList (db s) = Some rows ->
  (In filter rows ->
   addFilter filter s = (Throw (DexDBException SQLITE_CONSTRAINT), s)) /\
  (~ In filter rows ->
   exists s1 filters,
     addFilter filter s = (Return tt, s1) /\
     fst (getFilters s1) = Return filters /\
     (forall f, In f filters <-> f = filter \/ In f rows) /\
     length filters = S (length rows)).
Proof.
  intros Ht. unfold addFilter, bind, gets. rewrite Ht. cbn [insert_rows].
  destruct (existsb (fun x => String.eqb x filter) rows) eqn:E.
  - split; [| intros H; apply existsb_eqb_In in E; contradiction].
    intros _. unfold ret.
    now rewrite finishTableOperation_throw by (unfold SQLITE_CONSTRAINT; lia).
  - split; [intros H; apply existsb_eqb_In in H; congruence |].
    intros _. unfold modify, ret, SQLITE_OK. rewrite finishTableOperation_ok.
    eexists. eexists. split; [reflexivity |].
    erewrite getFilters_eq by reflexivity. split; [reflexivity |]. split.
    + intros f. rewrite in_app_iff. cbn. intuition congruence.
    + rewrite length_app. cbn. lia.
Qed.

Lemma addFilter_then_getFilters_witness :
  let s := sample_store [] [] [] in
  (In "scam"%string [] ->
   addFilter "scam" s = (Throw (DexDBException SQLITE_CONSTRAINT), s)) /\
  (~ In "scam"%string [] ->
   exists s1 filters,
     addFilter "scam" s = (Return tt, s1) /\
     fst (getFilters s1) = Return filters /\
     (forall f, In f filters <-> f = "scam"%string \/ In f []) /\
     length filters = S (length (@nil string))).
Proof.
  apply (addFilter_then_getFilters "scam" (sample_store [] [] []) []).
  reflexivity.
Defined.



(** ** Reference data and its cache *)

(** X15.  The cache is written before the table: [addCurrency] of a code the
    table holds already throws and leaves the table as it was, and
    [getCurrenciesInfo] then returns the refused currency all the same. *)
Theorem addCurrency_refused_stays_cached (iso name symbol : string) (enabled : bool)
    (sortOrder : Z) (s : DexDB) (rows : list CurrencyRow) :
  t_currencies (db s) = Some rows ->
  In iso (map currencies_iso rows) ->
  isGetCurrenciesDataFromDB s = false ->
  exists s1 s2,
    addCurrency iso name symbol enabled sortOrder s
    = (Throw (DexDBException SQLITE_CONSTRAINT), s1) /\
    db s1 = db s /\
    delivered s1 = delivered s /\
    getCurrenciesInfo s1
    = (Return (currencies s ++ [{| currency_iso := iso; currency_name := name;
                                   currency_symbol := symbol;
                                   currency_enabled := enabled |}]), s2).
Proof.
  intros Ht Hin Hflag. unfold addCurrency, bind, modify, gets.
  cbn [db with_currencies]. rewrite Ht. cbn [insert_rows].
  set (row := {| currencies_id := next_id rows; currencies_iso := iso;
                 currencies_name := name; currencies_symbol := symbol;
                 currencies_enabled := enabled; currencies_sortOrder := sortOrder |}).
  assert (E : existsb (conflict_CurrencyRow row) rows = true).
  { apply in_map_iff in Hin. destruct Hin as (x & Ex & Hx).
    apply existsb_exists. exists x. split; [assumption |].
    unfold conflict_CurrencyRow. cbn. rewrite Ex, String.eqb_refl. apply orb_true_r. }
  rewrite E. unfold ret.
  rewrite finishTableOperation_throw by (unfold SQLITE_CONSTRAINT; lia).
  eexists. eexists. split; [reflexivity |]. split; [reflexivity |].
  split; [reflexivity |].
  unfold getCurrenciesInfo, bind, gets, ret.
  cbn [isGetCurrenciesDataFromDB with_currencies]. rewrite Hflag. reflexivity.
Qed.

Lemma addCurrency_refused_stays_cached_witness :
  let s := with_isGetCurrenciesDataFromDB false legacy_store in
  exists s1 s2,
    addCurrency "RUB" "Rouble" "r" true 5 s
    = (Throw (DexDBException SQLITE_CONSTRAINT), s1) /\
    db s1 = db s /\
    delivered s1 = delivered s /\
    getCurrenciesInfo s1
    = (Return (currencies s ++ [{| currency_iso := "RUB"; currency_name := "Rouble";
                                   currency_symbol := "r";
                                   currency_enabled := true |}]), s2).
Proof.
  apply (addCurrency_refused_stays_cached "RUB" "Rouble" "r" true 5
           (with_isGetCurrenciesDataFromDB false legacy_store) legacy_currencies).
  - reflexivity.
  - cbn. now left.
  - reflexivity.
Defined.

Lemma filter_none {A} (f : A -> bool) l :
  (forall x, In x l -> f x = false) -> List.filter f l = [].
Proof.
  induction l as [| x l IH]; intros H; [reflexivity |]. cbn.
  rewrite (H x) by now left. apply IH. intros y Hy. apply H. now right.
Qed.

(** X16.  [addCountry] with a currency the currencies table does not hold
    returns normally and notifies the addition, the cache gets the
    country, and no row is stored. *)
Theorem addCountry_unknown_currency (iso name currency : string) (enabled : bool)
    (sortOrder : Z) (s : DexDB) (rows : list CountryRow) (cur : list CurrencyRow) :
  t_countries (db s) = Some rows ->
  t_currencies (db s) = Some cur ->
  ~ In currency (map currencies_iso cur) ->
  exists s1,
    addCountry iso name currency enabled sortOrder s = (Return tt, s1) /\
    db s1 = db s /\
    countries s1 = countries s ++ [{| country_iso := iso; country_name := name;
                                      country_enabled := enabled |}] /\
    delivered s1 = delivered s ++ fanout (callBack s) Countries Add Ok.
Proof.
  intros Ht Hc Hn. unfold addCountry, bind, modify, gets.
  cbn [db with_countries]. rewrite Ht, Hc.
  rewrite filter_none.
  2:{ intros x Hx. apply String.eqb_neq. intros E. apply Hn.
      rewrite <- E. now apply in_map. }
  cbn [map insert_rows]. unfold ret, SQLITE_OK. rewrite finishTableOperation_ok.
  eexists. split; [reflexivity |]. split; [| split; reflexivity].
  cbn [db with_delivered with_db with_countries]. rewrite <- Ht. apply set_countries_same.
Qed.

Lemma addCountry_unknown_currency_witness :
  exists s1,
    addCountry "DE" "Germany" "EUR" true 3 legacy_store = (Return tt, s1) /\
    db s1 = db legacy_store /\
    countries s1 = countries legacy_store
                   ++ [{| country_iso := "DE"; country_name := "Germany";
                          country_enabled := true |}] /\
    delivered s1 = delivered legacy_store
                   ++ fanout (callBack legacy_store) Countries Add Ok.
Proof.
  apply (addCountry_unknown_currency "DE" "Germany" "EUR" true 3 legacy_store
           legacy_countries legacy_currencies).
  - reflexivity.
  - reflexivity.
  - cbn. intros [H | []]. discriminate.
Defined.

Lemma insert_sorted_Sorted {A} (key : A -> Z) x l :
  Sorted (fun a b => key a <= key b) l ->
  Sorted (fun a b => key a <= key b) (insert_sorted (fun a b => key a <? key b) x l).
Proof.
  induction l as [| y l IH]; intros Hs; cbn.
  - repeat constructor.
  - inversion Hs as [| ? ? Hs' Hhd]; subst.
    destruct (Z.ltb_spec (key y) (key x)) as [Hlt | Hge].
    + constructor; [now apply IH |].
      destruct l as [| z l]; cbn.
      * constructor. lia.
      * inversion Hhd; subst. destruct (Z.ltb_spec (key z) (key x)); constructor; lia.
    + constructor; [assumption |]. constructor. lia.
Qed.

Lemma list_sort_Sorted {A} (key : A -> Z) l :
  Sorted (fun a b => key a <= key b) (list_sort (fun a b => key a <? key b) l).
Proof.
  induction l as [| x l IH]; cbn; [constructor |].
  now apply insert_sorted_Sorted.
Qed.

(** X17.  The first [getCountriesInfo] reads the table, in the order of
    sortOrder, into the cache; the later calls answer from the cache
    alone, whatever the file holds by then. *)
Theorem getCountriesInfo_loads_once (s : DexDB) (rows : list CountryRow) :
  t_countries (db s) = Some rows ->
  isGetCountriesDataFromDB s = true ->
  exists sorted s1,
    getCountriesInfo s = (Return (countries s ++ map CountryInfo_of sorted), s1) /\
    Permutation sorted rows /\
    Sorted (fun a b => countries_sortOrder a <= countries_sortOrder b) sorted /\
    db s1 = db s /\
    delivered s1 = delivered s ++ fanout (callBack s) Countries Read Ok /\
    forall d',
      getCountriesInfo (with_db (fun _ => d') s1)
      = (Return (countries s ++ map CountryInfo_of sorted), with_db (fun _ => d') s1).
Proof.
  intros Ht Hflag. unfold getCountriesInfo at 1. unfold bind, gets, modify.
  rewrite Hflag, Ht. cbn [callBack with_countries with_isGetCountriesDataFromDB].
  unfold finish, SQLITE_OK. rewrite finishTableOperation_ok.
  eexists. eexists. split; [reflexivity |].
  split; [apply list_sort_perm |]. split; [apply list_sort_Sorted |].
  split; [reflexivity |]. split; [reflexivity |].
  intros d'. reflexivity.
Qed.

Lemma getCountriesInfo_loads_once_witness :
  exists sorted s1,
    getCountriesInfo legacy_store
    = (Return (countries legacy_store ++ map CountryInfo_of sorted), s1) /\
    Permutation sorted legacy_countries /\
    Sorted (fun a b => countries_sortOrder a <= countries_sortOrder b) sorted /\
    db s1 = db legacy_store /\
    delivered s1 = delivered legacy_store
                   ++ fanout (callBack legacy_store) Countries Read Ok /\
    forall d',
      getCountriesInfo (with_db (fun _ => d') s1)
      = (Return (countries legacy_store ++ map CountryInfo_of sorted),
         with_db (fun _ => d') s1).
Proof.
  apply (getCountriesInfo_loads_once legacy_store legacy_countries); reflexivity.
Defined.

Lemma filter_idem {A} (f : A -> bool) l : List.filter f (List.filter f l) = List.filter f l.
Proof.
  rewrite filter_filter. apply List.filter_ext. intros x. now destruct (f x).
Qed.

(** X18.  [deleteCountry] removes the rows and the cached entries with the
    code, keeps the others, and changes nothing when repeated. *)
Theorem deleteCountry_removes (iso : string) (s : DexDB) (rows : list CountryRow) :
  t_countries (db s) = Some rows ->
  exists s1 rows1,
    deleteCountry iso s = (Return tt, s1) /\
    t_countries (db s1) = Some rows1 /\
    (forall r, In r rows1 <-> In r rows /\ countries_iso r <> iso) /\
    (forall c, In c (countries s1) <-> In c (countries s) /\ country_iso c <> iso) /\
    exists s2,
      deleteCountry iso s1 = (Return tt, s2) /\
      db s2 = db s1 /\ countries s2 = countries s1.
Proof.
  intros Ht. unfold deleteCountry at 1. unfold bind, gets, modify.
  cbn [db with_countries]. rewrite Ht.
  unfold SQLITE_OK. rewrite finishTableOperation_ok.
  eexists. eexists. split; [reflexivity |]. split; [reflexivity |].
  split; [| split].
  - intros r. rewrite List.filter_In, negb_true_iff, String.eqb_neq. tauto.
  - intros c. cbn [countries with_delivered with_db with_countries].
    rewrite List.filter_In, negb_true_iff, String.eqb_neq. tauto.
  - unfold deleteCountry, bind, gets, modify.
    cbn [db with_countries with_delivered with_db countries t_countries set_countries].
    rewrite finishTableOperation_ok.
    eexists. split; [reflexivity |].
    cbn [db with_countries with_delivered with_db countries].
    rewrite !filter_idem. split; [| reflexivity].
    now rewrite set_countries_twice.
Qed.

Lemma deleteCountry_removes_witness :
  exists s1 rows1,
    deleteCountry "RU" legacy_store = (Return tt, s1) /\
    t_countries (db s1) = Some rows1 /\
    (forall r, In r rows1 <-> In r legacy_countries /\ countries_iso r <> "RU"%string) /\
    (forall c, In c (countries s1)
               <-> In c (countries legacy_store) /\ country_iso c <> "RU"%string) /\
    exists s2,
      deleteCountry "RU" s1 = (Return tt, s2) /\
      db s2 = db s1 /\ countries s2 = countries s1.
Proof.
  apply (deleteCountry_removes "RU" legacy_store legacy_countries). reflexivity.
Defined.

(** ** What a computation leaves alone *)

Lemma preserves_ret {A B} (f : DexDB -> A) (b : B) : preserves f (ret b).
Proof. intros s. reflexivity. Qed.

Lemma preserves_throw {A B} (f : DexDB -> A) e : preserves f (@throw B e).
Proof. intros s. reflexivity. Qed.

Lemma preserves_gets {A B} (f : DexDB -> A) (g : DexDB -> B) : preserves f (gets g).
Proof. intros s. reflexivity. Qed.

Lemma preserves_modify {A} (f : DexDB -> A) g :
  (forall s, f (g s) = f s) -> preserves f (modify g).
Proof. intros H s. apply H. Qed.

Lemma preserves_bind {A B C} (f : DexDB -> A) (m : M B) (k : B -> M C) :
  preserves f m -> (forall b, preserves f (k b)) -> preserves f (bind m k).
Proof.
  intros Hm Hk s. unfold bind. specialize (Hm s).
  destruct (m s) as [[b | e] s1]; cbn [snd] in *; [| exact Hm].
  now rewrite Hk.
Qed.

Lemma preserves_for_each {A B} (f : DexDB -> A) (l : list B) body :
  (forall x, preserves f (body x)) -> preserves f (for_each l body).
Proof.
  intros H. induction l as [| x l IH]; cbn [for_each]; [apply preserves_ret |].
  apply preserves_bind; [apply H | intros _; exact IH].
Qed.

Lemma preserves_finishTableOperation {A} (f : DexDB -> A) tables operation status :
  (forall g s, f (with_delivered g s) = f s) ->
  preserves f (finishTableOperation tables operation status).
Proof.
  intros H s. destruct (Z.eq_dec status 0) as [-> | Hne].
  - rewrite finishTableOperation_ok. apply H.
  - now rewrite finishTableOperation_throw.
Qed.

Ltac preserves_step :=
  first
    [ apply preserves_ret | apply preserves_throw | apply preserves_gets
    | apply preserves_modify; intros ?; reflexivity
    | apply preserves_finishTableOperation; intros ? ?; reflexivity
    | apply preserves_for_each; intros ?
    | apply preserves_bind; [| intros ?]
    | match goal with
      | |- preserves _ (match ?x with _ => _ end) => destruct x
      end ].

Ltac preserves_tac := repeat preserves_step.

Lemma tableCount_preserves {A} (f : DexDB -> A) t : preserves f (tableCount t).
Proof. unfold tableCount. preserves_tac. Qed.

Lemma addDefaultData_keeps_bOffersRescan v dcur dcty dpay cmp1 cmp2 :
  preserves bOffersRescan (addDefaultData v dcur dcty dpay cmp1 cmp2).
Proof.
  unfold addDefaultData, addDbVersion, addCurrency, addCountry, addPaymentMethod, run.
  preserves_tac; apply tableCount_preserves.
Qed.

(** ** Construction *)

Lemma bind_inv {A B} (m : M A) (k : A -> M B) s r s' :
  bind m k s = (r, s') ->
  (exists e, m s = (Throw e, s') /\ r = Throw e) \/
  (exists a s1, m s = (Return a, s1) /\ k a s1 = (r, s')).
Proof.
  unfold bind. destruct (m s) as [[a | e] s1]; intros H.
  - right. now exists a, s1.
  - left. inversion H; subst. now exists e.
Qed.

Lemma bind_Return_inv {A B} (m : M A) (k : A -> M B) s b s' :
  bind m k s = (Return b, s') ->
  exists a s1, m s = (Return a, s1) /\ k a s1 = (Return b, s').
Proof.
  intros H. apply bind_inv in H. destruct H as [(e & _ & E) | H]; [discriminate | exact H].
Qed.

Lemma bind_modify {B} g (k : unit -> M B) s : bind (modify g) k s = k tt (g s).
Proof. reflexivity. Qed.

Lemma createTables_eq target s :
  exists d, createTables target s = (Return d, with_bOffersRescan true s).
Proof. unfold createTables, bind, modify, ret. eexists. reflexivity. Qed.

Lemma checkDexDbSchema_Return s s' :
  checkDexDbSchema s = (Return tt, s') -> s' = with_bOffersRescan true s.
Proof.
  unfold checkDexDbSchema. intros H. apply bind_Return_inv in H.
  destruct H as (d & s1 & E1 & H).
  destruct (createTables_eq memory_db s) as (d' & E'). rewrite E' in E1.
  inversion E1; subst. clear E1.
  unfold bind, gets in H.
  destruct (negb _); [discriminate |].
  destruct (bool_decide _); [| discriminate].
  now inversion H.
Qed.

Lemma after_createTables_keeps_bOffersRescan v dcur dcty dpay cmp1 cmp2 :
  preserves bOffersRescan
    (moveTablesData ;;;
     run createIndexes ;;;
     dropOldTables ;;;
     addDefaultData v dcur dcty dpay cmp1 cmp2).
Proof.
  apply preserves_bind; [unfold moveTablesData, run; preserves_tac | intros _].
  apply preserves_bind; [unfold run; preserves_tac | intros _].
  apply preserves_bind; [unfold dropOldTables, run; preserves_tac | intros _].
  apply addDefaultData_keeps_bOffersRescan.
Qed.

Lemma transaction_Return_inv {A} (body : M A) s a s' :
  transaction body s = (Return a, s') -> body s = (Return a, s').
Proof.
  unfold transaction. destruct (body s) as [[a' | e] s1]; intros H; [exact H | discriminate].
Qed.

Lemma transaction_Throw_inv {A} (body : M A) s e s' :
  transaction body s = (Throw e, s') -> db s' = db s.
Proof.
  unfold transaction. destruct (body s) as [[a' | e'] s1]; intros H; [discriminate |].
  now inversion H.
Qed.

(** X19.  Whenever the constructor returns, the flag bOffersRescan is set. *)
Theorem DexDB_ctor_sets_bOffersRescan
    (uiDexDBversionInCode : Z) (dataCurrencies : list DefaultCurrency)
    (dataCountries : list DefaultCountry)
    (dataPaymentMethods : list DefaultPaymentMethod)
    (cmp_name cmp_sortorder : DefaultCountry -> DefaultCountry -> bool)
    (s s' : DexDB) :
  DexDB_ctor uiDexDBversionInCode dataCurrencies dataCountries
    dataPaymentMethods cmp_name cmp_sortorder s = (Return tt, s') ->
  bOffersRescan s' = true.
Proof.
  unfold DexDB_ctor. rewrite !bind_modify. intros H.
  apply bind_Return_inv in H. destruct H as (empty & s1 & _ & H).
  apply bind_Return_inv in H. destruct H as (u1 & s2 & _ & H).
  apply bind_Return_inv in H. destruct H as (u2 & s3 & _ & H).
  apply bind_Return_inv in H. destruct H as (outdated & s4 & _ & H).
  destruct outdated.
  - apply transaction_Return_inv in H. rename H into E.
    do 3 (apply bind_Return_inv in E; destruct E as (? & ? & _ & E)).
    apply bind_Return_inv in E. destruct E as (u3 & s6 & Ec & E).
    assert (Hc : bOffersRescan s6 = true).
    { unfold bind, gets in Ec.
      match type of Ec with context [createTables ?d ?st] =>
        destruct (createTables_eq d st) as (d' & E'); rewrite E' in Ec end.
      inversion Ec. reflexivity. }
    pose proof (after_createTables_keeps_bOffersRescan uiDexDBversionInCode
                  dataCurrencies dataCountries dataPaymentMethods cmp_name
                  cmp_sortorder s6) as Hp.
    rewrite E in Hp. cbn [snd] in Hp. congruence.
  - apply checkDexDbSchema_Return in H. now subst.
Qed.

Lemma DexDB_ctor_sets_bOffersRescan_witness :
  bOffersRescan
    (snd (DexDB_ctor 1002 seed_currencies_sample seed_countries_sample
            seed_payments_sample cmp_name_sample cmp_sortorder_sample legacy_store))
  = true.
Proof.
  apply (DexDB_ctor_sets_bOffersRescan 1002 seed_currencies_sample
           seed_countries_sample seed_payments_sample cmp_name_sample
           cmp_sortorder_sample legacy_store).
  vm_compute. reflexivity.
Defined.

Lemma preserves_eq {A B} (f : DexDB -> A) (m : M B) s r s' :
  preserves f m -> m s = (r, s') -> f s' = f s.
Proof. intros H E. specialize (H s). now rewrite E in H. Qed.

Lemma checkDexDbIntegrity_reads : preserves db checkDexDbIntegrity.
Proof.
  unfold checkDexDbIntegrity. apply preserves_bind; [apply preserves_gets | intros d].
  destruct (negb _); [apply preserves_throw | apply preserves_ret].
Qed.

Lemma isDexDbOutdated_reads v : preserves db (isDexDbOutdated v).
Proof.
  unfold isDexDbOutdated. apply preserves_bind; [apply preserves_gets | intros d].
  destruct (t_dbversion d); [| apply preserves_throw].
  destruct (negb _); apply preserves_ret.
Qed.

Lemma checkDexDbSchema_reads : preserves db checkDexDbSchema.
Proof.
  unfold checkDexDbSchema, createTables.
  apply preserves_bind; [preserves_tac | intros d].
  apply preserves_bind; [apply preserves_gets | intros d'].
  destruct (negb _); [apply preserves_throw |].
  destruct (bool_decide _); [apply preserves_ret | apply preserves_throw].
Qed.

Lemma isDexDbEmpty_eq s :
  isDexDbEmpty s
  = (Return (Nat.eqb (length (List.filter (fun t => table_exists t (db s)) all_tables)
                      + length (indexes (db s))) 0), s).
Proof. reflexivity. Qed.

Lemma isDexDbEmpty_db s s0 b :
  db s0 = db s -> fst (isDexDbEmpty s) = Return b -> isDexDbEmpty s0 = (Return b, s0).
Proof.
  intros E H. rewrite isDexDbEmpty_eq in *. rewrite E. unfold fst in H. now rewrite H.
Qed.

(** X20.  A constructor that throws on a file that is not empty leaves the file
    as it was. *)
Theorem DexDB_ctor_failure_leaves_file
    (uiDexDBversionInCode : Z) (dataCurrencies : list DefaultCurrency)
    (dataCountries : list DefaultCountry)
    (dataPaymentMethods : list DefaultPaymentMethod)
    (cmp_name cmp_sortorder : DefaultCountry -> DefaultCountry -> bool)
    (s s' : DexDB) (e : Exception) :
  fst (isDexDbEmpty s) = Return false ->
  DexDB_ctor uiDexDBversionInCode dataCurrencies dataCountries
    dataPaymentMethods cmp_name cmp_sortorder s = (Throw e, s') ->
  db s' = db s.
Proof.
  intros Hne.
  unfold DexDB_ctor. rewrite !bind_modify.
  match goal with |- _ ?s0 = _ -> _ => set (st := s0) end.
  apply (isDexDbEmpty_db s st) in Hne; [| reflexivity].
  change (db s) with (db st). clearbody st. intros H.
  apply bind_inv in H. rewrite Hne in H.
  destruct H as [(e0 & E & _) | (empty & s1 & E & H)]; [discriminate |].
  inversion E; subst empty s1. clear E.
  apply bind_inv in H. destruct H as [(e0 & E & _) | (u & s1 & E & H)]; [discriminate |].
  inversion E; subst s1. clear E.
  apply bind_inv in H. destruct H as [(e0 & E & _) | (u1 & s1 & E & H)].
  { exact (preserves_eq _ _ _ _ _ checkDexDbIntegrity_reads E). }
  rewrite <- (preserves_eq _ _ _ _ _ checkDexDbIntegrity_reads E).
  apply bind_inv in H. destruct H as [(e0 & E' & _) | (outdated & s2 & E' & H)].
  { exact (preserves_eq _ _ _ _ _ (isDexDbOutdated_reads _) E'). }
  rewrite <- (preserves_eq _ _ _ _ _ (isDexDbOutdated_reads _) E').
  destruct outdated.
  - now apply transaction_Throw_inv in H.
  - exact (preserves_eq _ _ _ _ _ checkDexDbSchema_reads H).
Qed.

Lemma DexDB_ctor_failure_leaves_file_witness :
  db (snd (DexDB_ctor 1002 seed_currencies_sample seed_countries_sample
             seed_payments_sample cmp_name_sample cmp_sortorder_sample damaged_store))
  = db damaged_store.
Proof.
  apply (DexDB_ctor_failure_leaves_file 1002 seed_currencies_sample
           seed_countries_sample seed_payments_sample cmp_name_sample
           cmp_sortorder_sample damaged_store _
           (database_error "row 1 missing from index")).
  - vm_compute. reflexivity.
  - vm_compute. reflexivity.
Defined.

Lemma createTables_memory s :
  createTables memory_db s = (Return created_tables, with_bOffersRescan true s).
Proof. unfold createTables, created_tables, bind, modify, ret. reflexivity. Qed.

Lemma getDbSchema_ext d d' :
  (forall t, table_exists t d = table_exists t d') ->
  indexes d = indexes d' ->
  getDbSchema d = getDbSchema d'.
Proof.
  intros Ht Hi. unfold getDbSchema. rewrite Hi. f_equal. f_equal.
  apply List.filter_ext. exact Ht.
Qed.

Lemma checkDexDbSchema_eq s :
  checkDexDbSchema s
  = if bool_decide (getDbSchema (db s) = schema_in_code)
    then (Return tt, with_bOffersRescan true s)
    else (Throw (database_error "DEX db schema is incorrect"), with_bOffersRescan true s).
Proof.
  unfold checkDexDbSchema, bind. rewrite createTables_memory.
  unfold gets. cbn [db with_bOffersRescan].
  fold schema_in_code.
  destruct (bool_decide_reflect (getDbSchema (db s) = schema_in_code)) as [E | E].
  - rewrite E, Nat.eqb_refl. reflexivity.
  - now destruct (negb _).
Qed.

(** On a sound file at the version of the code the constructor comes
    down to the check of the schema. *)
Lemma ctor_on_current_file
    (uiDexDBversionInCode : Z) (dataCurrencies : list DefaultCurrency)
    (dataCountries : list DefaultCountry)
    (dataPaymentMethods : list DefaultPaymentMethod)
    (cmp_name cmp_sortorder : DefaultCountry -> DefaultCountry -> bool)
    (s : DexDB) (vs : list Z) :
  t_dbversion (db s) = Some vs ->
  Int.to_uint32 (Int.to_int32 (hd 0 vs)) = uiDexDBversionInCode ->
  integrity_check (db s) = "ok"%string ->
  DexDB_ctor uiDexDBversionInCode dataCurrencies dataCountries
    dataPaymentMethods cmp_name cmp_sortorder s
  = checkDexDbSchema
      (with_isGetPaymentsDataFromDB true
         (with_isGetCurrenciesDataFromDB true
            (with_isGetCountriesDataFromDB true
               (with_payments [] (with_currencies [] (with_countries [] s)))))).
Proof.
  intros Hvs Hver Hint.
  set (s0 := with_isGetPaymentsDataFromDB true
               (with_isGetCurrenciesDataFromDB true
                  (with_isGetCountriesDataFromDB true
                     (with_payments [] (with_currencies [] (with_countries [] s)))))).
  unfold DexDB_ctor.
  do 6 (eapply bind_step; [reflexivity |]).
  eapply bind_step; [apply (isDexDbEmpty_false s0 vs Hvs) |].
  eapply bind_step; [reflexivity |].
  eapply bind_step; [apply (checkDexDbIntegrity_ok s0 Hint) |].
  eapply bind_step; [apply (isDexDbOutdated_eq _ s0 vs Hvs) |].
  rewrite Hver, Z.eqb_refl. reflexivity.
Qed.

(** X21.  On a sound file at the version of the code the constructor writes
    nothing: it returns when the schema of the file is the one the code
    creates and throws the schema error when it is not. *)
Theorem open_current_file
    (uiDexDBversionInCode : Z) (dataCurrencies : list DefaultCurrency)
    (dataCountries : list DefaultCountry)
    (dataPaymentMethods : list DefaultPaymentMethod)
    (cmp_name cmp_sortorder : DefaultCountry -> DefaultCountry -> bool)
    (s : DexDB) (vs : list Z) :
  t_dbversion (db s) = Some vs ->
  Int.to_uint32 (Int.to_int32 (hd 0 vs)) = uiDexDBversionInCode ->
  integrity_check (db s) = "ok"%string ->
  exists s',
    db s' = db s /\
    (getDbSchema (db s) = schema_in_code ->
     DexDB_ctor uiDexDBversionInCode dataCurrencies dataCountries
       dataPaymentMethods cmp_name cmp_sortorder s = (Return tt, s')) /\
    (getDbSchema (db s) <> schema_in_code ->
     DexDB_ctor uiDexDBversionInCode dataCurrencies dataCountries
       dataPaymentMethods cmp_name cmp_sortorder s
     = (Throw (database_error "DEX db schema is incorrect"), s')).
Proof.
  intros Hvs Hver Hint.
  rewrite (ctor_on_current_file _ _ _ _ _ _ _ _ Hvs Hver Hint), checkDexDbSchema_eq.
  set (s0 := with_isGetPaymentsDataFromDB true
               (with_isGetCurrenciesDataFromDB true
                  (with_isGetCountriesDataFromDB true
                     (with_payments [] (with_currencies [] (with_countries [] s)))))).
  exists (with_bOffersRescan true s0). split; [reflexivity |].
  change (db s0) with (db s).
  split; intros E.
  - now rewrite bool_decide_eq_true_2.
  - now rewrite bool_decide_eq_false_2.
Qed.

Lemma open_current_file_witness :
  exists s',
    db s' = db (sample_store [] [] []) /\
    (getDbSchema (db (sample_store [] [] [])) = schema_in_code ->
     DexDB_ctor 1002 seed_currencies_sample seed_countries_sample
       seed_payments_sample cmp_name_sample cmp_sortorder_sample (sample_store [] [] [])
     = (Return tt, s')) /\
    (getDbSchema (db (sample_store [] [] [])) <> schema_in_code ->
     DexDB_ctor 1002 seed_currencies_sample seed_countries_sample
       seed_payments_sample cmp_name_sample cmp_sortorder_sample (sample_store [] [] [])
     = (Throw (database_error "DEX db schema is incorrect"), s')).
Proof.
  apply (open_current_file 1002 seed_currencies_sample seed_countries_sample
           seed_payments_sample cmp_name_sample cmp_sortorder_sample
           (sample_store [] [] []) [1002]); reflexivity.
Defined.

Lemma empty_file_memory d : empty_file d -> d = memory_db.
Proof.
  intros (Ht & Hi & Hc). destruct d. cbn in Hi, Hc. subst.
  pose proof (Ht T_dbversion) as H1. pose proof (Ht T_countries) as H2.
  pose proof (Ht T_currencies) as H3. pose proof (Ht T_paymentMethods) as H4.
  pose proof (Ht T_myOffers) as H5. pose proof (Ht T_offersSell) as H6.
  pose proof (Ht T_offersBuy) as H7. pose proof (Ht T_filterList) as H8.
  pose proof (Ht T_countries_old) as H9. pose proof (Ht T_currencies_old) as H10.
  pose proof (Ht T_paymentMethods_old) as H11. pose proof (Ht T_myOffers_old) as H12.
  pose proof (Ht T_offersSell_old) as H13. pose proof (Ht T_offersBuy_old) as H14.
  clear Ht. cbn in *.
  repeat match goal with
    | H : is_some ?o = false |- _ => destruct o; [discriminate H | clear H]
    end.
  reflexivity.
Qed.

Lemma createTables_at d s :
  d = memory_db ->
  createTables d s = (Return created_tables, with_bOffersRescan true s).
Proof. intros E. rewrite E. apply createTables_memory. Qed.

Lemma created_db_tables :
  let d := createIndexes created_tables in
  t_dbversion d = Some [] /\ t_currencies d = Some [] /\ t_countries d = Some [] /\
  t_paymentMethods d = Some [] /\ t_offersSell d = Some [] /\ t_offersBuy d = Some [] /\
  t_myOffers d = Some [] /\ t_filterList d = Some [] /\
  integrity_check d = "ok"%string.
Proof. vm_compute. repeat split. Qed.

Lemma schema_in_code_eq : getDbSchema (createIndexes created_tables) = schema_in_code.
Proof. reflexivity. Qed.

Lemma seeded_fields a b c e d :
  let d' := set_paymentMethods a (set_countries b (set_currencies c (set_dbversion e d))) in
  t_dbversion d' = e /\
  (t_offersSell d' = t_offersSell d /\ t_offersBuy d' = t_offersBuy d /\
   t_myOffers d' = t_myOffers d /\ t_filterList d' = t_filterList d) /\
  integrity_check d' = integrity_check d /\
  indexes d' = indexes d /\
  forall t, table_exists t d'
            = match t with
              | T_dbversion => is_some e
              | T_countries => is_some b
              | T_currencies => is_some c
              | T_paymentMethods => is_some a
              | _ => table_exists t d
              end.
Proof. destruct d. repeat split. intros t; destruct t; reflexivity. Qed.

Lemma addDefaultData_created v dcur dcty dpay cmp1 cmp2 s :
  db s = createIndexes created_tables ->
  seed_data_ok dcur dcty dpay ->
  exists sb,
    addDefaultData v dcur dcty dpay cmp1 cmp2 s = (Return tt, sb) /\
    t_dbversion (db sb) = Some [Int.to_int32 v] /\
    (t_offersSell (db sb) = Some [] /\ t_offersBuy (db sb) = Some [] /\
     t_myOffers (db sb) = Some [] /\ t_filterList (db sb) = Some []) /\
    integrity_check (db sb) = "ok"%string /\
    getDbSchema (db sb) = schema_in_code.
Proof.
  intros Hd (NDdc & NDdco & NDdp).
  pose proof created_db_tables as F. cbv zeta in F.
  pose proof schema_in_code_eq as HS.
  rewrite <- Hd in F, HS. clear Hd.
  destruct F as (F1 & F2 & F3 & F4 & F5 & F6 & F7 & F8 & F9).
  assert (Hsmall : Z.of_nat 0 < 2 ^ 31) by (cbn; lia).
  destruct (addDefaultData_eq v dcur dcty dpay cmp1 cmp2 s [] [] [] []
              F1 F2 F3 F4 Hsmall Hsmall Hsmall Hsmall
              (List.NoDup_nil _) NDdc NDdco NDdp)
    as (sb & cur' & cty' & pay' & Eb & Db).
  exists sb. split; [exact Eb |]. rewrite Db.
  match goal with
  | |- context [set_paymentMethods ?a (set_countries ?b (set_currencies ?c
                  (set_dbversion ?e ?d)))] =>
      destruct (seeded_fields a b c e d) as (S1 & (S2 & S3 & S4 & S5) & S6 & S7 & S8)
  end.
  cbv zeta in *.
  rewrite S1, S2, S3, S4, S5, S6.
  split; [reflexivity |]. split; [repeat split; assumption |].
  split; [exact F9 |].
  rewrite <- HS. apply getDbSchema_ext; [| exact S7].
  intros t. rewrite S8. destruct t; cbn [table_exists]; rewrite ?F1, ?F2, ?F3, ?F4; reflexivity.
Qed.

Lemma db_with_db f s : db (with_db f s) = f (db s).
Proof. reflexivity. Qed.

Lemma first_open
    (uiDexDBversionInCode : Z) (dataCurrencies : list DefaultCurrency)
    (dataCountries : list DefaultCountry)
    (dataPaymentMethods : list DefaultPaymentMethod)
    (cmp_name cmp_sortorder : DefaultCountry -> DefaultCountry -> bool)
    (s : DexDB) :
  Int.is_uint32 uiDexDBversionInCode ->
  empty_file (db s) ->
  seed_data_ok dataCurrencies dataCountries dataPaymentMethods ->
  exists s1,
    DexDB_ctor uiDexDBversionInCode dataCurrencies dataCountries
      dataPaymentMethods cmp_name cmp_sortorder s = (Return tt, s1) /\
    t_dbversion (db s1) = Some [Int.to_int32 uiDexDBversionInCode] /\
    (t_offersSell (db s1) = Some [] /\ t_offersBuy (db s1) = Some [] /\
     t_myOffers (db s1) = Some [] /\ t_filterList (db s1) = Some []) /\
    integrity_check (db s1) = "ok"%string /\
    getDbSchema (db s1) = schema_in_code.
Proof.
  intros HN He Hseed. apply empty_file_memory in He.
  set (s0 := with_isGetPaymentsDataFromDB true
               (with_isGetCurrenciesDataFromDB true
                  (with_isGetCountriesDataFromDB true
                     (with_payments [] (with_currencies [] (with_countries [] s)))))).
  assert (Hempty : fst (isDexDbEmpty s) = Return true)
    by (rewrite isDexDbEmpty_eq, He; reflexivity).
  destruct (addDefaultData_created uiDexDBversionInCode dataCurrencies dataCountries
              dataPaymentMethods cmp_name cmp_sortorder
              (with_db (fun _ => createIndexes created_tables)
                 (with_bOffersRescan true s0))
              (db_with_db _ _) Hseed)
    as (sb & Eb & Hv & Ht & Hi & Hs).
  assert (Hver : Int.to_uint32 (Int.to_int32 (hd 0 [Int.to_int32 uiDexDBversionInCode]))
                 = uiDexDBversionInCode).
  { cbn [hd]. now rewrite int32_idem, uint32_via_int32. }
  exists (with_bOffersRescan true sb).
  split; [| split; [exact Hv | split; [exact Ht | split; [exact Hi | exact Hs]]]].
  unfold DexDB_ctor.
  do 6 (eapply bind_step; [reflexivity |]).
  eapply bind_step; [exact (isDexDbEmpty_db s s0 true eq_refl Hempty) |].
  eapply bind_step.
  { eapply bind_step; [reflexivity |].
    eapply bind_step; [apply createTables_at; exact He |].
    eapply bind_step; [reflexivity |]. exact Eb. }
  eapply bind_step; [apply (checkDexDbIntegrity_ok sb Hi) |].
  eapply bind_step; [apply (isDexDbOutdated_eq _ sb _ Hv) |].
  rewrite Hver, Z.eqb_refl. cbn [negb].
  rewrite checkDexDbSchema_eq, bool_decide_eq_true_2 by exact Hs. reflexivity.
Qed.

(** X22.  The first construction on an empty file records the version of the
    code, creates the offer tables and the filter list empty, and leaves
    the schema the code checks for; a construction on the result
    succeeds and writes nothing. *)
Theorem first_open_then_reopen
    (uiDexDBversionInCode : Z) (dataCurrencies : list DefaultCurrency)
    (dataCountries : list DefaultCountry)
    (dataPaymentMethods : list DefaultPaymentMethod)
    (cmp_name cmp_sortorder : DefaultCountry -> DefaultCountry -> bool)
    (s : DexDB) :
  Int.is_uint32 uiDexDBversionInCode ->
  empty_file (db s) ->
  seed_data_ok dataCurrencies dataCountries dataPaymentMethods ->
  exists s1 s2,
    DexDB_ctor uiDexDBversionInCode dataCurrencies dataCountries
      dataPaymentMethods cmp_name cmp_sortorder s = (Return tt, s1) /\
    t_dbversion (db s1) = Some [Int.to_int32 uiDexDBversionInCode] /\
    (t_offersSell (db s1) = Some [] /\ t_offersBuy (db s1) = Some [] /\
     t_myOffers (db s1) = Some [] /\ t_filterList (db s1) = Some []) /\
    getDbSchema (db s1) = schema_in_code /\
    DexDB_ctor uiDexDBversionInCode dataCurrencies dataCountries
      dataPaymentMethods cmp_name cmp_sortorder s1 = (Return tt, s2) /\
    db s2 = db s1.
Proof.
  intros HN He Hseed.
  destruct (first_open uiDexDBversionInCode dataCurrencies dataCountries
              dataPaymentMethods cmp_name cmp_sortorder s HN He Hseed)
    as (s1 & E1 & Hv & Ht & Hi & Hs).
  assert (Hver : Int.to_uint32 (Int.to_int32 (hd 0 [Int.to_int32 uiDexDBversionInCode]))
                 = uiDexDBversionInCode).
  { cbn [hd]. now rewrite int32_idem, uint32_via_int32. }
  eexists s1, _. split; [exact E1 |]. split; [exact Hv |]. split; [exact Ht |].
  split; [exact Hs |].
  rewrite (ctor_on_current_file _ _ _ _ _ _ _ _ Hv Hver Hi), checkDexDbSchema_eq.
  rewrite bool_decide_eq_true_2 by exact Hs. split; reflexivity.
Qed.

Lemma first_open_then_reopen_witness :
  exists s1 s2,
    DexDB_ctor 1002 seed_currencies_sample seed_countries_sample
      seed_payments_sample cmp_name_sample cmp_sortorder_sample blank_store
    = (Return tt, s1) /\
    t_dbversion (db s1) = Some [Int.to_int32 1002] /\
    (t_offersSell (db s1) = Some [] /\ t_offersBuy (db s1) = Some [] /\
     t_myOffers (db s1) = Some [] /\ t_filterList (db s1) = Some []) /\
    getDbSchema (db s1) = schema_in_code /\
    DexDB_ctor 1002 seed_currencies_sample seed_countries_sample
      seed_payments_sample cmp_name_sample cmp_sortorder_sample s1 = (Return tt, s2) /\
    db s2 = db s1.
Proof.
  apply (first_open_then_reopen 1002 seed_currencies_sample seed_countries_sample
           seed_payments_sample cmp_name_sample cmp_sortorder_sample blank_store).
  - unfold Int.is_uint32. lia.
  - unfold empty_file. split; [intros t; destruct t; reflexivity |]. split; reflexivity.
  - unfold seed_data_ok.
    repeat split; repeat (constructor; [intros H; cbn in H; tauto |]); constructor.
Defined.

(** ** The process-wide instance *)








(** ** Backup retention *)








(** ** The order of the countries *)

Lemma with_db_with_db f g s : with_db f (with_db g s) = with_db (fun d => f (g d)) s.
Proof. reflexivity. Qed.

Lemma with_db_same s : with_db (fun d => d) s = s.
Proof. now destruct s. Qed.

Lemma with_db_set_countries_same s rows :
  t_countries (db s) = Some rows -> with_db (set_countries (Some rows)) s = s.
Proof.
  intros H. destruct s as [d]. unfold with_db; cbn in *.
  now rewrite <- H, set_countries_same.
Qed.

Lemma editCountries_loop_eq list : forall sort s rows,
  t_countries (db s) = Some rows ->
  editCountries_loop list sort s
  = (Return tt,
     with_delivered (fun d => d ++ fanout (callBack s) Countries Edit Ok)
       (with_db (set_countries (Some (renumbered list sort rows))) s)).
Proof.
  induction list as [| item list IH]; intros sort s rows Ht; cbn [editCountries_loop renumbered].
  - rewrite finishTableOperation_ok. now rewrite (with_db_set_countries_same s rows Ht).
  - unfold bind at 1. unfold editCountry at 1. unfold bind, gets, modify. rewrite Ht.
    unfold ret, SQLITE_OK. cbn [Z.eqb negb].
    erewrite IH by reflexivity.
    reflexivity.
Qed.

Lemma renumbered_iso list : forall sort rows,
  map countries_iso (renumbered list sort rows) = map countries_iso rows.
Proof.
  induction list as [| item list IH]; intros sort rows; cbn [renumbered]; [reflexivity |].
  rewrite IH, map_map. apply map_ext. intros r.
  now destruct (String.eqb _ _).
Qed.

Lemma renumbered_untouched list : forall sort rows x,
  ~ In (countries_iso x) (map country_iso list) ->
  In x (renumbered list sort rows) -> In x rows.
Proof.
  induction list as [| item list IH]; intros sort rows x Hn Hx; cbn [renumbered] in Hx;
    [exact Hx |].
  apply IH in Hx; [| intros H; apply Hn; now right].
  apply in_map_iff in Hx. destruct Hx as (r & E & Hr).
  destruct (String.eqb_spec (countries_iso r) (country_iso item)) as [Ei | Ei].
  - exfalso. apply Hn. left. rewrite <- E. cbn. now symmetry.
  - now subst.
Qed.

Lemma renumbered_effect list : forall sort rows x,
  List.NoDup (map country_iso list) ->
  In x (renumbered list sort rows) ->
  In (countries_iso x) (map country_iso list) ->
  countries_sortOrder x = sort + index_of (countries_iso x) (map country_iso list) /\
  countries_enabled x = enabled_in list (countries_iso x).
Proof.
  induction list as [| item list IH]; intros sort rows x Hnd Hx Hin; [contradiction |].
  cbn [map] in Hnd, Hin. inversion Hnd as [| ? ? Hni Hnd']; subst.
  cbn [renumbered] in Hx. cbn [map index_of]. unfold enabled_in. cbn [List.find].
  destruct (String.eqb_spec (country_iso item) (countries_iso x)) as [E | E].
  - apply renumbered_untouched in Hx; [| now rewrite <- E].
    apply in_map_iff in Hx. destruct Hx as (r & Er & Hr).
    destruct (String.eqb_spec (countries_iso r) (country_iso item)) as [Ei | Ei].
    + subst x. cbn. split; [lia | reflexivity].
    + subst x. now contradiction Ei.
  - destruct Hin as [Hin | Hin]; [contradiction |].
    destruct (IH (sort + 1) _ x Hnd' Hx Hin) as [H1 H2].
    split; [lia | exact H2].
Qed.

Lemma index_of_app a pre l :
  ~ In a pre -> index_of a (pre ++ l) = Z.of_nat (length pre) + index_of a l.
Proof.
  induction pre as [| x pre IH]; intros Hn; [cbn; lia |].
  cbn [app index_of length].
  destruct (String.eqb_spec x a) as [E | E]; [exfalso; apply Hn; now left |].
  rewrite IH by (intros H; apply Hn; now right). lia.
Qed.

Lemma index_of_nonneg a l : 0 <= index_of a l.
Proof.
  induction l as [| x l IH]; cbn; [lia |]. destruct (String.eqb x a); lia.
Qed.

Lemma index_of_sorted l0 suf : forall pre,
  l0 = pre ++ suf -> List.NoDup l0 ->
  StronglySorted (fun a b => index_of a l0 < index_of b l0) suf.
Proof.
  induction suf as [| x suf IH]; intros pre E Hnd; [constructor |].
  constructor.
  - apply (IH (pre ++ [x])); [now rewrite <- app_assoc | assumption].
  - subst l0. apply List.NoDup_remove in Hnd. destruct Hnd as [Hnd Hni].
    assert (Hxp : ~ In x pre) by (intros H; apply Hni, in_or_app; now left).
    apply List.Forall_forall. intros y Hy.
    assert (Hyx : x <> y) by (intros ->; apply Hni, in_or_app; now right).
    assert (Hyp : ~ In y pre).
    { intros H. apply List.NoDup_app_remove_r in Hnd as Hp.
      clear Hp. revert Hnd. clear -H Hy. induction pre as [| z pre IH]; [contradiction |].
      cbn. intros Hnd. inversion Hnd as [| ? ? Hz Hnd']; subst.
      destruct H as [-> | H]; [apply Hz, in_or_app; now right | now apply IH]. }
    rewrite !index_of_app by assumption. cbn [index_of].
    rewrite String.eqb_refl.
    destruct (String.eqb_spec x y) as [Exy | _]; [contradiction |].
    pose proof (index_of_nonneg y suf). lia.
Qed.

Lemma index_of_inj l a b :
  In a l -> In b l -> index_of a l = index_of b l -> a = b.
Proof.
  induction l as [| x l IH]; intros Ha Hb E; [contradiction |].
  cbn [index_of] in E.
  destruct (String.eqb_spec x a) as [Ea | Ea], (String.eqb_spec x b) as [Eb | Eb].
  - congruence.
  - pose proof (index_of_nonneg b l). lia.
  - pose proof (index_of_nonneg a l). lia.
  - destruct Ha as [Ha | Ha]; [contradiction |].
    destruct Hb as [Hb | Hb]; [contradiction |].
    apply IH; [assumption | assumption | lia].
Qed.

Lemma enabled_in_item list : forall item,
  List.NoDup (map country_iso list) -> In item list ->
  enabled_in list (country_iso item) = country_enabled item.
Proof.
  induction list as [| x list IH]; intros item Hnd Hin; [contradiction |].
  cbn [map] in Hnd. inversion Hnd as [| ? ? Hni Hnd']; subst.
  unfold enabled_in. cbn [List.find].
  destruct (String.eqb_spec (country_iso x) (country_iso item)) as [E | E].
  - destruct Hin as [-> | Hin]; [reflexivity |].
    exfalso. apply Hni. rewrite E. now apply in_map.
  - destruct Hin as [-> | Hin]; [contradiction |]. now apply IH.
Qed.

Lemma Sorted_le_StronglySorted {A} (key : A -> Z) l :
  Sorted (fun a b => key a <= key b) l ->
  StronglySorted (fun a b => key a <= key b) l.
Proof. apply Sorted_StronglySorted. intros x y z. lia. Qed.

Lemma strict_sorted_map (S : list CountryRow) (T : list string) :
  StronglySorted (fun a b => countries_sortOrder a <= countries_sortOrder b) S ->
  List.NoDup (map countries_iso S) ->
  (forall x, In x S ->
     countries_sortOrder x = index_of (countries_iso x) T /\ In (countries_iso x) T) ->
  StronglySorted (fun a b => index_of a T < index_of b T) (map countries_iso S).
Proof.
  induction S as [| x S IH]; intros Hs Hnd Hf; [constructor |].
  inversion Hs as [| ? ? Hs' Hall]; subst.
  cbn [map] in Hnd |- *. inversion Hnd as [| ? ? Hni Hnd']; subst.
  constructor.
  - apply IH; try assumption. intros y Hy. apply Hf. now right.
  - apply List.Forall_forall. intros b Hb. apply in_map_iff in Hb.
    destruct Hb as (y & <- & Hy).
    rewrite List.Forall_forall in Hall. specialize (Hall y Hy).
    destruct (Hf x (or_introl eq_refl)) as [Ex Hx].
    destruct (Hf y (or_intror Hy)) as [Ey Hyt].
    rewrite Ex, Ey in Hall.
    assert (index_of (countries_iso x) T <> index_of (countries_iso y) T).
    { intros E. apply Hni. rewrite (index_of_inj T _ _ Hx Hyt E). now apply in_map. }
    lia.
Qed.

Lemma getCountriesInfo_eq s rows :
  t_countries (db s) = Some rows ->
  isGetCountriesDataFromDB s = true ->
  getCountriesInfo s
  = (Return (countries s ++ map CountryInfo_of
               (list_sort (fun a b => countries_sortOrder a <? countries_sortOrder b) rows)),
     with_delivered (fun d => d ++ fanout (callBack s) Countries Read Ok)
       (with_isGetCountriesDataFromDB false
          (with_countries
             (countries s ++ map CountryInfo_of
                (list_sort (fun a b => countries_sortOrder a <? countries_sortOrder b) rows))
             s))).
Proof.
  intros Ht Hflag. unfold getCountriesInfo. unfold bind, gets, modify.
  rewrite Hflag, Ht. cbn [callBack with_countries with_isGetCountriesDataFromDB].
  unfold finish, SQLITE_OK. rewrite finishTableOperation_ok. reflexivity.
Qed.

(** X26.  [editCountries] with a list that names each country of the table
    once stores the order and the flags of the list: the next
    [getCountriesInfo] returns the countries in that order, enabled as
    the list says. *)
Theorem editCountries_sets_the_order (rows : list CountryRow) (s : DexDB)
    (list : list CountryInfo) :
  t_countries (db s) = Some rows ->
  Z.of_nat (length list) < 2 ^ 31 ->
  List.NoDup (map country_iso list) ->
  Permutation (map countries_iso rows) (map country_iso list) ->
  isGetCountriesDataFromDB s = true ->
  countries s = [] ->
  exists s1 s2 l,
    editCountries list s = (Return tt, s1) /\
    getCountriesInfo s1 = (Return l, s2) /\
    map country_iso l = map country_iso list /\
    map country_enabled l = map country_enabled list.
Proof.
  intros Ht _ Hndl Hperm Hflag Hcache.
  unfold editCountries. rewrite bind_modify.
  set (s0 := if Nat.eqb (length (countries s)) (length list)
             then with_countries list s else s).
  assert (Hs0 : db s0 = db s /\ isGetCountriesDataFromDB s0 = true /\ countries s0 = [])
    by (subst s0; rewrite Hcache; destruct list; cbn; repeat split; assumption).
  destruct Hs0 as (Hd0 & Hf0 & Hc0).
  rewrite (editCountries_loop_eq list 0 s0 rows) by (now rewrite Hd0).
  set (rows1 := renumbered list 0 rows).
  match goal with |- context [(Return tt, ?st)] => set (s1 := st) end.
  assert (Ht1 : t_countries (db s1) = Some rows1) by reflexivity.
  assert (Hf1 : isGetCountriesDataFromDB s1 = true) by exact Hf0.
  assert (Hc1 : countries s1 = []) by exact Hc0.
  exists s1. eexists. eexists. split; [reflexivity |].
  rewrite (getCountriesInfo_eq s1 rows1 Ht1 Hf1), Hc1.
  split; [reflexivity |]. cbn [app].
  set (S := list_sort (fun a b => countries_sortOrder a <? countries_sortOrder b) rows1).
  assert (HpS : Permutation S rows1) by apply list_sort_perm.
  assert (HsS : StronglySorted
                  (fun a b => countries_sortOrder a <= countries_sortOrder b) S)
    by (apply Sorted_le_StronglySorted, list_sort_Sorted).
  assert (Hiso1 : Permutation (map countries_iso S) (map country_iso list)).
  { rewrite (Permutation_map countries_iso HpS). unfold rows1.
    now rewrite renumbered_iso. }
  assert (Hfacts : forall x, In x S ->
            countries_sortOrder x = index_of (countries_iso x) (map country_iso list) /\
            countries_enabled x = enabled_in list (countries_iso x)).
  { intros x Hx. apply (Permutation_in _ HpS) in Hx.
    assert (Hin : In (countries_iso x) (map country_iso list)).
    { apply (Permutation_in _ Hperm). rewrite <- (renumbered_iso list 0 rows).
      now apply in_map. }
    destruct (renumbered_effect list 0 rows x Hndl Hx Hin) as [H1 H2].
    split; [lia | exact H2]. }
  assert (HndS : List.NoDup (map countries_iso S)).
  { apply (Permutation_NoDup (Permutation_sym Hiso1)). exact Hndl. }
  assert (Hanti : AntiSymm eq (fun a b => index_of a (map country_iso list)
                                          < index_of b (map country_iso list)))
    by (intros a b H1 H2; lia).
  assert (Eiso : map countries_iso S = map country_iso list).
  { apply (@StronglySorted_unique _ _ Hanti).
    - apply strict_sorted_map; [exact HsS | exact HndS |].
      intros x Hx. split; [now apply Hfacts |].
      apply (Permutation_in _ Hiso1). now apply in_map.
    - apply (index_of_sorted _ _ []); [reflexivity | assumption].
    - exact Hiso1. }
  split.
  - rewrite <- Eiso, map_map. reflexivity.
  - rewrite map_map. cbn [CountryInfo_of country_enabled].
    transitivity (map (enabled_in list) (map countries_iso S)).
    + rewrite map_map. apply map_ext_in. intros x Hx. now apply Hfacts.
    + rewrite Eiso, map_map. apply map_ext_in. intros item Hitem.
      now apply enabled_in_item.
Qed.

Lemma editCountries_sets_the_order_witness :
  let list := [{| country_iso := "RU"; country_name := ""; country_enabled := false |}] in
  exists s1 s2 l,
    editCountries list legacy_store = (Return tt, s1) /\
    getCountriesInfo s1 = (Return l, s2) /\
    map country_iso l = map country_iso list /\
    map country_enabled l = map country_enabled list.
Proof.
  apply (editCountries_sets_the_order legacy_countries legacy_store
           [{| country_iso := "RU"; country_name := ""; country_enabled := false |}]).
  - reflexivity.
  - cbn. lia.
  - constructor; [intros [] | constructor].
  - reflexivity.
  - reflexivity.
  - reflexivity.
Defined.
